(** * ALS_WCC: the Woodland Carbon Code pipeline of [my_functions/wcc.py]

    A shallow embedding of [tree_statistics],
    [calculate_tariff_numbers_and_volume], [calculate_biomass],
    [calculate_carbon_and_co2_for_trees_and_saplings] and the per-species
    loop of [calculate_and_print_species_biomass_and_carbon].

    Python [float] and NumPy [float64] are IEEE 754 binary64: they are
    modelled by Rocq's primitive floats, whose [+], [-], [*], [/] and [sqrt]
    are the same correctly rounded operations.  The power [x ** p] is the C
    library's and is a parameter.  Python [int] is [Z].  Exceptions are
    explicit: every function that can raise returns a [result]. *)

From Stdlib Require Import ZArith List String Ascii Bool Lia QArith Qpower.
From Stdlib Require Import Floats.
From Stdlib Require Import Reals Lra Qreals.
Import ListNotations.

Set Warnings "-inexact-float".

Local Open Scope Z_scope.

(** ** Exceptions *)

Inductive exception : Type :=
| ValueError (msg : string)
| OverflowError (msg : string)
| KeyError (key : string)
| IndexError (msg : string)
| ZeroDivisionError (msg : string).

Inductive result (A : Type) : Type :=
| Ok (a : A)
| Raise (e : exception).

Arguments Ok {A} a.
Arguments Raise {A} e.

Definition bind {A B : Type} (r : result A) (k : A -> result B) : result B :=
  match r with
  | Ok a => k a
  | Raise e => Raise e
  end.

Notation "x <- r ;; k" := (bind r (fun x => k))
  (at level 61, r at next level, right associativity).

Definition returns {A : Type} (r : result A) : Prop := exists a, r = Ok a.

(** ** Binary64 values read exactly

    A finite float is [M * 2^e] for a signed integer mantissa [M]; NaN and
    the infinities have no such reading. *)

Definition float_exact (x : float) : option (Z * Z) :=
  match Prim2SF x with
  | S754_zero _ => Some (0, 0)
  | S754_finite s m e => Some (cond_Zopp s (Zpos m), e)
  | S754_infinity _ | S754_nan => None
  end.

(** The exact value as a rational (0 for NaN and the infinities). *)
Definition F2Q (x : float) : Q :=
  match float_exact x with
  | Some (M, e) => (inject_Z M * Qpower 2 e)%Q
  | None => 0%Q
  end.

(** Floor of [M * 2^e]: a left shift, and for [e < 0] the arithmetic right
    shift, which rounds toward minus infinity. *)
Definition exact_floor (M e : Z) : Z := Z.shiftl M e.

(** [M * 2^e] truncated toward zero. *)
Definition exact_trunc (M e : Z) : Z :=
  if 0 <=? e then M * 2 ^ e else Z.quot M (2 ^ (- e)).

(** [M * 2^e] rounded to the nearest integer, ties to the even one. *)
Definition exact_round_half_even (M e : Z) : Z :=
  if 0 <=? e then M * 2 ^ e
  else
    let d := 2 ^ (- e) in
    let q := M / d in
    let r := M mod d in
    match 2 * r ?= d with
    | Lt => q
    | Gt => q + 1
    | Eq => if Z.even q then q else q + 1
    end.

Definition msg_nan : string := "cannot convert float NaN to integer".
Definition msg_inf : string := "cannot convert float infinity to integer".

(** What [int(x)], [math.floor(x)] and [round(x)] share: NaN raises
    ValueError, an infinity raises OverflowError. *)
Definition float_to_int (conv : Z -> Z -> Z) (x : float) : result Z :=
  match float_exact x with
  | Some (M, e) => Ok (conv M e)
  | None => if is_nan x then Raise (ValueError msg_nan)
            else Raise (OverflowError msg_inf)
  end.

(** [int(x)] on a float. *)
Definition py_int : float -> result Z := float_to_int exact_trunc.

(** [math.floor(x)]. *)
Definition math_floor : float -> result Z := float_to_int exact_floor.

(** [round(x)] with no [ndigits]: the nearest [int], ties to even. *)
Definition py_round : float -> result Z := float_to_int exact_round_half_even.

(** The float nearest to the integer [n] (round to nearest, ties to even). *)
Definition Z2F (n : Z) : float := SF2Prim (binary_normalize prec emax n 0 false).

(** [int] to [float], as the mixed arithmetic [n * x], [n - x] does it:
    OverflowError when the integer is beyond the finite floats. *)
Definition int_to_float (n : Z) : result float :=
  let f := Z2F n in
  if is_finite f then Ok f
  else Raise (OverflowError "int too large to convert to float").

(** The float nearest to [n / d], for [d > 0]: the quotient is taken with 64
    extra bits and a sticky bit for the remainder, then rounded once. *)
Definition nearest_ratio (s : bool) (n d : Z) : float :=
  if n =? 0 then (if s then neg_zero else zero)
  else
    let a := Z.abs n * 2 ^ 64 in
    let q := a / d in
    let sticky := if a mod d =? 0 then 0 else 1 in
    SF2Prim (binary_normalize prec emax (cond_Zopp s (2 * q + sticky)) (-65) false).

(** [round(x, 1)] on a Python float: the exact value is rounded to one
    decimal (ties to even) and the decimal converted back, each correctly
    rounded; NaN, infinities and integral values are returned unchanged. *)
Definition py_round1 (x : float) : float :=
  match float_exact x with
  | Some (M, e) =>
      if 0 <=? e then x
      else nearest_ratio (get_sign x) (exact_round_half_even (10 * M) e) 10
  | None => x
  end.

(** C [rint] in the default rounding mode: the nearest integral float, ties
    to even, the sign kept. *)
Definition rint (x : float) : float :=
  match float_exact x with
  | Some (M, e) =>
      if 0 <=? e then x
      else nearest_ratio (get_sign x) (exact_round_half_even M e) 1
  | None => x
  end.

(** [round(x, 1)] on a NumPy [float64] scalar ([ndarray.round]): scale by
    ten, [rint], divide by ten. *)
Definition np_round1 (x : float) : float := (rint (x * 10) / 10)%float.

(** A binary64 value is a Python [float] or a NumPy [float64]; [round(x, 1)]
    is the one operation of this program that tells them apart. *)
Inductive float_kind : Type := python_float | numpy_float64.

Definition round1 (kind : float_kind) (x : float) : float :=
  match kind with
  | python_float => py_round1 x
  | numpy_float64 => np_round1 x
  end.

(** ** Dictionaries

    A Python [dict] keeps insertion order and the remainder distribution of
    [tree_statistics] depends on it, so a dict with string keys is an
    association list with distinct keys. *)

Section Dict.
Context {V : Type}.

Definition dict := list (string * V).

Fixpoint dict_get (d : dict) (k : string) : option V :=
  match d with
  | [] => None
  | (k', v) :: d' => if String.eqb k k' then Some v else dict_get d' k
  end.

(** [d[k] = v]: the value of an existing key is replaced in place, a new
    key goes last. *)
Fixpoint dict_set (d : dict) (k : string) (v : V) : dict :=
  match d with
  | [] => [(k, v)]
  | (k', v') :: d' =>
      if String.eqb k k' then (k', v) :: d' else (k', v') :: dict_set d' k v
  end.

Definition keys (d : dict) : list string := map fst d.

(** [d[k]] as an expression: KeyError on a missing key. *)
Definition dict_item (d : dict) (k : string) : result V :=
  match dict_get d k with
  | Some v => Ok v
  | None => Raise (KeyError k)
  end.

(** [d.get(k, default)]. *)
Definition dict_get_default (d : dict) (k : string) (default : V) : V :=
  match dict_get d k with
  | Some v => v
  | None => default
  end.

Definition well_formed (d : dict) : Prop := NoDup (keys d).
End Dict.

Arguments dict V : clear implicits.

(** ** Small pieces of Python *)

(** [a % n] on ints. *)
Definition py_mod (a n : Z) : result Z :=
  if n =? 0 then Raise (ZeroDivisionError "integer modulo by zero")
  else Ok (a mod n).

(** [l[i]] for [0 <= i]; the distribution loops only index in range. *)
Definition list_item (l : list string) (i : Z) : result string :=
  match nth_error l (Z.to_nat i) with
  | Some s => Ok s
  | None => Raise (IndexError "list index out of range")
  end.

(** [x ** p] on floats.  CPython's [float_pow] and C99's [pow] both answer
    1.0 for a zero exponent, whatever [x] is; every other case is left to the
    platform's C library, the parameter [pow]. *)
Definition float_pow (pow : float -> float -> float) (x p : float) : float :=
  if (p =? 0)%float then 1%float else pow x p.

(** [n * x] for an int [n] and a float [x]. *)
Definition int_mul_float (n : Z) (x : float) : result float :=
  f <- int_to_float n ;; Ok (f * x)%float.

(** [x * n] for a float [x] and an int [n]. *)
Definition float_mul_int (x : float) (n : Z) : result float :=
  f <- int_to_float n ;; Ok (x * f)%float.

(** ** [Series.mean()]

    The nine statistics of [tree_statistics] are pandas means of a float
    column.  pandas ([nanops.nanmean]) replaces the NaN entries by 0, sums the
    column with NumPy's [add.reduce] and divides the sum by the number of
    entries that are not NaN; the mean of no such entry is NaN. *)

(** [res += a[i]] over the values, from left to right. *)
Definition sum_left (res : float) (xs : list float) : float :=
  fold_left PrimFloat.add xs res.

(** The eight accumulators [r[0]], ..., [r[7]] of NumPy's unrolled loop. *)
Record accumulators : Type := {
  r0 : float; r1 : float; r2 : float; r3 : float;
  r4 : float; r5 : float; r6 : float; r7 : float
}.

(** [for (i = 8; i < n - (n % 8); i += 8) r[j] += a[i + j]]: every full
    block of eight values is added to the accumulators, position by
    position; what is left, fewer than eight values, is returned. *)
Fixpoint unrolled_loop (r : accumulators) (xs : list float)
    : accumulators * list float :=
  match xs with
  | x0 :: x1 :: x2 :: x3 :: x4 :: x5 :: x6 :: x7 :: rest =>
      unrolled_loop
        {| r0 := r0 r + x0; r1 := r1 r + x1; r2 := r2 r + x2; r3 := r3 r + x3;
           r4 := r4 r + x4; r5 := r5 r + x5; r6 := r6 r + x6; r7 := r7 r + x7
        |}%float
        rest
  | _ => (r, xs)
  end.

(** A block of 8 to 128 values: the accumulators start at the first eight
    values, are added as a tree of pairs after the loop, and the values left
    over are added one by one.  (A shorter block is summed from left to
    right.) *)
Definition block_sum (xs : list float) : float :=
  match xs with
  | x0 :: x1 :: x2 :: x3 :: x4 :: x5 :: x6 :: x7 :: rest =>
      let '(r, left_over) :=
        unrolled_loop
          {| r0 := x0; r1 := x1; r2 := x2; r3 := x3;
             r4 := x4; r5 := x5; r6 := x6; r7 := x7 |} rest in
      sum_left
        (((r0 r + r1 r) + (r2 r + r3 r)) + ((r4 r + r5 r) + (r6 r + r7 r)))%float
        left_over
  | _ => sum_left 0%float xs
  end.

(** NumPy's pairwise summation ([pairwise_sum] of the float loops): fewer
    than eight values from left to right, up to 128 values as one block, and
    more values as the sum of two halves, the first of [n / 2] values less
    [n / 2 % 8].  [depth] bounds the nesting of the halves: each half is
    shorter than the whole, so the number of values is depth enough. *)
Fixpoint pairwise_sum (depth : nat) (xs : list float) : float :=
  let n := List.length xs in
  if (n <? 8)%nat then sum_left 0%float xs
  else if (n <=? 128)%nat then block_sum xs
  else
    match depth with
    | O => block_sum xs
    | S depth' =>
        let n2 := (n / 2 - (n / 2) mod 8)%nat in
        (pairwise_sum depth' (firstn n2 xs) + pairwise_sum depth' (skipn n2 xs))%float
    end.

(** [values.sum()]: the reduction starts at the identity 0 of [add]. *)
Definition np_sum (xs : list float) : float :=
  (0 + pairwise_sum (List.length xs) xs)%float.

(** The NaN entries replaced by 0 ([np.putmask(values, mask, 0)]). *)
Definition fill_nan (xs : list float) : list float :=
  map (fun x => if is_nan x then 0%float else x) xs.

(** The number of entries that are not NaN. *)
Definition count_valid (xs : list float) : nat :=
  List.length (filter (fun x => negb (is_nan x)) xs).

Definition series_mean (xs : list float) : float :=
  let count := count_valid xs in
  if (0 <? count)%nat then (np_sum (fill_nan xs) / Z2F (Z.of_nat count))%float
  else nan.

(** [numpy.pi]. *)
Definition np_pi : float := 3.141592653589793%float.

(** ** [tree_statistics] *)

Record row : Type := {
  Type_ : string;
  Year : Z;
  DBH : float;
  top_height : float
}.

Definition dataframe := list row.

(** One value of [species_distribution]. *)
Record allocation : Type := {
  trees : Z;
  saplings : Z;
  largetrees : Z
}.

Record tree_stats : Type := {
  number_of_trees : Z;
  number_of_saplings : Z;
  number_of_largetrees : Z;
  mean_tree_height : float;
  mean_dbh_trees : float;
  mean_sapling_height : float;
  mean_dbh_saplings : float;
  mean_largetree_height : option float;
  mean_dbh_largetrees : option float;
  quadratic_mean_dbh : float;
  mean_basal_area : float;
  species_distribution : dict allocation
}.

Definition is_tree (d : float) : bool := (7 <? d)%float.
Definition is_sapling (d : float) : bool := (d <=? 7)%float.
Definition is_largetree (d : float) : bool := (50 <? d)%float.

(** [df[(df['Type'] == planting_mix) & (df['Year'] == year) & cls(df['DBH'])]] *)
Definition select (df : dataframe) (planting_mix : string) (year : Z)
    (cls : float -> bool) : dataframe :=
  filter (fun r => String.eqb (Type_ r) planting_mix && (Year r =? year) && cls (DBH r)) df.

(** [int(count * percentage)] *)
Definition share (count : Z) (percentage : float) : result Z :=
  x <- int_mul_float count percentage ;; py_int x.

(** The state of the first loop: the dict under construction and the three
    running totals. *)
Record allocated : Type := {
  distribution : dict allocation;
  total_trees_allocated : Z;
  total_saplings_allocated : Z;
  total_large_trees_allocated : Z
}.

(** [for species, percentage in percentages.items(): ...] *)
Fixpoint initial_allocation (items : list (string * float)) (nt ns nl : Z)
    (st : allocated) : result allocated :=
  match items with
  | [] => Ok st
  | (species, percentage) :: rest =>
      num_trees <- share nt percentage ;;
      num_saplings <- share ns percentage ;;
      num_large_trees <- share nl percentage ;;
      initial_allocation rest nt ns nl
        {| distribution :=
             dict_set (distribution st) species
               {| trees := num_trees; saplings := num_saplings;
                  largetrees := num_large_trees |};
           total_trees_allocated := total_trees_allocated st + num_trees;
           total_saplings_allocated := total_saplings_allocated st + num_saplings;
           total_large_trees_allocated :=
             total_large_trees_allocated st + num_large_trees |}
  end.

Definition incr_trees (a : allocation) : allocation :=
  {| trees := trees a + 1; saplings := saplings a; largetrees := largetrees a |}.
Definition incr_saplings (a : allocation) : allocation :=
  {| trees := trees a; saplings := saplings a + 1; largetrees := largetrees a |}.
Definition incr_largetrees (a : allocation) : allocation :=
  {| trees := trees a; saplings := saplings a; largetrees := largetrees a + 1 |}.

(** [while remaining > 0: d[species_list[index % len(species_list)]][f] += 1;
    remaining -= 1; index += 1], by recursion on the number of rounds left. *)
Fixpoint distribute (incr : allocation -> allocation) (species_list : list string)
    (rounds : nat) (index : Z) (d : dict allocation) : result (dict allocation) :=
  match rounds with
  | O => Ok d
  | S rounds' =>
      i <- py_mod index (Z.of_nat (List.length species_list)) ;;
      species <- list_item species_list i ;;
      a <- dict_item d species ;;
      distribute incr species_list rounds' (index + 1) (dict_set d species (incr a))
  end.

(** The rounds of [while remaining > 0]: none when [remaining <= 0]. *)
Definition distribute_remaining (incr : allocation -> allocation)
    (species_list : list string) (remaining : Z) (d : dict allocation)
    : result (dict allocation) :=
  distribute incr species_list (Z.to_nat remaining) 0 d.

Definition empty_allocated : allocated :=
  {| distribution := []; total_trees_allocated := 0;
     total_saplings_allocated := 0; total_large_trees_allocated := 0 |}.

Definition tree_statistics (pow : float -> float -> float) (df : dataframe)
    (percentages : dict float) (planting_mix : string) (year : Z)
    : result tree_stats :=
  let filtered_df_trees := select df planting_mix year is_tree in
  let filtered_df_saplings := select df planting_mix year is_sapling in
  let filtered_df_largetrees := select df planting_mix year is_largetree in
  let number_of_trees := Z.of_nat (List.length filtered_df_trees) in
  let number_of_saplings := Z.of_nat (List.length filtered_df_saplings) in
  let number_of_largetrees := Z.of_nat (List.length filtered_df_largetrees) in
  st <- initial_allocation percentages number_of_trees number_of_saplings
          number_of_largetrees empty_allocated ;;
  let remaining_trees := number_of_trees - total_trees_allocated st in
  let remaining_saplings := number_of_saplings - total_saplings_allocated st in
  let remaining_large_trees :=
    number_of_largetrees - total_large_trees_allocated st in
  let species_list := keys percentages in
  d1 <- distribute_remaining incr_trees species_list remaining_trees (distribution st) ;;
  d2 <- distribute_remaining incr_saplings species_list remaining_saplings d1 ;;
  d3 <- distribute_remaining incr_largetrees species_list remaining_large_trees d2 ;;
  let mean_tree_height := series_mean (map top_height filtered_df_trees) in
  let mean_dbh_trees := series_mean (map DBH filtered_df_trees) in
  let mean_sapling_height := series_mean (map top_height filtered_df_saplings) in
  let mean_dbh_saplings := series_mean (map DBH filtered_df_saplings) in
  let mean_largetree_height :=
    if 0 <? number_of_largetrees
    then Some (series_mean (map top_height filtered_df_largetrees)) else None in
  let mean_dbh_largetrees :=
    if 0 <? number_of_largetrees
    then Some (series_mean (map DBH filtered_df_largetrees)) else None in
  let squared_dbh := map (fun d => (d * d)%float) (map DBH filtered_df_trees) in
  let mean_squared_dbh := series_mean squared_dbh in
  let quadratic_mean_dbh := np_round1 (PrimFloat.sqrt mean_squared_dbh) in
  let mean_basal_area := (np_pi * float_pow pow (quadratic_mean_dbh / 200) 2)%float in
  Ok {| number_of_trees := number_of_trees;
        number_of_saplings := number_of_saplings;
        number_of_largetrees := number_of_largetrees;
        mean_tree_height := mean_tree_height;
        mean_dbh_trees := mean_dbh_trees;
        mean_sapling_height := mean_sapling_height;
        mean_dbh_saplings := mean_dbh_saplings;
        mean_largetree_height := mean_largetree_height;
        mean_dbh_largetrees := mean_dbh_largetrees;
        quadratic_mean_dbh := quadratic_mean_dbh;
        mean_basal_area := mean_basal_area;
        species_distribution := d3 |}.

(** ** [calculate_tariff_numbers_and_volume] *)

Local Open Scope string_scope.
Local Open Scope float_scope.

Record volume_stats : Type := {
  tariff_number : Z;
  mean_tree_volume : float;
  total_stem_volume : float
}.

(** Tariff coefficients [(a1, a2, a3, a4)] of the broadleaf species. *)
Definition broadleaf_constants : dict (float * float * float * float) :=
  [
    ("oak", (5.88300, 2.01230, (-0.0054780), (-0.0057397)));
    ("beech", (7.48490, 1.92620, (-0.0037881), (-0.0082745)));
    ("sycamore", (9.76130, 1.58670, (-0.0569660), (-0.0033867)));
    ("ash", (9.16050, 2.02560, (-0.0668420), (-0.0044172)));
    ("birch", (5.62370, 2.23800, 0.0871700, (-0.0332620)));
    ("elm", (6.28870, 1.69950, 0.0285120, (-0.0069294)));
    ("poplar", (10.90625, 1.05327, 0.0, 0.0))
  ]%float.

(** Tariff coefficients [(a1, a2, a3)] of the conifer species. *)
Definition conifer_constants : dict (float * float * float) :=
  [
    ("Scots pine", (9.817387, 1.177486, (-0.114174)));
    ("Corsican pine", (5.070842, 1.754053, (-0.193834)));
    ("lodgepole pine", (8.855292, 1.951643, (-0.689619)));
    ("Sitka spruce", (8.292030, 1.771173, (-0.416509)));
    ("Norway spruce", (9.939311, 1.985697, (-0.650625)));
    ("European larch", (5.562167, 1.908473, (-0.426567)));
    ("Japanese larch", (8.478127, 1.788768, (-0.449816)));
    ("Douglas fir", (10.397480, 1.477313, (-0.325653)));
    ("western hemlock", (8.762511, 1.959230, (-0.586275)));
    ("western red cedar", (10.637312, 1.735383, (-0.630551)));
    ("grand fir", (6.565630, 2.043490, (-0.591550)));
    ("noble fir", (7.028548, 1.930016, (-0.373808)))
  ]%float.

Definition species_not_in_constants (species : string) : exception :=
  ValueError ("Species '" ++ species ++
              "' not found in either conifer or broadleaf constants.").

(** Equation 3, before flooring: the conifer table is consulted first. *)
Definition single_tree_tariff (species : string)
    (mean_tree_height mean_dbh_trees : float) : result float :=
  match dict_get conifer_constants species with
  | Some (a1, a2, a3) =>
      Ok (a1 + (a2 * mean_tree_height) + (a3 * mean_dbh_trees))
  | None =>
      match dict_get broadleaf_constants species with
      | Some (a1, a2, a3, a4) =>
          Ok (a1 + (a2 * mean_tree_height) + (a3 * mean_dbh_trees)
              + (a4 * mean_dbh_trees * mean_tree_height))
      | None => Raise (species_not_in_constants species)
      end
  end.

(** The correction factor by mean DBH: the [if]/[elif] chain of the source,
    one comparison per band, NaN falling through to the last branch. *)
Definition multiplication_factor (mean_dbh_trees : float) : float :=
  if 33 <=? mean_dbh_trees then 1.00
  else if 32 <=? mean_dbh_trees then 1.01
  else if 31 <=? mean_dbh_trees then 1.01
  else if 30 <=? mean_dbh_trees then 1.01
  else if 29 <=? mean_dbh_trees then 1.01
  else if 28 <=? mean_dbh_trees then 1.01
  else if 27 <=? mean_dbh_trees then 1.01
  else if 26 <=? mean_dbh_trees then 1.01
  else if 25 <=? mean_dbh_trees then 1.01
  else if 24 <=? mean_dbh_trees then 1.01
  else if 23 <=? mean_dbh_trees then 1.01
  else if 22 <=? mean_dbh_trees then 1.01
  else if 21 <=? mean_dbh_trees then 1.02
  else if 20 <=? mean_dbh_trees then 1.02
  else if 19 <=? mean_dbh_trees then 1.02
  else if 18 <=? mean_dbh_trees then 1.02
  else if 17 <=? mean_dbh_trees then 1.03
  else if 16 <=? mean_dbh_trees then 1.03
  else if 15 <=? mean_dbh_trees then 1.04
  else if 14 <=? mean_dbh_trees then 1.05
  else if 13 <=? mean_dbh_trees then 1.06
  else if 12 <=? mean_dbh_trees then 1.07
  else if 11 <=? mean_dbh_trees then 1.09
  else if 10 <=? mean_dbh_trees then 1.12
  else if 9 <=? mean_dbh_trees then 1.15
  else if 8 <=? mean_dbh_trees then 1.19
  else 1.30.

Definition calculate_tariff_numbers_and_volume (tree_stats : tree_stats)
    (species : string) : result volume_stats :=
  let mean_tree_height := mean_tree_height tree_stats in
  let mean_basal_area := mean_basal_area tree_stats in
  let species_distribution := species_distribution tree_stats in
  let mean_dbh_trees := mean_dbh_trees tree_stats in
  tariff <- single_tree_tariff species mean_tree_height mean_dbh_trees ;;
  tariff_number <- math_floor tariff ;;
  t <- int_to_float tariff_number ;;
  let a2 := 0.315049301 * (t - 0.138763302) in
  let a1 := (0.0360541 * t) - (a2 * 0.118288) in
  let mean_tree_volume := a1 + (a2 * mean_basal_area) in
  a <- dict_item species_distribution species ;;
  total_volume <- float_mul_int mean_tree_volume (trees a) ;;
  let total_stem_volume := total_volume * multiplication_factor mean_dbh_trees in
  Ok {| tariff_number := tariff_number;
        mean_tree_volume := mean_tree_volume;
        total_stem_volume := total_stem_volume |}.

(** ** [calculate_biomass] *)

Record biomass_stats : Type := {
  total_stem_biomass : float;
  total_crown_biomass : float;
  total_root_biomass : float;
  total_AGB : float;
  total_biomass : float
}.

(** Table 5.2.1: nominal specific gravity. *)
Definition nominal_specific_gravity : dict float :=
  [
    ("Scots pine", 0.42);
    ("Corsican pine", 0.40);
    ("lodgepole pine", 0.39);
    ("maritime pine", 0.41);
    ("Weymouth pine", 0.29);
    ("Sitka spruce", 0.33);
    ("Norway spruce", 0.33);
    ("Omorika spruce", 0.33);
    ("European larch", 0.45);
    ("Japanese larch", 0.41);
    ("hybrid larch", 0.38);
    ("Douglas fir", 0.41);
    ("western hemlock", 0.36);
    ("western red cedar", 0.31);
    ("Lawson cypress", 0.33);
    ("Leyland cypress", 0.38);
    ("grand fir", 0.30);
    ("noble fir", 0.31);
    ("silver fir", 0.38);
    ("oak", 0.56);
    ("red oak", 0.57);
    ("beech", 0.55);
    ("sycamore", 0.49);
    ("ash", 0.53);
    ("birch", 0.53);
    ("poplar", 0.35);
    ("sweet chestnut", 0.44);
    ("horse chestnut", 0.44);
    ("alder", 0.42);
    ("lime", 0.44);
    ("elm", 0.43);
    ("wych elm", 0.50);
    ("wild cherry", 0.50);
    ("hornbeam", 0.57)
  ]%float.

(** Table 5.2.2: crown biomass, DBH from 7 cm to 50 cm (Equation 6). *)
Definition crown_biomass_coefficients_7_to_50 : dict (float * float) :=
  [
    ("European larch", (0.0000438717, 2.0291));
    ("Corsican pine", (0.0000122645, 2.4767));
    ("lodgepole pine", (0.0000176287, 2.4767));
    ("Scots pine", (0.0000161411, 2.4767));
    ("firs, spruces, cedars, hemlocks", (0.0000144620, 2.4767));
    ("Douglas fir", (0.0000168602, 2.4767));
    ("Beech", (0.0000188154, 2.4767));
    ("oak", (0.0000168513, 2.4767))
  ]%float.

(** Table 5.2.3: crown biomass, DBH above 50 cm (Equation 7). *)
Definition crown_biomass_coefficients_above_50 : dict (float * float) :=
  [
    ("European larch", ((-0.129046967), 0.005039011));
    ("Corsican pine", ((-0.299529453), 0.009948982));
    ("lodgepole pine", ((-0.430536496), 0.014300429));
    ("Scots pine", ((-0.394205622), 0.013093685));
    ("firs, spruces, cedars, hemlocks", ((-0.353197843), 0.011731597));
    ("Douglas fir", ((-0.411767824), 0.013677021));
    ("Beech", ((-0.459518648), 0.015263082));
    ("oak", ((-0.411550464), 0.013669801))
  ]%float.

(** Table 5.2.4: root biomass, DBH up to 30 cm (Equation 8). *)
Definition root_biomass_coefficients_8 : dict float :=
  [
    ("western red cedar", 0.000010722);
    ("noble fir", 0.000010722);
    ("Corsican pine", 0.000010722);
    ("Norway spruce", 0.000011883);
    ("grand fir", 0.000015404);
    ("Scots pine", 0.000015404);
    ("western hemlock", 0.000015404);
    ("Douglas fir", 0.000017326);
    ("European larch", 0.000017326);
    ("lodgepole pine", 0.000017326);
    ("Sitka spruce", 0.000020454);
    ("red alder", 0.000022700)
  ]%float.

(** Table 5.2.5: root biomass, DBH above 30 cm (Equation 9). *)
Definition root_biomass_coefficients_9 : dict (float * float) :=
  [
    ("western red cedar", ((-0.082602857), 0.004515233));
    ("noble fir", ((-0.082602857), 0.004515233));
    ("Corsican pine", ((-0.082602857), 0.004515233));
    ("Norway spruce", ((-0.091547262), 0.005004152));
    ("grand fir", ((-0.118673233), 0.006486910));
    ("Scots pine", ((-0.118673233), 0.006486910));
    ("western hemlock", ((-0.118673233), 0.006486910));
    ("Douglas fir", ((-0.133480423), 0.007296300));
    ("European larch", ((-0.133480423), 0.007296300));
    ("lodgepole pine", ((-0.133480423), 0.007296300));
    ("Sitka spruce", ((-0.157578701), 0.008613559));
    ("red alder", ((-0.174882004), 0.009559391))
  ]%float.

(** Crown biomass of one tree.  With a mean DBH below 7 cm, or NaN, the
    source takes the int [0]; it is the float [0] here, and [None] marks that
    branch for the product with the tree count. *)
Definition crown_biomass (pow : float -> float -> float) (species : string)
    (mean_dbh_trees : float) : option float :=
  if (7 <=? mean_dbh_trees) && (mean_dbh_trees <=? 50) then
    let '(b, p) := dict_get_default crown_biomass_coefficients_7_to_50 species (0, 0) in
    Some (b * float_pow pow mean_dbh_trees p)
  else if 50 <? mean_dbh_trees then
    let '(a, b) := dict_get_default crown_biomass_coefficients_above_50 species (0, 0) in
    Some (a + (b * mean_dbh_trees))
  else None.

(** Root biomass of one tree. *)
Definition root_biomass (pow : float -> float -> float) (species : string)
    (mean_dbh_trees : float) : float :=
  if mean_dbh_trees <=? 30 then
    let b := dict_get_default root_biomass_coefficients_8 species 0 in
    b * float_pow pow mean_dbh_trees 2.5
  else
    let '(a, b) := dict_get_default root_biomass_coefficients_9 species (0, 0) in
    a + (b * mean_dbh_trees).

Definition calculate_biomass (pow : float -> float -> float)
    (tree_stats : tree_stats) (species : string) (volume_stats : volume_stats)
    : result biomass_stats :=
  let nsg := dict_get_default nominal_specific_gravity species 0.0 in
  let stem_biomass := total_stem_volume volume_stats * nsg in
  let mean_dbh_trees := mean_dbh_trees tree_stats in
  let crown := crown_biomass pow species mean_dbh_trees in
  let root := root_biomass pow species mean_dbh_trees in
  a <- dict_item (species_distribution tree_stats) species ;;
  let num_trees := trees a in
  let total_stem_biomass := stem_biomass in
  total_crown_biomass <-
    match crown with
    | Some c => float_mul_int c num_trees
    | None => Ok 0
    end ;;
  total_root_biomass <- float_mul_int root num_trees ;;
  let total_AGB := total_stem_biomass + total_crown_biomass in
  let total_biomass := total_AGB + total_root_biomass in
  Ok {| total_stem_biomass := total_stem_biomass;
        total_crown_biomass := total_crown_biomass;
        total_root_biomass := total_root_biomass;
        total_AGB := total_AGB;
        total_biomass := total_biomass |}.

(** ** [calculate_carbon_and_co2_for_trees_and_saplings] *)

Record carbon_stats : Type := {
  total_carbon_trees : float;
  total_co2_trees : float;
  total_carbon_saplings : float;
  total_co2_saplings : float;
  total_carbon : float;
  total_co2 : float
}.

(** [str.lower()] on the ASCII letters; the species names are ASCII. *)
Definition lower_ascii (c : ascii) : ascii :=
  let n := nat_of_ascii c in
  if (65 <=? n)%nat && (n <=? 90)%nat then ascii_of_nat (n + 32) else c.

Fixpoint lower (s : string) : string :=
  match s with
  | EmptyString => EmptyString
  | String c s' => String (lower_ascii c) (lower s')
  end.

(** [s in {...}] for a set of strings. *)
Definition set_mem (s : string) (l : list string) : bool :=
  existsb (String.eqb s) l.

(** The species names (lower case) taken as broadleaves. *)
Definition broadleaves : list string :=
  [
    "red alder"; "beech"; "oak"
  ].

(** The species names (lower case) taken as conifers. *)
Definition conifers : list string :=
  [
    "western red cedar"; "noble fir"; "corsican pine"; "norway spruce";
    "grand fir"; "scots pine"; "western hemlock"; "douglas fir";
    "japanese larch"; "lodgepole pine"; "sitka spruce"; "european larch"
  ].

(** Table 6.1.3: carbon per broadleaved sapling (tonnes C), by height in metres. *)
Definition broadleaf_carbon_content_per_stem : list (float * float) :=
  [
    (0.6, 0.0000182); (0.7, 0.0000250); (0.8, 0.0000328); (0.9, 0.0000418);
    (1.0, 0.0000519); (1.1, 0.0000631); (1.2, 0.0000754); (1.3, 0.0000889);
    (1.4, 0.0001036); (1.5, 0.0001194); (1.6, 0.0001365); (1.7, 0.0001547);
    (1.8, 0.0001742); (1.9, 0.0001949); (2.0, 0.0002168); (2.1, 0.0002400);
    (2.2, 0.0002645); (2.3, 0.0002903); (2.4, 0.0003174); (2.5, 0.0003459);
    (2.6, 0.0003757); (2.7, 0.0004069); (2.8, 0.0004395); (2.9, 0.0004736);
    (3.0, 0.0005090); (3.1, 0.0005460); (3.2, 0.0005845); (3.3, 0.0006245);
    (3.4, 0.0006661); (3.5, 0.0007093); (3.6, 0.0007541); (3.7, 0.0008006);
    (3.8, 0.0008488); (3.9, 0.0008987); (4.0, 0.0009504); (4.1, 0.0010039);
    (4.2, 0.0010593); (4.3, 0.0011166); (4.4, 0.0011759); (4.5, 0.0012372);
    (4.6, 0.0013005); (4.7, 0.0013660); (4.8, 0.0014336); (4.9, 0.0015034);
    (5.0, 0.0015756); (5.1, 0.0016501); (5.2, 0.0017270); (5.3, 0.0018065);
    (5.4, 0.0018885); (5.5, 0.0019732); (5.6, 0.0020606); (5.7, 0.0021509);
    (5.8, 0.0022440); (5.9, 0.0023402); (6.0, 0.0024396); (6.1, 0.0025421);
    (6.2, 0.0026480); (6.3, 0.0027574); (6.4, 0.0028703); (6.5, 0.0029870);
    (6.6, 0.0031076); (6.7, 0.0032321); (6.8, 0.0033608); (6.9, 0.0034939);
    (7.0, 0.0036315); (7.1, 0.0037737); (7.2, 0.0039209); (7.3, 0.0040731);
    (7.4, 0.0042307); (7.5, 0.0043939); (7.6, 0.0045628); (7.7, 0.0047378);
    (7.8, 0.0049192); (7.9, 0.0051072); (8.0, 0.0053023); (8.1, 0.0055046);
    (8.2, 0.0057147); (8.3, 0.0059328); (8.4, 0.0061594); (8.5, 0.0063951);
    (8.6, 0.0066401); (8.7, 0.0068952); (8.8, 0.0071608); (8.9, 0.0074375);
    (9.0, 0.0077260); (9.1, 0.0080271); (9.2, 0.0083414); (9.3, 0.0086699);
    (9.4, 0.0090134); (9.5, 0.0093730); (9.6, 0.0097496); (9.7, 0.0101445);
    (9.8, 0.0105590); (9.9, 0.0109945); (10.0, 0.0114525)
  ]%float.

(** Table 6.1.4: carbon per conifer sapling (tonnes C), by height in metres. *)
Definition conifer_carbon_content_per_stem : list (float * float) :=
  [
    (0.6, 0.0000222); (0.7, 0.0000304); (0.8, 0.0000400); (0.9, 0.0000509);
    (1.0, 0.0000631); (1.1, 0.0000767); (1.2, 0.0000916); (1.3, 0.0001080);
    (1.4, 0.0001257); (1.5, 0.0001449); (1.6, 0.0001655); (1.7, 0.0001876);
    (1.8, 0.0002111); (1.9, 0.0002361); (2.0, 0.0002626); (2.1, 0.0002906);
    (2.2, 0.0003202); (2.3, 0.0003513); (2.4, 0.0003840); (2.5, 0.0004184);
    (2.6, 0.0004543); (2.7, 0.0004920); (2.8, 0.0005313); (2.9, 0.0005724);
    (3.0, 0.0006152); (3.1, 0.0006598); (3.2, 0.0007062); (3.3, 0.0007545);
    (3.4, 0.0008046); (3.5, 0.0008567); (3.6, 0.0009108); (3.7, 0.0009669);
    (3.8, 0.0010250); (3.9, 0.0010853); (4.0, 0.0011477); (4.1, 0.0012123);
    (4.2, 0.0012792); (4.3, 0.0013484); (4.4, 0.0014200); (4.5, 0.0014940);
    (4.6, 0.0015705); (4.7, 0.0016496); (4.8, 0.0017314); (4.9, 0.0018158);
    (5.0, 0.0019031); (5.1, 0.0019932); (5.2, 0.0020863); (5.3, 0.0021825);
    (5.4, 0.0022819); (5.5, 0.0023845); (5.6, 0.0024904); (5.7, 0.0025998);
    (5.8, 0.0027128); (5.9, 0.0028296); (6.0, 0.0029502); (6.1, 0.0030747);
    (6.2, 0.0032034); (6.3, 0.0033363); (6.4, 0.0034737); (6.5, 0.0036157);
    (6.6, 0.0037625); (6.7, 0.0039143); (6.8, 0.0040712); (6.9, 0.0042336);
    (7.0, 0.0044015); (7.1, 0.0045753); (7.2, 0.0047552); (7.3, 0.0049415);
    (7.4, 0.0051344); (7.5, 0.0053343); (7.6, 0.0055415); (7.7, 0.0057564);
    (7.8, 0.0059792); (7.9, 0.0062105); (8.0, 0.0064505); (8.1, 0.0066999);
    (8.2, 0.0069589); (8.3, 0.0072283); (8.4, 0.0075085); (8.5, 0.0078002);
    (8.6, 0.0081039); (8.7, 0.0084204); (8.8, 0.0087504); (8.9, 0.0090948);
    (9.0, 0.0094544); (9.1, 0.0098301); (9.2, 0.0102231); (9.3, 0.0106345);
    (9.4, 0.0110655); (9.5, 0.0115174); (9.6, 0.0119917); (9.7, 0.0124900);
    (9.8, 0.0130142); (9.9, 0.0135662); (10.0, 0.0141482)
  ]%float.

Definition species_not_in_categories (species : string) : exception :=
  ValueError ("Species '" ++ species ++
              "' not found in either broadleaf or conifer categories.").

(** The [if]/[elif]/[else] that sets [is_broadleaf]. *)
Definition is_broadleaf (species : string) : result bool :=
  if set_mem (lower species) broadleaves then Ok true
  else if set_mem (lower species) conifers then Ok false
  else Raise (species_not_in_categories species).

(** [table.get(key)] with a float key: the first entry whose key is [==]. *)
Fixpoint table_get (table : list (float * float)) (key : float) : option float :=
  match table with
  | [] => None
  | (k, v) :: rest => if k =? key then Some v else table_get rest key
  end.

(** The carbon of one sapling: the broadleaf table is read at the height
    rounded to one decimal, by the [round] of the height's own kind, the
    conifer table at the height rounded to an [int] (an int key equals the
    float key of the same value).  [None] is the default [0] of [.get]. *)
Definition sapling_carbon_content (is_broadleaf : bool) (kind : float_kind)
    (mean_sapling_height : float) : result (option float) :=
  if is_broadleaf then
    Ok (table_get broadleaf_carbon_content_per_stem
          (round1 kind mean_sapling_height))
  else
    k <- py_round mean_sapling_height ;;
    Ok (table_get conifer_carbon_content_per_stem (Z2F k)).

Definition calculate_carbon_and_co2_for_trees_and_saplings
    (biomass_stats : biomass_stats) (species : string) (num_saplings : Z)
    (kind : float_kind) (mean_sapling_height : float) : result carbon_stats :=
  is_broadleaf <- is_broadleaf species ;;
  let total_carbon_trees := total_biomass biomass_stats * 0.5 in
  let total_co2_trees := total_carbon_trees * (44 / 12) in
  content <- sapling_carbon_content is_broadleaf kind mean_sapling_height ;;
  total_carbon_saplings <-
    match content with
    | Some c => float_mul_int c num_saplings
    | None => Ok 0
    end ;;
  let total_co2_saplings := total_carbon_saplings * (44 / 12) in
  let total_carbon := total_carbon_trees + total_carbon_saplings in
  let total_co2 := total_co2_trees + total_co2_saplings in
  Ok {| total_carbon_trees := total_carbon_trees;
        total_co2_trees := total_co2_trees;
        total_carbon_saplings := total_carbon_saplings;
        total_co2_saplings := total_co2_saplings;
        total_carbon := total_carbon;
        total_co2 := total_co2 |}.

(** ** [calculate_and_print_species_biomass_and_carbon], without the printing *)

Record totals : Type := {
  total_biomass_all_species : float;
  total_carbon_all_species : float;
  total_co2_all_species : float;
  total_co2_trees_all_species : float;
  total_co2_saplings_all_species : float
}.

Definition zero_totals : totals :=
  {| total_biomass_all_species := 0.0; total_carbon_all_species := 0.0;
     total_co2_all_species := 0.0; total_co2_trees_all_species := 0.0;
     total_co2_saplings_all_species := 0.0 |}.

(** One round of [for species in species_percentages.keys()]; the mean
    sapling height of the statistics is a NumPy [float64]. *)
Definition species_step (pow : float -> float -> float) (tree_stats : tree_stats)
    (acc : totals) (species : string) : result totals :=
  a <- dict_item (species_distribution tree_stats) species ;;
  let num_saplings := saplings a in
  volume_stats <- calculate_tariff_numbers_and_volume tree_stats species ;;
  biomass_stats <- calculate_biomass pow tree_stats species volume_stats ;;
  carbon_co2_stats <-
    calculate_carbon_and_co2_for_trees_and_saplings biomass_stats species
      num_saplings numpy_float64 (mean_sapling_height tree_stats) ;;
  Ok {| total_biomass_all_species :=
          total_biomass_all_species acc + total_biomass biomass_stats;
        total_carbon_all_species :=
          total_carbon_all_species acc + total_carbon carbon_co2_stats;
        total_co2_all_species :=
          total_co2_all_species acc + total_co2 carbon_co2_stats;
        total_co2_trees_all_species :=
          total_co2_trees_all_species acc + total_co2_trees carbon_co2_stats;
        total_co2_saplings_all_species :=
          total_co2_saplings_all_species acc + total_co2_saplings carbon_co2_stats |}.

Fixpoint species_loop (pow : float -> float -> float) (tree_stats : tree_stats)
    (species_list : list string) (acc : totals) : result totals :=
  match species_list with
  | [] => Ok acc
  | species :: rest =>
      acc' <- species_step pow tree_stats acc species ;;
      species_loop pow tree_stats rest acc'
  end.

Definition calculate_and_print_species_biomass_and_carbon
    (pow : float -> float -> float) (tree_stats : tree_stats)
    (species_percentages : dict float) : result totals :=
  species_loop pow tree_stats (keys species_percentages) zero_totals.

(** * Vocabulary of the properties *)

Local Close Scope float_scope.
Local Open Scope list_scope.
Local Open Scope Z_scope.

(** The sum of one count over the values of a species distribution. *)
Definition sum_of (f : allocation -> Z) (d : dict allocation) : Z :=
  fold_right (fun kv acc => f (snd kv) + acc) 0 d.

(** [d[species][f]], and 0 for a species the dict does not have. *)
Definition count_of (f : allocation -> Z) (d : dict allocation)
    (species : string) : Z :=
  match dict_get d species with
  | Some a => f a
  | None => 0
  end.

(** [sum(d[species][f] for species in species_list)] *)
Definition species_total (f : allocation -> Z) (species_list : list string)
    (d : dict allocation) : Z :=
  fold_right (fun species acc => count_of f d species + acc) 0 species_list.

(** [sum(int(count * p) for p in percentages.values())], the total of the
    first loop (a share that raises counts for nothing: the first loop does
    not finish then). *)
Definition shares_total (count : Z) (percentages : dict float) : Z :=
  fold_right
    (fun kv acc =>
       match share count (snd kv) with Ok z => z + acc | Raise _ => acc end)
    0 percentages.

(** The number of rows of a class in a stratum. *)
Definition class_count (df : dataframe) (planting_mix : string) (year : Z)
    (cls : float -> bool) : Z :=
  Z.of_nat (List.length (select df planting_mix year cls)).

(** Every share [int(count * p)] of the three class counts is an [int]: no
    product is NaN or infinite. *)
Definition shares_convert (df : dataframe) (planting_mix : string) (year : Z)
    (percentages : dict float) : Prop :=
  forall species p,
    In (species, p) percentages ->
    returns (share (class_count df planting_mix year is_tree) p) /\
    returns (share (class_count df planting_mix year is_sapling) p) /\
    returns (share (class_count df planting_mix year is_largetree) p).

(** The [if]/[elif] chain of [multiplication_factor] read as a table: the
    lower bound of each band with its factor, from the highest band down. *)
Definition dbh_bands : list (float * float) :=
  [
    (33, 1.00); (32, 1.01); (31, 1.01); (30, 1.01); (29, 1.01); (28, 1.01);
    (27, 1.01); (26, 1.01); (25, 1.01); (24, 1.01); (23, 1.01); (22, 1.01);
    (21, 1.02); (20, 1.02); (19, 1.02); (18, 1.02); (17, 1.03); (16, 1.03);
    (15, 1.04); (14, 1.05); (13, 1.06); (12, 1.07); (11, 1.09); (10, 1.12);
    (9, 1.15); (8, 1.19)
  ]%float.

(** The first band whose lower bound is at or below [d]. *)
Fixpoint step_chain (bands : list (float * float)) (default d : float) : float :=
  match bands with
  | [] => default
  | (bound, factor) :: rest =>
      if (bound <=? d)%float then factor else step_chain rest default d
  end.

(** Every factor is at most the factors of the lower bands and the default. *)
Fixpoint ascending (bands : list (float * float)) (default : float) : bool :=
  match bands with
  | [] => (default <=? default)%float
  | (_, factor) :: rest =>
      forallb (fun band => (factor <=? snd band)%float) bands
      && (factor <=? default)%float && ascending rest default
  end.

(** The stand statistics are usable for [species]: its tariff regression,
    when the species has one, is a finite number whose floor is below [2^53]
    in magnitude, and the species has a tree count below [2^53]. *)
Definition usable_for (ts : tree_stats) (species : string) : Prop :=
  (forall t,
     single_tree_tariff species (mean_tree_height ts) (mean_dbh_trees ts) = Ok t ->
     exists z, math_floor t = Ok z /\ Z.abs z < 2 ^ 53) /\
  (exists a, dict_get (species_distribution ts) species = Some a /\
             Z.abs (trees a) < 2 ^ 53).

(** The species is in one of the two tariff tables. *)
Definition has_tariff (species : string) : Prop :=
  dict_get conifer_constants species <> None \/
  dict_get broadleaf_constants species <> None.

(** ** The diameter statistics in exact arithmetic

    Lines 94-96 and 110-114 of [tree_statistics] read over the real numbers:
    the same selection of rows and the same expressions, on the exact values
    of the DBH column, with no rounding but the final one to 0.1 cm. *)

(** The exact value of a float as a real number.  A tree row has a DBH
    above 7, so never NaN; an infinite DBH has no real value and reads 0. *)
Definition F2R (x : float) : R := Q2R (F2Q x).

Definition real_sum (xs : list R) : R := fold_right Rplus 0%R xs.

Definition real_mean (xs : list R) : R :=
  (real_sum xs / INR (List.length xs))%R.

Definition squares (xs : list R) : list R := map (fun d => (d * d)%R) xs.

(** The nearest integer, ties to the even one. *)
Definition real_round_half_even (y : R) : Z :=
  let f := Int_part y in
  let r := (y - IZR f)%R in
  if Rlt_dec r (1 / 2) then f
  else if Rlt_dec (1 / 2) r then f + 1
  else if Z.even f then f else f + 1.

(** Rounding to one decimal place. *)
Definition real_round1 (x : R) : R :=
  (IZR (real_round_half_even (x * 10)) / 10)%R.

(** The DBH of the trees of a stratum, exactly. *)
Definition tree_diameters (df : dataframe) (planting_mix : string) (year : Z)
    : list R :=
  map F2R (map DBH (select df planting_mix year is_tree)).

(** [mean_dbh_trees] and [quadratic_mean_dbh] (before and after the rounding)
    in exact arithmetic. *)
Definition exact_mean_dbh_trees (df : dataframe) (planting_mix : string)
    (year : Z) : R :=
  real_mean (tree_diameters df planting_mix year).

Definition exact_quadratic_mean_dbh (df : dataframe) (planting_mix : string)
    (year : Z) : R :=
  sqrt (real_mean (squares (tree_diameters df planting_mix year))).

Definition exact_rounded_quadratic_mean_dbh (df : dataframe)
    (planting_mix : string) (year : Z) : R :=
  real_round1 (exact_quadratic_mean_dbh df planting_mix year).

(** ** Data of the closed examples *)

(** The closed examples need some C library [pow]: this one answers the
    exponents 2 and 2.5 by products and a square root (within a rounding or
    two of the power) and NaN for any other exponent. *)
Definition pow_of_examples (x p : float) : float :=
  if (p =? 2)%float then (x * x)%float
  else if (p =? 2.5)%float then (x * x * PrimFloat.sqrt x)%float
  else nan.

(** A row of the stratum ("Mixed Wood", 1). *)
Definition mixed_wood (dbh height : float) : row :=
  {| Type_ := "Mixed Wood"; Year := 1; DBH := dbh; top_height := height |}.

(** Three trees and one sapling, shared by three species at 30% each. *)
Definition four_rows : dataframe :=
  [mixed_wood 8.04 2; mixed_wood 9 2; mixed_wood 10 2; mixed_wood 3 3]%float.

Definition three_species : dict float :=
  [("oak", 0.3); ("beech", 0.3); ("Scots pine", 0.3)]%float.

(** Two species at 100% each. *)
Definition twice_everything : dict float := [("oak", 1); ("beech", 1)]%float.

(** A biomass result of ten tonnes in all. *)
Definition ten_tonnes : biomass_stats :=
  {| total_stem_biomass := 8; total_crown_biomass := 1;
     total_root_biomass := 1; total_AGB := 9; total_biomass := 10 |}%float.

(** The broadleaf species of the tariff table that have no category in
    [calculate_carbon_and_co2_for_trees_and_saplings]. *)
Definition uncategorised_broadleaves : list string :=
  ["sycamore"; "ash"; "birch"; "elm"; "poplar"].

(** A stratum planted with ash alone. *)
Definition only_ash : dict float := [("ash", 1)]%float.

(** A stratum of one tree of 8.04 cm, planted with oak alone. *)
Definition one_tree : dataframe := [mixed_wood 8.04 2]%float.

Definition only_oak : dict float := [("oak", 1)]%float.

(** * More vocabulary

    What the further properties below are stated with. *)

(** How many of the rounds [index], [index + 1], ... of a distribution loop
    over [m] species fall on the species at position [i]. *)
Fixpoint hits (m i index : Z) (rounds : nat) : Z :=
  match rounds with
  | O => 0
  | S rounds' => (if index mod m =? i then 1 else 0) + hits m i (index + 1) rounds'
  end.

(** The units a species at position [i] of [m] species is handed from a
    remainder: an equal part, and one more for the first [remaining mod m]
    species. *)
Definition extra_units (remaining m i : Z) : Z :=
  remaining / m + (if i <? remaining mod m then 1 else 0).

(** The remainder of a class after the first loop; nothing when the shares
    already reach the class count. *)
Definition remainder_of (count : Z) (percentages : dict float) : Z :=
  Z.max 0 (count - shares_total count percentages).

(** The row belongs to the stratum: the first two conditions of the three
    selections of [tree_statistics]. *)
Definition in_stratum (planting_mix : string) (year : Z) (r : row) : bool :=
  String.eqb (Type_ r) planting_mix && (Year r =? year).

(** A DBH that is a number. *)
Definition is_measured (d : float) : bool := negb (is_nan d).

(** Every factor of a chain of bands, and its default, satisfies [P]. *)
Definition chain_all (P : float -> bool) (bands : list (float * float))
    (default : float) : bool :=
  forallb (fun band => P (snd band)) bands && P default.

(** A factor of at least 1.00 and at most 1.30. *)
Definition between_1_and_1_30 (x : float) : bool :=
  ((1.00 <=? x) && (x <=? 1.30))%float.

(** Four rows shared by oak alone, beech listed at 0%. *)
Definition oak_and_no_beech : dict float := [("oak", 1); ("beech", 0)]%float.

(** The species of the two tariff tables that neither crown table has. *)
Definition species_without_crown : list string :=
  ["Sitka spruce"; "Norway spruce"; "Japanese larch"; "western hemlock";
   "western red cedar"; "grand fir"; "noble fir";
   "beech"; "sycamore"; "ash"; "birch"; "elm"; "poplar"].

(** The species of the two tariff tables that neither root table has. *)
Definition species_without_root : list string :=
  ["Japanese larch"; "oak"; "beech"; "sycamore"; "ash"; "birch"; "elm"; "poplar"].

(** Every key of a sapling table lies between [lo] and [hi]. *)
Definition keys_between (lo hi : float) (table : list (float * float)) : bool :=
  forallb (fun kv => ((lo <=? fst kv) && (fst kv <=? hi))%float) table.

(** Every value of a sapling table is finite. *)
Definition values_finite (table : list (float * float)) : bool :=
  forallb (fun kv => is_finite (snd kv)) table.

(** The species the whole chain can process: in a tariff table, and in
    lower case in one of the two categories. *)
Definition supported_species : list string :=
  ["Scots pine"; "Corsican pine"; "lodgepole pine"; "Sitka spruce";
   "Norway spruce"; "European larch"; "Japanese larch"; "Douglas fir";
   "western hemlock"; "western red cedar"; "grand fir"; "noble fir";
   "oak"; "beech"].

(** The rows of Table 6.1.4 at 1.0 m, 2.0 m, ... 10.0 m. *)
Definition conifer_whole_metres : list float :=
  [0.0000631; 0.0002626; 0.0006152; 0.0011477; 0.0019031;
   0.0029502; 0.0044015; 0.0064505; 0.0094544; 0.0141482]%float.

(** A stratum of one sapling and no tree. *)
Definition one_sapling : dataframe := [mixed_wood 3 3]%float.

(** A row of another stratum. *)
Definition other_row : row :=
  {| Type_ := "Conifer Wood"; Year := 2; DBH := 20; top_height := 12 |}%float.

(** A mapping with a proportion that is not a number. *)
Definition oak_at_nan : dict float := [("oak", nan)].

(** * Properties *)

(** ** Dictionaries *)

Section DictFacts.
Context {V : Type}.
Implicit Types (d : dict V) (k : string) (v : V).

Lemma dict_get_in_keys d k v : dict_get d k = Some v -> In k (keys d).
Proof.
  induction d as [|[k' v'] d IH]; simpl; [discriminate|].
  destruct (String.eqb_spec k k') as [->|Hne]; auto.
Qed.

Lemma dict_get_of_key d k : In k (keys d) -> exists v, dict_get d k = Some v.
Proof.
  induction d as [|[k' v'] d IH]; simpl; [tauto|].
  intros [->|Hin].
  - rewrite String.eqb_refl; eauto.
  - destruct (String.eqb k k'); eauto.
Qed.

Lemma dict_set_fresh d k v : ~ In k (keys d) -> dict_set d k v = d ++ [(k, v)].
Proof.
  induction d as [|[k' v'] d IH]; simpl; [reflexivity|].
  intros Hn. destruct (String.eqb_spec k k') as [->|Hne]; [tauto|].
  rewrite IH by tauto. reflexivity.
Qed.

Lemma keys_dict_set_present d k v :
  In k (keys d) -> keys (dict_set d k v) = keys d.
Proof.
  induction d as [|[k' v'] d IH]; simpl; [tauto|].
  intros Hin. destruct (String.eqb_spec k k') as [->|Hne]; [reflexivity|].
  simpl. f_equal. apply IH. destruct Hin; congruence.
Qed.

Lemma keys_app d d' : keys (d ++ d') = keys d ++ keys d'.
Proof. apply map_app. Qed.
End DictFacts.

(** ** The allocation of [tree_statistics] *)

Lemma sum_of_app f d d' : sum_of f (d ++ d') = sum_of f d + sum_of f d'.
Proof. induction d as [|kv d IH]; simpl; [reflexivity|]. rewrite IH. lia. Qed.

Lemma sum_of_dict_set f d k a v :
  dict_get d k = Some a ->
  sum_of f (dict_set d k v) = sum_of f d - f a + f v.
Proof.
  induction d as [|[k' v'] d IH]; simpl; [discriminate|].
  destruct (String.eqb_spec k k') as [->|Hne].
  - intros [= ->]. simpl. lia.
  - intros H. simpl. rewrite (IH H). lia.
Qed.

Lemma species_total_keys f d :
  well_formed d -> species_total f (keys d) d = sum_of f d.
Proof.
  unfold well_formed.
  induction d as [|[k v] d IH]; simpl; [reflexivity|].
  intros Hnd. inversion Hnd as [|? ? Hk Hd]; subst.
  unfold count_of at 1. simpl. rewrite String.eqb_refl. simpl. f_equal.
  rewrite <- (IH Hd). clear IH.
  assert (Hext : forall l, (forall s, In s l -> s <> k) ->
            species_total f l ((k, v) :: d) = species_total f l d).
  { induction l as [|s l IHl]; simpl; [reflexivity|].
    intros Hl. rewrite IHl by auto. f_equal.
    unfold count_of. simpl.
    destruct (String.eqb_spec s k) as [->|_]; [|reflexivity].
    exfalso. apply (Hl k); auto. }
  apply Hext. intros s Hs ->. exact (Hk Hs).
Qed.

(** The first loop keeps each running total equal to what the dict holds,
    and builds the dict in the order of the mapping. *)
Lemma initial_allocation_spec items nt ns nl :
  forall st st',
    NoDup (keys items) ->
    (forall k, In k (keys items) -> ~ In k (keys (distribution st))) ->
    initial_allocation items nt ns nl st = Ok st' ->
    keys (distribution st') = keys (distribution st) ++ keys items /\
    sum_of trees (distribution st') - total_trees_allocated st'
      = sum_of trees (distribution st) - total_trees_allocated st /\
    sum_of saplings (distribution st') - total_saplings_allocated st'
      = sum_of saplings (distribution st) - total_saplings_allocated st /\
    sum_of largetrees (distribution st') - total_large_trees_allocated st'
      = sum_of largetrees (distribution st) - total_large_trees_allocated st.
Proof.
  induction items as [|[species percentage] rest IH]; intros st st' Hnd Hfresh.
  - simpl. intros [= <-]. rewrite app_nil_r. repeat split; reflexivity.
  - simpl. inversion Hnd as [|? ? Hk Hrest]; subst.
    destruct (share nt percentage) as [a|]; simpl; [|discriminate].
    destruct (share ns percentage) as [b|]; simpl; [|discriminate].
    destruct (share nl percentage) as [c|]; simpl; [|discriminate].
    intros Hrun.
    assert (Hnew : ~ In species (keys (distribution st)))
      by (apply Hfresh; simpl; auto).
    apply IH in Hrun; auto.
    + simpl in Hrun. rewrite (dict_set_fresh _ _ _ Hnew) in Hrun.
      rewrite keys_app, !sum_of_app in Hrun. simpl in Hrun.
      destruct Hrun as (Hkeys & Ht & Hs & Hl).
      rewrite <- app_assoc in Hkeys. simpl in Hkeys.
      repeat split; [exact Hkeys|lia|lia|lia].
    + simpl. rewrite (dict_set_fresh _ _ _ Hnew), keys_app. simpl.
      intros k Hin Hin'. apply in_app_or in Hin'.
      destruct Hin' as [Hin'|[<-|[]]].
      * apply (Hfresh k); simpl; auto.
      * contradiction.
Qed.

(** The first loop's totals are the sums of the shares. *)
Lemma initial_allocation_totals items nt ns nl :
  forall st st',
    initial_allocation items nt ns nl st = Ok st' ->
    total_trees_allocated st' = total_trees_allocated st + shares_total nt items /\
    total_saplings_allocated st'
      = total_saplings_allocated st + shares_total ns items /\
    total_large_trees_allocated st'
      = total_large_trees_allocated st + shares_total nl items.
Proof.
  induction items as [|[species percentage] rest IH]; intros st st'.
  - simpl. intros [= <-]. lia.
  - simpl.
    destruct (share nt percentage) as [a|]; simpl; [|discriminate].
    destruct (share ns percentage) as [b|]; simpl; [|discriminate].
    destruct (share nl percentage) as [c|]; simpl; [|discriminate].
    intros Hrun. apply IH in Hrun. simpl in Hrun. lia.
Qed.

(** A distribution loop gives [f] one more unit per round when [incr] adds
    [delta] to [f], and never changes the keys. *)
Lemma distribute_spec (f : allocation -> Z) incr delta species_list :
  (forall a, f (incr a) = f a + delta) ->
  forall rounds index d d',
    distribute incr species_list rounds index d = Ok d' ->
    keys d' = keys d /\ sum_of f d' = sum_of f d + delta * Z.of_nat rounds.
Proof.
  intros Hincr. induction rounds as [|rounds IH]; intros index d d'.
  - simpl. intros [= <-]. split; [reflexivity|lia].
  - cbn [distribute].
    destruct (py_mod index _) as [i|]; simpl; [|discriminate].
    destruct (list_item species_list i) as [species|]; simpl; [|discriminate].
    unfold dict_item. destruct (dict_get d species) as [a|] eqn:Hget;
      simpl; [|discriminate].
    intros Hrun. apply IH in Hrun. destruct Hrun as [Hkeys Hsum].
    rewrite (keys_dict_set_present _ _ _ (dict_get_in_keys _ _ _ Hget)) in Hkeys.
    rewrite (sum_of_dict_set _ _ _ _ _ Hget), Hincr in Hsum.
    split; [exact Hkeys|lia].
Qed.

Lemma incr_trees_counts a :
  trees (incr_trees a) = trees a + 1 /\
  saplings (incr_trees a) = saplings a + 0 /\
  largetrees (incr_trees a) = largetrees a + 0.
Proof. simpl. lia. Qed.

Lemma incr_saplings_counts a :
  trees (incr_saplings a) = trees a + 0 /\
  saplings (incr_saplings a) = saplings a + 1 /\
  largetrees (incr_saplings a) = largetrees a + 0.
Proof. simpl. lia. Qed.

Lemma incr_largetrees_counts a :
  trees (incr_largetrees a) = trees a + 0 /\
  saplings (incr_largetrees a) = saplings a + 0 /\
  largetrees (incr_largetrees a) = largetrees a + 1.
Proof. simpl. lia. Qed.

Lemma empty_allocated_fresh (species_list : list string) :
  forall k, In k species_list -> ~ In k (keys (distribution empty_allocated)).
Proof. intros k _ []. Qed.

(** What the two loops leave in [species_distribution]: the keys of the
    mapping in its order, and for each class the larger of the class count
    and the total of the truncated shares. *)
Lemma tree_statistics_allocation pow df percentages planting_mix year ts :
  well_formed percentages ->
  tree_statistics pow df percentages planting_mix year = Ok ts ->
  keys (species_distribution ts) = keys percentages /\
  sum_of trees (species_distribution ts)
    = Z.max (number_of_trees ts) (shares_total (number_of_trees ts) percentages) /\
  sum_of saplings (species_distribution ts)
    = Z.max (number_of_saplings ts)
        (shares_total (number_of_saplings ts) percentages) /\
  sum_of largetrees (species_distribution ts)
    = Z.max (number_of_largetrees ts)
        (shares_total (number_of_largetrees ts) percentages).
Proof.
  intros Hwf. unfold tree_statistics.
  set (nt := Z.of_nat (List.length (select df planting_mix year is_tree))).
  set (ns := Z.of_nat (List.length (select df planting_mix year is_sapling))).
  set (nl := Z.of_nat (List.length (select df planting_mix year is_largetree))).
  destruct (initial_allocation percentages nt ns nl empty_allocated)
    as [st|] eqn:Hinit; simpl; [|discriminate].
  unfold distribute_remaining.
  destruct (distribute incr_trees _ _ 0 (distribution st)) as [d1|] eqn:H1;
    simpl; [|discriminate].
  destruct (distribute incr_saplings _ _ 0 d1) as [d2|] eqn:H2;
    simpl; [|discriminate].
  destruct (distribute incr_largetrees _ _ 0 d2) as [d3|] eqn:H3;
    simpl; [|discriminate].
  intros [= <-]. simpl.
  destruct (initial_allocation_spec _ _ _ _ _ _ Hwf (empty_allocated_fresh _) Hinit)
    as (Hk0 & Ht0 & Hs0 & Hl0).
  destruct (initial_allocation_totals _ _ _ _ _ _ Hinit) as (Tt & Ts & Tl).
  simpl in Hk0, Ht0, Hs0, Hl0, Tt, Ts, Tl.
  pose proof (distribute_spec trees _ 1 _
                (fun a => proj1 (incr_trees_counts a)) _ _ _ _ H1) as [K1 A1].
  pose proof (distribute_spec saplings _ 0 _
                (fun a => proj1 (proj2 (incr_trees_counts a))) _ _ _ _ H1) as [_ B1].
  pose proof (distribute_spec largetrees _ 0 _
                (fun a => proj2 (proj2 (incr_trees_counts a))) _ _ _ _ H1) as [_ C1].
  pose proof (distribute_spec trees _ 0 _
                (fun a => proj1 (incr_saplings_counts a)) _ _ _ _ H2) as [K2 A2].
  pose proof (distribute_spec saplings _ 1 _
                (fun a => proj1 (proj2 (incr_saplings_counts a))) _ _ _ _ H2) as [_ B2].
  pose proof (distribute_spec largetrees _ 0 _
                (fun a => proj2 (proj2 (incr_saplings_counts a))) _ _ _ _ H2) as [_ C2].
  pose proof (distribute_spec trees _ 0 _
                (fun a => proj1 (incr_largetrees_counts a)) _ _ _ _ H3) as [K3 A3].
  pose proof (distribute_spec saplings _ 0 _
                (fun a => proj1 (proj2 (incr_largetrees_counts a))) _ _ _ _ H3) as [_ B3].
  pose proof (distribute_spec largetrees _ 1 _
                (fun a => proj2 (proj2 (incr_largetrees_counts a))) _ _ _ _ H3) as [_ C3].
  split; [congruence|]. lia.
Qed.

(** A distribution loop over a non-empty species list whose species are all
    keys of the dict runs to its end. *)
Lemma distribute_returns incr species_list :
  species_list <> [] ->
  forall rounds index d,
    0 <= index -> keys d = species_list ->
    returns (distribute incr species_list rounds index d).
Proof.
  intros Hne. induction rounds as [|rounds IH]; intros index d Hidx Hkeys.
  - simpl. eexists; reflexivity.
  - cbn [distribute]. unfold py_mod.
    assert (Hlen : 0 < Z.of_nat (List.length species_list))
      by (destruct species_list; [congruence|simpl; lia]).
    destruct (Z.eqb_spec (Z.of_nat (List.length species_list)) 0); [lia|].
    simpl. unfold list_item.
    pose proof (Z.mod_pos_bound index _ Hlen) as Hb.
    destruct (nth_error species_list _) as [species|] eqn:Hnth.
    + simpl. apply nth_error_In in Hnth. rewrite <- Hkeys in Hnth.
      unfold dict_item.
      destruct (dict_get_of_key _ _ Hnth) as [a Ha]. rewrite Ha. simpl.
      apply IH; [lia|].
      rewrite keys_dict_set_present by exact Hnth. exact Hkeys.
    + apply nth_error_None in Hnth. lia.
Qed.

(** The first loop runs to its end when every share is an [int]. *)
Lemma initial_allocation_returns items nt ns nl :
  (forall species p,
     In (species, p) items ->
     returns (share nt p) /\ returns (share ns p) /\ returns (share nl p)) ->
  forall st, returns (initial_allocation items nt ns nl st).
Proof.
  induction items as [|[species percentage] rest IH]; intros Hall st.
  - simpl. eexists; reflexivity.
  - destruct (Hall species percentage (or_introl eq_refl))
      as ([a Ha] & [b Hb] & [c Hc]).
    simpl. rewrite Ha, Hb, Hc. simpl. apply IH.
    intros s p Hin. apply (Hall s p). right. exact Hin.
Qed.

(** [tree_statistics] returns for a non-empty mapping with distinct keys
    whose shares of the three class counts are all [int]s. *)
Lemma tree_statistics_returns pow df percentages planting_mix year :
  well_formed percentages ->
  percentages <> [] ->
  shares_convert df planting_mix year percentages ->
  returns (tree_statistics pow df percentages planting_mix year).
Proof.
  intros Hwf Hne Hshares.
  destruct (initial_allocation_returns percentages _ _ _ Hshares empty_allocated)
    as [st Hinit].
  unfold class_count in Hinit.
  unfold tree_statistics. rewrite Hinit. simpl.
  destruct (initial_allocation_spec _ _ _ _ _ _ Hwf (empty_allocated_fresh _) Hinit)
    as (Hk0 & _). simpl in Hk0.
  assert (Hsl : keys percentages <> [])
    by (destruct percentages; [congruence|discriminate]).
  unfold distribute_remaining.
  destruct (distribute_returns incr_trees _ Hsl
              (Z.to_nat (Z.of_nat (List.length (select df planting_mix year is_tree))
                         - total_trees_allocated st)) 0 _ (Z.le_refl 0) Hk0)
    as [d1 H1].
  rewrite H1. simpl.
  pose proof (distribute_spec trees _ 1 _
                (fun a => proj1 (incr_trees_counts a)) _ _ _ _ H1) as [K1 _].
  destruct (distribute_returns incr_saplings _ Hsl
              (Z.to_nat (Z.of_nat (List.length (select df planting_mix year is_sapling))
                         - total_saplings_allocated st)) 0 d1 (Z.le_refl 0)
              (eq_trans K1 Hk0)) as [d2 H2].
  rewrite H2. simpl.
  pose proof (distribute_spec trees _ 0 _
                (fun a => proj1 (incr_saplings_counts a)) _ _ _ _ H2) as [K2 _].
  destruct (distribute_returns incr_largetrees _ Hsl
              (Z.to_nat (Z.of_nat (List.length (select df planting_mix year is_largetree))
                         - total_large_trees_allocated st)) 0 d2 (Z.le_refl 0)
              (eq_trans K2 (eq_trans K1 Hk0))) as [d3 H3].
  rewrite H3. simpl. eexists; reflexivity.
Qed.

(** C1, as the code has it.  For every inventory, stratum and percentages
    mapping (a dict: distinct keys): whenever [tree_statistics] returns, the
    result has the species of the mapping, and for each of the three classes
    whose truncated shares [int(count * p)] do not add up to more than the
    class count, the per-species counts summed over the species of the
    mapping equal the class count exactly.  And [tree_statistics] does
    return, for a non-empty mapping whose shares are all [int]s. *)
Theorem allocation_sums_to_class_count pow df percentages planting_mix year :
  well_formed percentages ->
  (forall ts,
     tree_statistics pow df percentages planting_mix year = Ok ts ->
     keys (species_distribution ts) = keys percentages /\
     (shares_total (number_of_trees ts) percentages <= number_of_trees ts ->
      species_total trees (keys percentages) (species_distribution ts)
      = number_of_trees ts) /\
     (shares_total (number_of_saplings ts) percentages <= number_of_saplings ts ->
      species_total saplings (keys percentages) (species_distribution ts)
      = number_of_saplings ts) /\
     (shares_total (number_of_largetrees ts) percentages
      <= number_of_largetrees ts ->
      species_total largetrees (keys percentages) (species_distribution ts)
      = number_of_largetrees ts)) /\
  (percentages <> [] ->
   shares_convert df planting_mix year percentages ->
   returns (tree_statistics pow df percentages planting_mix year)).
Proof.
  intros Hwf. split; [|apply tree_statistics_returns; exact Hwf].
  intros ts Hrun.
  destruct (tree_statistics_allocation _ _ _ _ _ _ Hwf Hrun) as (Hk & Ht & Hs & Hl).
  assert (Hwf' : well_formed (species_distribution ts))
    by (unfold well_formed; rewrite Hk; exact Hwf).
  rewrite <- Hk, !species_total_keys by exact Hwf'.
  split; [reflexivity|]. lia.
Qed.

Lemma three_species_well_formed : well_formed three_species.
Proof.
  unfold well_formed, three_species; simpl.
  repeat constructor; simpl; intuition discriminate.
Qed.

(** [allocation_sums_to_class_count] at work: three trees and one sapling
    shared at 30% each leave a remainder in both classes, and the distribution
    loops hand it out. *)
Lemma allocation_sums_witness :
  exists ts,
    tree_statistics pow_of_examples four_rows three_species "Mixed Wood" 1 = Ok ts /\
    species_total trees (keys three_species) (species_distribution ts) = 3 /\
    species_total saplings (keys three_species) (species_distribution ts) = 1 /\
    species_total largetrees (keys three_species) (species_distribution ts) = 0.
Proof.
  eexists. split; [vm_compute; reflexivity|].
  match goal with
  | |- species_total _ _ (species_distribution ?t) = _ /\ _ =>
      assert (Hrun : tree_statistics pow_of_examples four_rows three_species
                       "Mixed Wood" 1 = Ok t) by (vm_compute; reflexivity);
      destruct (proj1 (allocation_sums_to_class_count pow_of_examples four_rows
                         three_species "Mixed Wood" 1 three_species_well_formed)
                  t Hrun) as (_ & Ht & Hs & Hl)
  end.
  split; [apply Ht|split; [apply Hs|apply Hl]]; vm_compute; discriminate.
Defined.

(** C1 as stated fails: with two species at 100% each and a single tree, both
    species are given the tree, the remainder is negative, no loop runs, and
    the per-species tree counts sum to 2, not to the tree count 1. *)
Lemma allocation_overshoots :
  exists ts,
    tree_statistics pow_of_examples [mixed_wood 8 10] twice_everything
      "Mixed Wood" 1 = Ok ts /\
    number_of_trees ts = 1 /\
    species_total trees (keys twice_everything) (species_distribution ts) = 2 /\
    species_total trees (keys twice_everything) (species_distribution ts)
      <> number_of_trees ts.
Proof.
  eexists. split; [vm_compute; reflexivity|].
  vm_compute. repeat split; discriminate.
Qed.

(** ** The order and the zeros of binary64 *)

Lemma SFleb_trans (a b c : spec_float) :
  SFleb a b = true -> SFleb b c = true -> SFleb a c = true.
Proof.
  unfold SFleb.
  destruct a as [sa|sa| |sa ma ea], b as [sb|sb| |sb mb eb],
    c as [sc|sc| |sc mc ec]; simpl;
    repeat match goal with s : bool |- _ => destruct s end;
    simpl; try congruence; try reflexivity.
  all: change (Pos.compare_cont Eq ?x ?y) with (Pos.compare x y).
  all: destruct (Z.compare_spec ea eb), (Z.compare_spec eb ec),
         (Z.compare_spec ea ec); try congruence; try lia;
       subst; simpl;
       destruct (Pos.compare_spec ma mb), (Pos.compare_spec mb mc),
         (Pos.compare_spec ma mc); simpl; try congruence; try lia.
Qed.

Lemma SFleb_ltb_trans (a b c : spec_float) :
  SFleb a b = true -> SFltb b c = true -> SFltb a c = true.
Proof.
  unfold SFleb, SFltb.
  destruct a as [sa|sa| |sa ma ea], b as [sb|sb| |sb mb eb],
    c as [sc|sc| |sc mc ec]; simpl;
    repeat match goal with s : bool |- _ => destruct s end;
    simpl; try congruence; try reflexivity.
  all: change (Pos.compare_cont Eq ?x ?y) with (Pos.compare x y).
  all: destruct (Z.compare_spec ea eb), (Z.compare_spec eb ec),
         (Z.compare_spec ea ec); try congruence; try lia;
       subst; simpl;
       destruct (Pos.compare_spec ma mb), (Pos.compare_spec mb mc),
         (Pos.compare_spec ma mc); simpl; try congruence; try lia.
Qed.

Lemma SFcompare_antisym (a b : spec_float) (c : comparison) :
  SFcompare a b = Some c -> SFcompare b a = Some (CompOpp c).
Proof.
  destruct a as [sa|sa| |sa ma ea], b as [sb|sb| |sb mb eb]; simpl;
    repeat match goal with s : bool |- _ => destruct s end;
    simpl; try congruence; intros [= <-]; try reflexivity.
  all: change (Pos.compare_cont Eq ?x ?y) with (Pos.compare x y).
  all: rewrite (Z.compare_antisym ea eb), (Pos.compare_antisym ma mb).
  all: destruct (ea ?= eb); simpl; try reflexivity;
       destruct (ma ?= mb)%positive; reflexivity.
Qed.

Lemma leb_trans (x y z : float) :
  (x <=? y)%float = true -> (y <=? z)%float = true -> (x <=? z)%float = true.
Proof. rewrite !FloatAxioms.leb_spec. apply SFleb_trans. Qed.

Lemma leb_ltb_trans (x y z : float) :
  (x <=? y)%float = true -> (y <? z)%float = true -> (x <? z)%float = true.
Proof. rewrite !FloatAxioms.leb_spec, !FloatAxioms.ltb_spec. apply SFleb_ltb_trans. Qed.

(** Two floats that are both compared with a third are comparable: when [y]
    is not below or equal to [z], it is above. *)
Lemma not_leb_ltb (x y z : float) :
  (x <=? y)%float = true -> (z <=? z)%float = true ->
  (y <=? z)%float = false -> (z <? y)%float = true.
Proof.
  rewrite !FloatAxioms.leb_spec, !FloatAxioms.ltb_spec. unfold SFleb, SFltb.
  destruct (SFcompare (Prim2SF y) (Prim2SF z)) as [c|] eqn:Hc.
  - rewrite (SFcompare_antisym _ _ _ Hc). destruct c; simpl; congruence.
  - destruct (Prim2SF x), (Prim2SF y), (Prim2SF z); simpl in *; congruence.
Qed.

(** A float at or below [y] is not above it. *)
Lemma leb_not_ltb (x y : float) :
  (x <=? y)%float = true -> (y <? x)%float = false.
Proof.
  rewrite FloatAxioms.leb_spec, FloatAxioms.ltb_spec. unfold SFleb, SFltb.
  destruct (SFcompare (Prim2SF x) (Prim2SF y)) as [c|] eqn:Hc; [|discriminate].
  rewrite (SFcompare_antisym _ _ _ Hc). destruct c; simpl; congruence.
Qed.

(** A finite float is a zero or has a mantissa and an exponent. *)
Lemma is_finite_exact (x : float) :
  is_finite x = true -> exists M e, float_exact x = Some (M, e).
Proof.
  unfold is_finite, is_nan, is_infinity, float_exact.
  rewrite !FloatAxioms.eqb_spec, FloatAxioms.abs_spec.
  destruct (Prim2SF x) as [s|s| |s m e]; simpl; eauto.
  - destruct s; discriminate.
  - discriminate.
Qed.

Lemma float_exact_is_finite (x : float) (M e : Z) :
  float_exact x = Some (M, e) -> is_finite x = true.
Proof.
  unfold is_finite, is_nan, is_infinity, float_exact.
  rewrite !FloatAxioms.eqb_spec, FloatAxioms.abs_spec.
  destruct (Prim2SF x) as [s|s| |s m e']; simpl; try discriminate; intros _.
  - reflexivity.
  - unfold SFeqb. simpl.
    change (Pos.compare_cont Eq m m) with (Pos.compare m m).
    rewrite Z.compare_refl, Pos.compare_refl. destruct s; reflexivity.
Qed.

(** The floats equal to zero are the two zeros. *)
Lemma eqb_zero_exact (z : float) :
  (z =? 0)%float = true <-> exists s, Prim2SF z = S754_zero s.
Proof.
  rewrite FloatAxioms.eqb_spec. unfold SFeqb.
  change (Prim2SF 0%float) with (S754_zero false).
  destruct (Prim2SF z) as [sz|sz| |sz mz ez]; simpl; split;
    try discriminate; eauto; try (intros [s [=]]); destruct sz; discriminate.
Qed.

(** Zero times a finite float is a zero, of either sign. *)
Lemma zero_mul_finite (z x : float) :
  (z =? 0)%float = true -> is_finite x = true -> (z * x =? 0)%float = true.
Proof.
  intros Hz Hx. apply eqb_zero_exact in Hz. destruct Hz as [sz Hz].
  apply eqb_zero_exact. rewrite FloatAxioms.mul_spec, Hz. unfold SF64mul.
  apply is_finite_exact in Hx. destruct Hx as (M & e & Hx).
  unfold float_exact in Hx.
  destruct (Prim2SF x); simpl; try discriminate; eauto.
Qed.

(** The sum of two zeros is a zero. *)
Lemma zero_add_zero (x y : float) :
  (x =? 0)%float = true -> (y =? 0)%float = true -> (x + y =? 0)%float = true.
Proof.
  intros Hx Hy. apply eqb_zero_exact in Hx, Hy.
  destruct Hx as [sx Hx], Hy as [sy Hy].
  apply eqb_zero_exact. rewrite FloatAxioms.add_spec, Hx, Hy.
  destruct sx, sy; simpl; eauto.
Qed.

(** ** Integers as floats *)

Lemma digits2_iter_xO (p k : positive) :
  digits2_pos (Pos.iter xO p k) = (digits2_pos p + k)%positive.
Proof.
  induction k as [|k IH] using Pos.peano_ind.
  - simpl. lia.
  - rewrite Pos.iter_succ. simpl. rewrite IH. lia.
Qed.

Lemma digits2_lower_bound (p : positive) :
  2 ^ (Zpos (digits2_pos p) - 1) <= Zpos p.
Proof.
  induction p as [p IH|p IH|]; simpl digits2_pos.
  - rewrite Pos2Z.inj_succ. replace (Z.succ (Zpos (digits2_pos p)) - 1)
      with (Z.succ (Zpos (digits2_pos p) - 1)) by lia.
    rewrite Z.pow_succ_r by lia. lia.
  - rewrite Pos2Z.inj_succ. replace (Z.succ (Zpos (digits2_pos p)) - 1)
      with (Z.succ (Zpos (digits2_pos p) - 1)) by lia.
    rewrite Z.pow_succ_r by lia. lia.
  - simpl. lia.
Qed.

Lemma digits2_small (p : positive) : Zpos p < 2 ^ 53 -> Zpos (digits2_pos p) <= 53.
Proof.
  intros H. pose proof (digits2_lower_bound p) as L.
  destruct (Z.le_gt_cases (Zpos (digits2_pos p)) 53) as [|G]; [assumption|].
  exfalso. assert (2 ^ 53 <= 2 ^ (Zpos (digits2_pos p) - 1))
    by (apply Z.pow_le_mono_r; lia). lia.
Qed.

Ltac corelib_Z :=
  change IntDef.Z.add with Z.add in *; change IntDef.Z.sub with Z.sub in *;
  change IntDef.Z.max with Z.max in *; change IntDef.Z.leb with Z.leb in *;
  change IntDef.Z.eqb with Z.eqb in *.

Lemma fexp_full_mantissa (mz : positive) (ez : Z) :
  Zpos (digits2_pos mz) = 53 -> -52 <= ez <= 0 ->
  fexp prec emax (Zpos (digits2_pos mz) + ez) = ez.
Proof.
  intros Hd He. rewrite Hd. unfold fexp, SpecFloat.emin, prec, emax.
  corelib_Z. lia.
Qed.

Lemma shr_fexp_full_mantissa (mz : positive) (ez : Z) :
  Zpos (digits2_pos mz) = 53 -> -52 <= ez <= 0 ->
  shr_fexp prec emax (Zpos mz) ez loc_Exact
  = ({| shr_m := Zpos mz; shr_r := false; shr_s := false |}, ez).
Proof.
  intros Hd He. unfold shr_fexp. simpl Zdigits2. corelib_Z.
  rewrite (fexp_full_mantissa mz ez Hd He), Z.sub_diag. reflexivity.
Qed.

Lemma binary_round_aux_full_mantissa (s : bool) (mz : positive) (ez : Z) :
  Zpos (digits2_pos mz) = 53 -> -52 <= ez <= 0 ->
  binary_round_aux prec emax s (Zpos mz) ez loc_Exact = S754_finite s mz ez /\
  valid_binary (S754_finite s mz ez) = true.
Proof.
  intros Hd He. split.
  - unfold binary_round_aux.
    rewrite (shr_fexp_full_mantissa mz ez Hd He). cbn [shr_m loc_of_shr_record round_nearest_even].
    rewrite (shr_fexp_full_mantissa mz ez Hd He). cbn [shr_m]. corelib_Z.
    destruct (Z.leb_spec ez (emax - prec)); [reflexivity|].
    unfold emax, prec in *. lia.
  - simpl. unfold SpecFloat.bounded, SpecFloat.canonical_mantissa. corelib_Z.
    rewrite (fexp_full_mantissa mz ez Hd He), Z.eqb_refl. simpl.
    apply Z.leb_le. unfold emax, prec. lia.
Qed.

Lemma binary_round_small (s : bool) (p : positive) :
  Zpos p < 2 ^ 53 ->
  exists m e, binary_round prec emax s p 0 = S754_finite s m e /\
              valid_binary (S754_finite s m e) = true.
Proof.
  intros Hp. apply digits2_small in Hp.
  unfold binary_round. corelib_Z.
  set (d := digits2_pos p) in *.
  assert (Hf : fexp prec emax (Zpos d + 0) = Zpos d - 53).
  { unfold fexp, SpecFloat.emin, prec, emax. corelib_Z. lia. }
  rewrite Hf. unfold shl_align. corelib_Z.
  destruct (Zpos d - 53 - 0) as [|k|k] eqn:Hk.
  - exists p, 0. apply binary_round_aux_full_mantissa; [fold d; lia|lia].
  - lia.
  - exists (Pos.iter xO p k), (Zpos d - 53).
    apply binary_round_aux_full_mantissa.
    + rewrite digits2_iter_xO. fold d. lia.
    + lia.
Qed.

Lemma Z2F_small_exact (n : Z) :
  Z.abs n < 2 ^ 53 -> exists M e, float_exact (Z2F n) = Some (M, e).
Proof.
  intros Hn. unfold Z2F, float_exact, binary_normalize.
  destruct n as [|p|p].
  - exists 0, 0. reflexivity.
  - destruct (binary_round_small false p) as (m & e & Hr & Hv); [lia|].
    rewrite Hr, (Prim2SF_SF2Prim _ Hv). eauto.
  - destruct (binary_round_small true p) as (m & e & Hr & Hv); [lia|].
    rewrite Hr, (Prim2SF_SF2Prim _ Hv). eauto.
Qed.

(** An int below [2^53] in magnitude converts to a float without error. *)
Lemma int_to_float_small (n : Z) :
  Z.abs n < 2 ^ 53 -> int_to_float n = Ok (Z2F n).
Proof.
  intros Hn. unfold int_to_float.
  destruct (Z2F_small_exact n Hn) as (M & e & H).
  rewrite (float_exact_is_finite _ _ _ H). reflexivity.
Qed.

(** A converted int is a finite float. *)
Lemma int_to_float_finite (n : Z) (f : float) :
  int_to_float n = Ok f -> is_finite f = true.
Proof.
  unfold int_to_float. destruct (is_finite (Z2F n)) eqn:H; [|discriminate].
  intros [= <-]. exact H.
Qed.

(** ** Floors, exactly *)

Lemma Qpower_2_neg (k : Z) :
  0 < k -> (Qpower 2 (- k) == / inject_Z (2 ^ k))%Q.
Proof.
  intros Hk. rewrite Qpower_opp. apply Qinv_comp.
  rewrite Zpower_Qpower by lia. reflexivity.
Qed.

(** [exact_floor M e] is the integer floor of the rational [M * 2^e]. *)
Lemma exact_floor_spec (M e : Z) :
  (inject_Z (exact_floor M e) <= inject_Z M * Qpower 2 e)%Q /\
  (inject_Z M * Qpower 2 e < inject_Z (exact_floor M e) + 1)%Q.
Proof.
  unfold exact_floor.
  destruct (Z.le_gt_cases 0 e) as [He|He].
  - rewrite Z.shiftl_mul_pow2 by exact He.
    rewrite inject_Z_mult, (Zpower_Qpower 2 e He).
    change (inject_Z 2) with 2%Q. split.
    + apply Qle_refl.
    + rewrite <- (Qplus_0_r (inject_Z M * 2 ^ e)) at 1.
      apply Qplus_lt_r. reflexivity.
  - replace e with (- (- e)) by lia.
    rewrite Z.shiftl_opp_r, Z.shiftr_div_pow2 by lia.
    set (k := - e). assert (Hk : 0 < k) by (unfold k; lia).
    rewrite (Qpower_2_neg k Hk).
    assert (HD : 0 < 2 ^ k) by (apply Z.pow_pos_nonneg; lia).
    set (D := 2 ^ k) in *.
    pose proof (Z.mul_div_le M D HD) as Hlo.
    pose proof (Z.mul_succ_div_gt M D HD) as Hhi.
    assert (HDq : (0 < inject_Z D)%Q) by (change (inject_Z 0 < inject_Z D)%Q; rewrite <- Zlt_Qlt; exact HD).
    split.
    + apply Qle_shift_div_l; [exact HDq|].
      rewrite <- inject_Z_mult, <- Zle_Qle. lia.
    + apply Qlt_shift_div_r; [exact HDq|].
      rewrite <- (inject_Z_plus _ 1), <- inject_Z_mult, <- Zlt_Qlt. lia.
Qed.

(** [math.floor] answers the largest integer not above the float's value:
    it rounds toward minus infinity. *)
Lemma math_floor_spec (x : float) (z : Z) :
  math_floor x = Ok z ->
  (inject_Z z <= F2Q x)%Q /\ (F2Q x < inject_Z z + 1)%Q.
Proof.
  unfold math_floor, float_to_int, F2Q.
  destruct (float_exact x) as [[M e]|].
  - intros [= <-]. apply exact_floor_spec.
  - destruct (is_nan x); discriminate.
Qed.

(** [math.floor] returns on every finite float. *)
Lemma math_floor_finite (x : float) :
  is_finite x = true -> returns (math_floor x).
Proof.
  intros H. destruct (is_finite_exact x H) as (M & e & Hx).
  unfold math_floor, float_to_int. rewrite Hx. eexists; reflexivity.
Qed.

(** ** [calculate_tariff_numbers_and_volume] *)

Lemma multiplication_factor_as_chain (d : float) :
  multiplication_factor d = step_chain dbh_bands 1.30%float d.
Proof. reflexivity. Qed.

Lemma step_chain_bounded_below (v : float) bands default d :
  forallb (fun band => (v <=? snd band)%float) bands = true ->
  (v <=? default)%float = true ->
  (v <=? step_chain bands default d)%float = true.
Proof.
  induction bands as [|[bound factor] rest IH]; simpl; intros Hall Hdef.
  - exact Hdef.
  - apply andb_prop in Hall. destruct Hall as [Hf Hrest].
    destruct (bound <=? d)%float; auto.
Qed.

(** A chain of bands with descending bounds read from the top, whose
    factors ascend, is a non-increasing step function. *)
Lemma step_chain_monotone bands default d1 d2 :
  ascending bands default = true ->
  (d1 <=? d2)%float = true ->
  (step_chain bands default d2 <=? step_chain bands default d1)%float = true.
Proof.
  intros Hasc Hd. induction bands as [|[bound factor] rest IH]; simpl in *.
  - exact Hasc.
  - apply andb_prop in Hasc. destruct Hasc as [Hasc Hrest].
    apply andb_prop in Hasc. destruct Hasc as [Hall Hdef].
    apply andb_prop in Hall. destruct Hall as [Hrefl Hall].
    destruct (bound <=? d1)%float eqn:H1.
    + rewrite (leb_trans _ _ _ H1 Hd). exact Hrefl.
    + destruct (bound <=? d2)%float eqn:H2.
      * apply step_chain_bounded_below; assumption.
      * apply IH. exact Hrest.
Qed.

(** What a returned [volume_stats] was made of. *)
Lemma calculate_tariff_inversion ts species r :
  calculate_tariff_numbers_and_volume ts species = Ok r ->
  exists tariff t a nt,
    single_tree_tariff species (mean_tree_height ts) (mean_dbh_trees ts) = Ok tariff /\
    math_floor tariff = Ok (tariff_number r) /\
    int_to_float (tariff_number r) = Ok t /\
    dict_get (species_distribution ts) species = Some a /\
    int_to_float (trees a) = Ok nt /\
    mean_tree_volume r
      = ((0.0360541 * t) - (0.315049301 * (t - 0.138763302) * 0.118288)
         + (0.315049301 * (t - 0.138763302) * mean_basal_area ts))%float /\
    total_stem_volume r
      = (mean_tree_volume r * nt * multiplication_factor (mean_dbh_trees ts))%float.
Proof.
  unfold calculate_tariff_numbers_and_volume.
  destruct (single_tree_tariff _ _ _) as [tariff|] eqn:Hreg; simpl; [|discriminate].
  destruct (math_floor tariff) as [z|] eqn:Hz; simpl; [|discriminate].
  destruct (int_to_float z) as [t|] eqn:Ht; simpl; [|discriminate].
  unfold dict_item.
  destruct (dict_get _ species) as [a|] eqn:Ha; simpl; [|discriminate].
  unfold float_mul_int.
  destruct (int_to_float (trees a)) as [nt|] eqn:Hnt; simpl; [|discriminate].
  intros [= <-]. simpl. exists tariff, t, a, nt.
  repeat split; try assumption; try reflexivity.
Qed.

(** The function returns on usable statistics for a species with a tariff. *)
Lemma calculate_tariff_returns ts species :
  has_tariff species -> usable_for ts species ->
  returns (calculate_tariff_numbers_and_volume ts species).
Proof.
  intros Htab [Hfloor (a & Ha & Hta)].
  unfold calculate_tariff_numbers_and_volume.
  destruct (single_tree_tariff species (mean_tree_height ts) (mean_dbh_trees ts))
    as [tariff|e] eqn:Hreg.
  - destruct (Hfloor tariff eq_refl) as (z & Hz & Hzb).
    simpl. rewrite Hz. simpl. rewrite (int_to_float_small z Hzb). simpl.
    unfold dict_item. rewrite Ha. simpl.
    unfold float_mul_int. rewrite (int_to_float_small _ Hta). simpl.
    eexists; reflexivity.
  - exfalso. unfold single_tree_tariff, has_tariff in *.
    destruct (dict_get conifer_constants species) as [[[a1 a2] a3]|];
      [discriminate|].
    destruct (dict_get broadleaf_constants species) as [[[[a1 a2] a3] a4]|];
      [discriminate|].
    destruct Htab as [H|H]; apply H; reflexivity.
Qed.

(** A species in neither table is refused, whatever the statistics. *)
Lemma calculate_tariff_unknown_species ts species :
  dict_get conifer_constants species = None ->
  dict_get broadleaf_constants species = None ->
  calculate_tariff_numbers_and_volume ts species
  = Raise (species_not_in_constants species).
Proof.
  intros Hc Hb. unfold calculate_tariff_numbers_and_volume, single_tree_tariff.
  rewrite Hc, Hb. reflexivity.
Qed.

(** No species is in both tariff tables. *)
Lemma tariff_tables_disjoint species c :
  dict_get broadleaf_constants species = Some c ->
  dict_get conifer_constants species = None.
Proof.
  unfold broadleaf_constants. cbn [dict_get].
  repeat match goal with
         | |- context [String.eqb species ?k] =>
             destruct (String.eqb_spec species k) as [->|_];
             [intros _; reflexivity|]
         end.
  discriminate.
Qed.

(** With a tariff for the species, whatever the function raises is not the
    error of the species gate. *)
Lemma calculate_tariff_passes_gate ts species :
  has_tariff species ->
  calculate_tariff_numbers_and_volume ts species
  <> Raise (species_not_in_constants species).
Proof.
  intros Htab. unfold calculate_tariff_numbers_and_volume.
  destruct (single_tree_tariff species (mean_tree_height ts) (mean_dbh_trees ts))
    as [tariff|e] eqn:Hreg.
  - simpl. unfold math_floor, float_to_int.
    destruct (float_exact tariff) as [[M e]|]; simpl.
    + unfold int_to_float. destruct (is_finite (Z2F _)); simpl; [|discriminate].
      unfold dict_item. destruct (dict_get _ species); simpl; [|discriminate].
      unfold float_mul_int, int_to_float.
      destruct (is_finite (Z2F _)); simpl; discriminate.
    + destruct (is_nan tariff); simpl; [|discriminate].
      unfold species_not_in_constants, msg_nan. simpl. discriminate.
  - exfalso. unfold single_tree_tariff, has_tariff in *.
    destruct (dict_get conifer_constants species) as [[[a1 a2] a3]|];
      [discriminate|].
    destruct (dict_get broadleaf_constants species) as [[[[a1 a2] a3] a4]|];
      [discriminate|].
    destruct Htab as [H|H]; apply H; reflexivity.
Qed.

(** C3.  Whenever [calculate_tariff_numbers_and_volume] returns, its
    [tariff_number] is an integer, the [math.floor] of the regression value
    [t]: the largest integer not above [t] (rounding toward minus infinity),
    where [t] is [a1 + a2*h + a3*d] for a species of the conifer table and
    [a1 + a2*h + a3*d + a4*d*h] for a species of the broadleaf table, with
    [h] the mean tree height and [d] the mean DBH of the trees.  And the
    function does return, for a species of either table on statistics usable
    for it. *)
Theorem tariff_number_is_floored_regression ts species :
  (forall r,
     calculate_tariff_numbers_and_volume ts species = Ok r ->
     exists t : float,
       math_floor t = Ok (tariff_number r) /\
       (inject_Z (tariff_number r) <= F2Q t)%Q /\
       (F2Q t < inject_Z (tariff_number r) + 1)%Q /\
       (forall a1 a2 a3,
          dict_get conifer_constants species = Some (a1, a2, a3) ->
          t = (a1 + a2 * mean_tree_height ts + a3 * mean_dbh_trees ts)%float) /\
       (forall a1 a2 a3 a4,
          dict_get broadleaf_constants species = Some (a1, a2, a3, a4) ->
          t = (a1 + a2 * mean_tree_height ts + a3 * mean_dbh_trees ts
               + a4 * mean_dbh_trees ts * mean_tree_height ts)%float)) /\
  (has_tariff species -> usable_for ts species ->
   returns (calculate_tariff_numbers_and_volume ts species)).
Proof.
  split; [|apply calculate_tariff_returns].
  intros r Hrun.
  destruct (calculate_tariff_inversion _ _ _ Hrun)
    as (t & tf & a & nt & Hreg & Hfloor & _).
  exists t. destruct (math_floor_spec _ _ Hfloor) as [Hlo Hhi].
  repeat split; try assumption.
  - intros a1 a2 a3 Hc. unfold single_tree_tariff in Hreg.
    rewrite Hc in Hreg. congruence.
  - intros a1 a2 a3 a4 Hb. unfold single_tree_tariff in Hreg.
    rewrite (tariff_tables_disjoint _ _ Hb), Hb in Hreg. congruence.
Qed.

(** [tariff_number_is_floored_regression] on the oaks of the four-row
    stratum: mean height 2 m, mean DBH 9.01 cm, tariff number 9, the floor
    of 5.883 + 2.0123 * 2 - 0.005478 * 9.01 - 0.0057397 * 9.01 * 2. *)
Lemma tariff_number_witness :
  exists ts r,
    tree_statistics pow_of_examples four_rows three_species "Mixed Wood" 1 = Ok ts /\
    calculate_tariff_numbers_and_volume ts "oak" = Ok r /\
    tariff_number r = 9 /\
    math_floor (5.88300 + 2.01230 * mean_tree_height ts
                + -0.0054780 * mean_dbh_trees ts
                + -0.0057397 * mean_dbh_trees ts * mean_tree_height ts)%float
    = Ok 9.
Proof.
  do 2 eexists. split; [vm_compute; reflexivity|].
  match goal with
  | |- calculate_tariff_numbers_and_volume ?ts _ = _ /\ _ => pose (stats := ts)
  end.
  split; [vm_compute; reflexivity|].
  match goal with
  | |- tariff_number ?r = _ /\ _ =>
      destruct (proj1 (tariff_number_is_floored_regression stats "oak") r)
        as (t & Hfloor & _ & _ & _ & Hbroadleaf)
  end.
  - vm_compute. reflexivity.
  - split; [reflexivity|].
    rewrite (Hbroadleaf _ _ _ _ eq_refl) in Hfloor. exact Hfloor.
Defined.

(** C4.  The correction factor never increases with the mean DBH; it is 1.30
    at 7 cm and 1.00 from 33 cm on; and the returned [total_stem_volume] is
    the total volume (mean tree volume times the species' tree count) times
    the factor at the mean DBH of the trees. *)
Theorem multiplication_factor_non_increasing :
  (forall d1 d2 : float,
     (d1 <=? d2)%float = true ->
     (multiplication_factor d2 <=? multiplication_factor d1)%float = true) /\
  multiplication_factor 7 = 1.30%float /\
  (forall d : float,
     (33 <=? d)%float = true -> multiplication_factor d = 1.00%float) /\
  (forall ts species r,
     calculate_tariff_numbers_and_volume ts species = Ok r ->
     exists a count,
       dict_get (species_distribution ts) species = Some a /\
       int_to_float (trees a) = Ok count /\
       total_stem_volume r
       = (mean_tree_volume r * count
          * multiplication_factor (mean_dbh_trees ts))%float).
Proof.
  repeat split.
  - intros d1 d2 Hd. rewrite !multiplication_factor_as_chain.
    apply step_chain_monotone; [vm_compute; reflexivity|exact Hd].
  - intros d Hd. unfold multiplication_factor. rewrite Hd. reflexivity.
  - intros ts species r Hrun.
    destruct (calculate_tariff_inversion _ _ _ Hrun)
      as (t & tf & a & nt & _ & _ & _ & Ha & Hnt & _ & Hvol).
    exists a, nt. auto.
Qed.

(** [multiplication_factor_non_increasing] at 10 cm and 20 cm, and on the
    oaks of the four-row stratum. *)
Lemma multiplication_factor_witness :
  (multiplication_factor 20 <=? multiplication_factor 10)%float = true /\
  multiplication_factor 40 = 1.00%float /\
  exists ts r,
    tree_statistics pow_of_examples four_rows three_species "Mixed Wood" 1 = Ok ts /\
    calculate_tariff_numbers_and_volume ts "oak" = Ok r /\
    exists a count,
      dict_get (species_distribution ts) "oak" = Some a /\
      int_to_float (trees a) = Ok count /\
      total_stem_volume r
      = (mean_tree_volume r * count
         * multiplication_factor (mean_dbh_trees ts))%float.
Proof.
  destruct multiplication_factor_non_increasing as (Hmono & _ & Htop & Hvol).
  split; [apply Hmono; reflexivity|].
  split; [apply Htop; reflexivity|].
  do 2 eexists. split; [vm_compute; reflexivity|].
  split; [vm_compute; reflexivity|].
  apply Hvol. vm_compute. reflexivity.
Defined.

(** C5, as the code has it.  A species in neither tariff table is refused
    with the error of the species gate, whatever the statistics, so no volume
    is returned; a species in one of the tables never gets that error, and
    gets a result on statistics that are usable for it. *)
Theorem volume_species_gate ts species :
  (dict_get conifer_constants species = None ->
   dict_get broadleaf_constants species = None ->
   calculate_tariff_numbers_and_volume ts species
   = Raise (species_not_in_constants species)) /\
  (has_tariff species ->
   calculate_tariff_numbers_and_volume ts species
   <> Raise (species_not_in_constants species) /\
   (usable_for ts species ->
    returns (calculate_tariff_numbers_and_volume ts species))).
Proof.
  split.
  - apply calculate_tariff_unknown_species.
  - intros Htab. split.
    + apply calculate_tariff_passes_gate. exact Htab.
    + apply calculate_tariff_returns. exact Htab.
Qed.

(** [volume_species_gate] on the four-row stratum: "unknown_species" is
    refused, and the oaks, whose statistics are usable, get a result. *)
Lemma volume_species_gate_witness :
  exists ts,
    tree_statistics pow_of_examples four_rows three_species "Mixed Wood" 1 = Ok ts /\
    calculate_tariff_numbers_and_volume ts "unknown_species"
    = Raise (species_not_in_constants "unknown_species") /\
    calculate_tariff_numbers_and_volume ts "oak"
    <> Raise (species_not_in_constants "oak") /\
    returns (calculate_tariff_numbers_and_volume ts "oak").
Proof.
  eexists. split; [vm_compute; reflexivity|].
  split; [|split].
  - apply (proj1 (volume_species_gate _ "unknown_species")); reflexivity.
  - apply (proj2 (volume_species_gate _ "oak")).
    right. vm_compute. discriminate.
  - apply (proj2 (volume_species_gate _ "oak")).
    + right. vm_compute. discriminate.
    + split.
      * intros t Ht. vm_compute in Ht. injection Ht as <-.
        exists 9. split; [vm_compute; reflexivity|reflexivity].
      * eexists. split; [vm_compute; reflexivity|reflexivity].
Defined.

(** C5 as stated fails in its second half: "oak" is in the broadleaf table,
    yet on a stratum without trees the mean height and the mean DBH are NaN,
    and [math.floor] of the NaN tariff raises ValueError. *)
Lemma volume_raises_for_a_tabled_species :
  exists ts,
    tree_statistics pow_of_examples [] [("oak", 1%float)] "Mixed Wood" 1 = Ok ts /\
    has_tariff "oak" /\
    calculate_tariff_numbers_and_volume ts "oak" = Raise (ValueError msg_nan) /\
    ~ returns (calculate_tariff_numbers_and_volume ts "oak").
Proof.
  eexists. split; [vm_compute; reflexivity|].
  split; [right; vm_compute; discriminate|].
  split; [vm_compute; reflexivity|].
  intros [r Hr]. vm_compute in Hr. discriminate Hr.
Qed.

(** ** [calculate_carbon_and_co2_for_trees_and_saplings] *)

(** What a returned [carbon_stats] was made of. *)
Lemma calculate_carbon_inversion b species n kind h r :
  calculate_carbon_and_co2_for_trees_and_saplings b species n kind h = Ok r ->
  exists broadleaf content,
    is_broadleaf species = Ok broadleaf /\
    sapling_carbon_content broadleaf kind h = Ok content /\
    match content with
    | Some c => float_mul_int c n
    | None => Ok 0%float
    end = Ok (total_carbon_saplings r) /\
    total_carbon_trees r = (total_biomass b * 0.5)%float /\
    total_co2_trees r = (total_carbon_trees r * (44 / 12))%float /\
    total_co2_saplings r = (total_carbon_saplings r * (44 / 12))%float /\
    total_carbon r = (total_carbon_trees r + total_carbon_saplings r)%float /\
    total_co2 r = (total_co2_trees r + total_co2_saplings r)%float.
Proof.
  unfold calculate_carbon_and_co2_for_trees_and_saplings.
  destruct (is_broadleaf species) as [broadleaf|] eqn:Hb; simpl; [|discriminate].
  destruct (sapling_carbon_content broadleaf kind h) as [content|] eqn:Hc;
    simpl; [|discriminate].
  destruct (match content with Some c => float_mul_int c n | None => Ok 0%float end)
    as [saplings_carbon|] eqn:Hs; simpl; [|discriminate].
  intros [= <-]. simpl. exists broadleaf, content. repeat split; auto.
Qed.

(** The function returns for a species with a category, a finite sapling
    height and a sapling count below [2^53]. *)
Lemma calculate_carbon_returns b species n kind h broadleaf :
  is_broadleaf species = Ok broadleaf ->
  is_finite h = true -> Z.abs n < 2 ^ 53 ->
  returns (calculate_carbon_and_co2_for_trees_and_saplings b species n kind h).
Proof.
  intros Hb Hh Hn. unfold calculate_carbon_and_co2_for_trees_and_saplings.
  rewrite Hb. simpl. unfold sapling_carbon_content.
  destruct (is_finite_exact h Hh) as (M & e & He).
  assert (Hcontent : exists content,
            (if broadleaf
             then Ok (table_get broadleaf_carbon_content_per_stem (round1 kind h))
             else k <- py_round h ;;
                  Ok (table_get conifer_carbon_content_per_stem (Z2F k)))
            = Ok content).
  { destruct broadleaf; [eexists; reflexivity|].
    unfold py_round, float_to_int. rewrite He. simpl. eexists; reflexivity. }
  destruct Hcontent as [content ->]. simpl.
  destruct content as [c|]; simpl.
  - unfold float_mul_int. rewrite (int_to_float_small n Hn). simpl.
    eexists; reflexivity.
  - eexists; reflexivity.
Qed.

(** A species with no category is refused, whatever else is passed. *)
Lemma calculate_carbon_unknown_species b species n kind h e :
  is_broadleaf species = Raise e ->
  calculate_carbon_and_co2_for_trees_and_saplings b species n kind h = Raise e.
Proof.
  intros H. unfold calculate_carbon_and_co2_for_trees_and_saplings.
  rewrite H. reflexivity.
Qed.

(** C6.  For any biomass value: whenever the function returns, the carbon
    of the trees is [total_biomass * 0.5], their CO2 is that carbon times
    [44 / 12], the CO2 of the saplings is their carbon times the same
    [44 / 12], and the totals are the sums.  These are identities between
    the binary64 values: the same products, not approximations of them.  And
    the function does return, for a species with a category, a finite mean
    sapling height and a sapling count below [2^53]. *)
Theorem carbon_and_co2_factors b species n kind h :
  (forall r,
     calculate_carbon_and_co2_for_trees_and_saplings b species n kind h = Ok r ->
     total_carbon_trees r = (total_biomass b * 0.5)%float /\
     total_co2_trees r = (total_biomass b * 0.5 * (44 / 12))%float /\
     total_co2_trees r = (total_carbon_trees r * (44 / 12))%float /\
     total_co2_saplings r = (total_carbon_saplings r * (44 / 12))%float /\
     total_carbon r = (total_carbon_trees r + total_carbon_saplings r)%float /\
     total_co2 r = (total_co2_trees r + total_co2_saplings r)%float) /\
  (forall broadleaf,
     is_broadleaf species = Ok broadleaf ->
     is_finite h = true -> Z.abs n < 2 ^ 53 ->
     returns (calculate_carbon_and_co2_for_trees_and_saplings b species n kind h)).
Proof.
  split.
  - intros r Hrun.
    destruct (calculate_carbon_inversion _ _ _ _ _ _ Hrun)
      as (broadleaf & content & _ & _ & _ & Hc & Ht & Hs & Hsum & Hsum').
    repeat split; try assumption. rewrite Ht, Hc. reflexivity.
  - intros broadleaf Hb Hh Hn.
    exact (calculate_carbon_returns b species n kind h broadleaf Hb Hh Hn).
Qed.

(** [carbon_and_co2_factors] on ten tonnes of oak biomass: the function
    returns, with 5 tonnes of carbon. *)
Lemma carbon_and_co2_witness :
  exists r,
    calculate_carbon_and_co2_for_trees_and_saplings ten_tonnes "oak" 3
      python_float 3.45 = Ok r /\
    total_carbon_trees r = 5%float /\
    total_co2_trees r = (5 * (44 / 12))%float /\
    total_co2_saplings r = (total_carbon_saplings r * (44 / 12))%float.
Proof.
  destruct (carbon_and_co2_factors ten_tonnes "oak" 3 python_float 3.45)
    as [Hfacts Hreturns].
  destruct (Hreturns true) as [r Hrun]; [reflexivity|reflexivity|reflexivity|].
  exists r. split; [exact Hrun|].
  destruct (Hfacts r Hrun) as (Hc & Ht & _ & Hs & _).
  split; [rewrite Hc; reflexivity|].
  split; [rewrite Ht; reflexivity|exact Hs].
Defined.

(** C7.  A mean sapling height of 3.45 m is read in the conifer table at 3
    (the height rounded to an int) and gives 0.0006152 tonnes C per stem.  In
    the broadleaf table it is read at the height rounded to one decimal by the
    [round] of its own kind: at 3.5 for a Python float, giving 0.0007093
    tonnes C per stem, and at 3.4 for a NumPy [float64], which is what the
    per-species loop passes, giving 0.0006661 (ten times 3.45 is 34.5 in
    binary64, a tie that [rint] sends to 34).  So it is for every species of
    either category, shown on a single sapling. *)
Theorem sapling_lookup_asymmetry :
  round1 python_float 3.45 = 3.5%float /\
  round1 numpy_float64 3.45 = 3.4%float /\
  py_round 3.45 = Ok 3 /\
  (forall b species kind,
     is_broadleaf species = Ok true ->
     exists r,
       calculate_carbon_and_co2_for_trees_and_saplings b species 1 kind 3.45
       = Ok r /\
       total_carbon_saplings r
       = match kind with
         | python_float => 0.0007093%float
         | numpy_float64 => 0.0006661%float
         end) /\
  (forall b species kind,
     is_broadleaf species = Ok false ->
     exists r,
       calculate_carbon_and_co2_for_trees_and_saplings b species 1 kind 3.45
       = Ok r /\
       total_carbon_saplings r = 0.0006152%float).
Proof.
  split; [vm_compute; reflexivity|].
  split; [vm_compute; reflexivity|].
  split; [vm_compute; reflexivity|].
  split; intros b species kind Hb;
    unfold calculate_carbon_and_co2_for_trees_and_saplings; rewrite Hb; simpl.
  - destruct kind.
    + change (sapling_carbon_content true python_float 3.45)
        with (Ok (A:=option float) (Some 0.0007093%float)).
      simpl. eexists. split; [reflexivity|]. simpl. vm_compute. reflexivity.
    + change (sapling_carbon_content true numpy_float64 3.45)
        with (Ok (A:=option float) (Some 0.0006661%float)).
      simpl. eexists. split; [reflexivity|]. simpl. vm_compute. reflexivity.
  - replace (sapling_carbon_content false kind 3.45)
      with (Ok (A:=option float) (Some 0.0006152%float))
      by (destruct kind; vm_compute; reflexivity).
    simpl. eexists. split; [reflexivity|]. simpl. vm_compute. reflexivity.
Qed.

(** The claim's broadleaf value is not what the per-species loop gets: it
    passes the height as a NumPy [float64], and an oak sapling of 3.45 m then
    has 0.0006661 tonnes C, not 0.0007093. *)
Lemma broadleaf_lookup_of_numpy_height :
  exists r,
    calculate_carbon_and_co2_for_trees_and_saplings ten_tonnes "oak" 1
      numpy_float64 3.45 = Ok r /\
    total_carbon_saplings r = 0.0006661%float /\
    (total_carbon_saplings r =? 0.0007093)%float = false.
Proof.
  eexists. split; [vm_compute; reflexivity|].
  split; vm_compute; reflexivity.
Qed.

(** [sapling_lookup_asymmetry] on an oak and on a Scots pine, for a Python
    float and for a NumPy [float64]. *)
Lemma sapling_lookup_witness :
  (exists r,
     calculate_carbon_and_co2_for_trees_and_saplings ten_tonnes "oak" 1
       python_float 3.45 = Ok r /\
     total_carbon_saplings r = 0.0007093%float) /\
  (exists r,
     calculate_carbon_and_co2_for_trees_and_saplings ten_tonnes "oak" 1
       numpy_float64 3.45 = Ok r /\
     total_carbon_saplings r = 0.0006661%float) /\
  (exists r,
     calculate_carbon_and_co2_for_trees_and_saplings ten_tonnes "Scots pine" 1
       numpy_float64 3.45 = Ok r /\
     total_carbon_saplings r = 0.0006152%float).
Proof.
  destruct sapling_lookup_asymmetry as (_ & _ & _ & Hb & Hc).
  split; [exact (Hb ten_tonnes "oak" python_float eq_refl)|].
  split; [exact (Hb ten_tonnes "oak" numpy_float64 eq_refl)|].
  exact (Hc ten_tonnes "Scots pine" numpy_float64 eq_refl).
Defined.

(** ** [calculate_biomass] *)

(** What a returned [biomass_stats] holds as crown biomass. *)
Lemma calculate_biomass_inversion pow ts species vs r :
  calculate_biomass pow ts species vs = Ok r ->
  exists a,
    dict_get (species_distribution ts) species = Some a /\
    match crown_biomass pow species (mean_dbh_trees ts) with
    | Some c => float_mul_int c (trees a)
    | None => Ok 0%float
    end = Ok (total_crown_biomass r).
Proof.
  unfold calculate_biomass, dict_item.
  destruct (dict_get _ species) as [a|] eqn:Ha; simpl; [|discriminate].
  destruct (match crown_biomass pow species (mean_dbh_trees ts) with
            | Some c => float_mul_int c (trees a)
            | None => Ok 0%float
            end) as [crown|] eqn:Hc; simpl; [|discriminate].
  destruct (float_mul_int _ (trees a)) as [root|]; simpl; [|discriminate].
  intros [= <-]. simpl. exists a. split; [reflexivity|exact Hc].
Qed.

(** The function returns for a species with a tree count below [2^53]. *)
Lemma calculate_biomass_returns pow ts species vs a :
  dict_get (species_distribution ts) species = Some a ->
  Z.abs (trees a) < 2 ^ 53 ->
  returns (calculate_biomass pow ts species vs).
Proof.
  intros Ha Hn. unfold calculate_biomass, dict_item. rewrite Ha. simpl.
  unfold float_mul_int. rewrite (int_to_float_small _ Hn). simpl.
  destruct (crown_biomass pow species (mean_dbh_trees ts));
    simpl; eexists; reflexivity.
Qed.

(** With the default coefficients [(0, 0)], the crown biomass of one tree is
    a zero at every finite mean DBH from 7 cm up. *)
Lemma crown_biomass_default pow species (d : float) :
  dict_get crown_biomass_coefficients_7_to_50 species = None ->
  dict_get crown_biomass_coefficients_above_50 species = None ->
  is_finite d = true -> (7 <=? d)%float = true ->
  exists c, crown_biomass pow species d = Some c /\ (c =? 0)%float = true.
Proof.
  intros H1 H2 Hfin H7. unfold crown_biomass, dict_get_default.
  rewrite H1, H2, H7. simpl.
  destruct (d <=? 50)%float eqn:H50.
  - eexists. split; [reflexivity|]. unfold float_pow. reflexivity.
  - rewrite (not_leb_ltb 7 d 50 H7 eq_refl H50).
    eexists. split; [reflexivity|].
    apply zero_add_zero; [reflexivity|].
    apply zero_mul_finite; [reflexivity|exact Hfin].
Qed.

(** C9.  The crown tables spell the species "Beech"; the tariff and density
    tables spell it "beech".  For "beech" both crown lookups miss, the
    coefficients default to [(0, 0)], and at every finite mean DBH from 7 cm
    up [calculate_biomass] returns (for a tree count below [2^53]) with a
    [total_crown_biomass] of zero. *)
Theorem beech_crown_biomass_is_zero pow ts vs :
  is_finite (mean_dbh_trees ts) = true ->
  (7 <=? mean_dbh_trees ts)%float = true ->
  (forall r,
     calculate_biomass pow ts "beech" vs = Ok r ->
     (total_crown_biomass r =? 0)%float = true) /\
  (forall a,
     dict_get (species_distribution ts) "beech" = Some a ->
     Z.abs (trees a) < 2 ^ 53 ->
     returns (calculate_biomass pow ts "beech" vs)) /\
  dict_get crown_biomass_coefficients_7_to_50 "beech" = None /\
  dict_get crown_biomass_coefficients_above_50 "beech" = None /\
  dict_get crown_biomass_coefficients_7_to_50 "Beech"
  = Some (0.0000188154, 2.4767)%float /\
  dict_get crown_biomass_coefficients_above_50 "Beech"
  = Some (-0.459518648, 0.015263082)%float /\
  has_tariff "beech" /\
  dict_get nominal_specific_gravity "beech" = Some 0.55%float.
Proof.
  intros Hfin H7. split; [|split].
  - intros r Hrun.
    destruct (calculate_biomass_inversion _ _ _ _ _ Hrun) as (a & _ & Hcrown).
    destruct (crown_biomass_default pow "beech" _ eq_refl eq_refl Hfin H7)
      as (c & Hc & Hzero).
    rewrite Hc in Hcrown. unfold float_mul_int in Hcrown.
    destruct (int_to_float (trees a)) as [count|] eqn:Hcount;
      simpl in Hcrown; [|discriminate].
    injection Hcrown as <-.
    apply zero_mul_finite; [exact Hzero|].
    exact (int_to_float_finite _ _ Hcount).
  - intros a Ha Hn. exact (calculate_biomass_returns pow ts "beech" vs a Ha Hn).
  - repeat split; try reflexivity. right. vm_compute. discriminate.
Qed.

(** [beech_crown_biomass_is_zero] on the beech of the four-row stratum (mean
    DBH 9.01 cm). *)
Lemma beech_crown_biomass_witness :
  exists ts vs r,
    tree_statistics pow_of_examples four_rows three_species "Mixed Wood" 1 = Ok ts /\
    calculate_tariff_numbers_and_volume ts "beech" = Ok vs /\
    calculate_biomass pow_of_examples ts "beech" vs = Ok r /\
    (total_crown_biomass r =? 0)%float = true.
Proof.
  do 3 eexists. split; [vm_compute; reflexivity|].
  match goal with
  | |- calculate_tariff_numbers_and_volume ?ts _ = _ /\ _ => pose (stats := ts)
  end.
  split; [vm_compute; reflexivity|].
  match goal with
  | |- calculate_biomass _ _ _ ?vs = _ /\ _ => pose (volume := vs)
  end.
  split; [vm_compute; reflexivity|].
  match goal with
  | |- (total_crown_biomass ?r =? 0)%float = true =>
      refine (proj1 (beech_crown_biomass_is_zero pow_of_examples stats volume
                       _ _) r _)
  end; vm_compute; reflexivity.
Defined.

(** ** The per-species loop *)

(** The loop stops at the first species whose step raises. *)
Lemma species_loop_raises pow ts species :
  (forall acc, ~ returns (species_step pow ts acc species)) ->
  forall species_list acc,
    In species species_list ->
    ~ returns (species_loop pow ts species_list acc).
Proof.
  intros Hstep. induction species_list as [|s rest IH]; intros acc Hin.
  - destruct Hin.
  - simpl. destruct (species_step pow ts acc s) as [acc'|e] eqn:Hs; simpl.
    + destruct Hin as [->|Hin].
      * exfalso. apply (Hstep acc). rewrite Hs. eexists; reflexivity.
      * apply IH. exact Hin.
    + intros [r Hr]. discriminate Hr.
Qed.

(** A step cannot return for a species without a category. *)
Lemma species_step_needs_category pow ts acc species e :
  is_broadleaf species = Raise e ->
  ~ returns (species_step pow ts acc species).
Proof.
  intros Hcat [r Hr]. unfold species_step in Hr.
  destruct (dict_item _ species) as [a|]; simpl in Hr; [|discriminate].
  destruct (calculate_tariff_numbers_and_volume ts species) as [vs|];
    simpl in Hr; [|discriminate].
  destruct (calculate_biomass pow ts species vs) as [bs|];
    simpl in Hr; [|discriminate].
  rewrite (calculate_carbon_unknown_species _ _ _ _ _ _ Hcat) in Hr.
  discriminate Hr.
Qed.

(** C10.  Each of sycamore, ash, birch, elm and poplar is in the broadleaf
    tariff table, so [calculate_tariff_numbers_and_volume] lets it through
    and returns a volume on usable statistics; its lower-cased name is in
    neither category set, so
    [calculate_carbon_and_co2_for_trees_and_saplings] raises for it whatever
    else it is given; and the per-species loop cannot complete on a mapping
    that names it. *)
Theorem broadleaves_without_category species :
  In species uncategorised_broadleaves ->
  (exists c, dict_get broadleaf_constants species = Some c) /\
  (forall ts,
     calculate_tariff_numbers_and_volume ts species
     <> Raise (species_not_in_constants species) /\
     (usable_for ts species ->
      returns (calculate_tariff_numbers_and_volume ts species))) /\
  set_mem (lower species) broadleaves = false /\
  set_mem (lower species) conifers = false /\
  (forall b n kind h,
     calculate_carbon_and_co2_for_trees_and_saplings b species n kind h
     = Raise (species_not_in_categories species)) /\
  (forall pow ts species_percentages,
     In species (keys species_percentages) ->
     ~ returns (calculate_and_print_species_biomass_and_carbon pow ts
                  species_percentages)).
Proof.
  intros Hin.
  assert (Htab : exists c, dict_get broadleaf_constants species = Some c).
  { unfold uncategorised_broadleaves in Hin. simpl in Hin.
    repeat destruct Hin as [<-|Hin]; try (eexists; reflexivity).
    destruct Hin. }
  assert (Hcat : is_broadleaf species = Raise (species_not_in_categories species)).
  { unfold uncategorised_broadleaves in Hin. simpl in Hin.
    repeat destruct Hin as [<-|Hin]; try reflexivity. destruct Hin. }
  assert (Hhas : has_tariff species).
  { right. destruct Htab as [c ->]. discriminate. }
  split; [exact Htab|].
  split.
  { intros ts. split.
    - apply calculate_tariff_passes_gate. exact Hhas.
    - apply calculate_tariff_returns. exact Hhas. }
  assert (Hsets : set_mem (lower species) broadleaves = false /\
                  set_mem (lower species) conifers = false).
  { unfold is_broadleaf in Hcat.
    destruct (set_mem (lower species) broadleaves); [discriminate|].
    destruct (set_mem (lower species) conifers); [discriminate|].
    split; reflexivity. }
  split; [exact (proj1 Hsets)|]. split; [exact (proj2 Hsets)|].
  split.
  - intros b n kind h. apply calculate_carbon_unknown_species. exact Hcat.
  - intros pow ts species_percentages Hk.
    unfold calculate_and_print_species_biomass_and_carbon.
    apply (species_loop_raises pow ts species); [|exact Hk].
    intros acc. apply (species_step_needs_category _ _ _ _ _ Hcat).
Qed.

(** [broadleaves_without_category] on a stratum planted with ash alone: the
    volume is returned, the carbon step raises, the loop does not complete. *)
Lemma broadleaves_without_category_witness :
  exists ts,
    tree_statistics pow_of_examples four_rows only_ash "Mixed Wood" 1 = Ok ts /\
    returns (calculate_tariff_numbers_and_volume ts "ash") /\
    calculate_carbon_and_co2_for_trees_and_saplings ten_tonnes "ash" 1
      python_float 3.45
    = Raise (species_not_in_categories "ash") /\
    ~ returns (calculate_and_print_species_biomass_and_carbon pow_of_examples ts
                 only_ash).
Proof.
  eexists. split; [vm_compute; reflexivity|].
  assert (Hin : In "ash" uncategorised_broadleaves) by (simpl; auto).
  destruct (broadleaves_without_category "ash" Hin)
    as (_ & Hvol & _ & _ & Hcarbon & Hloop).
  split; [|split].
  - apply Hvol. split.
    + intros t Ht. vm_compute in Ht. injection Ht as <-.
      eexists. split; [vm_compute; reflexivity|reflexivity].
    + eexists. split; [vm_compute; reflexivity|reflexivity].
  - apply Hcarbon.
  - apply Hloop. simpl. auto.
Defined.

(** ** Mean and quadratic mean diameter *)

Local Open Scope R_scope.









(** The double nearest to 8.04, exactly. *)
Lemma F2R_8_04 : F2R 8.04%float = 4526117625507348 / 562949953421312.
Proof.
  unfold F2R.
  replace (F2Q 8.04%float) with (4526117625507348 # 562949953421312)%Q
    by (vm_compute; reflexivity).
  unfold Q2R. simpl. reflexivity.
Qed.

(** The rounding can take the quadratic mean below the mean in exact
    arithmetic too: for the single tree of 8.04 cm both means are the double
    8.04, and the rounded quadratic mean is 8. *)
Lemma exact_rounding_goes_below_mean :
  exact_mean_dbh_trees one_tree "Mixed Wood" 1 = F2R 8.04%float /\
  exact_quadratic_mean_dbh one_tree "Mixed Wood" 1 = F2R 8.04%float /\
  exact_rounded_quadratic_mean_dbh one_tree "Mixed Wood" 1 = 8 /\
  exact_rounded_quadratic_mean_dbh one_tree "Mixed Wood" 1
  < exact_mean_dbh_trees one_tree "Mixed Wood" 1.
Proof.
  assert (Hd : tree_diameters one_tree "Mixed Wood" 1 = [F2R 8.04%float]).
  { unfold tree_diameters.
    replace (select one_tree "Mixed Wood" 1 is_tree) with one_tree
      by (vm_compute; reflexivity).
    reflexivity. }
  pose proof F2R_8_04 as Hx.
  assert (Hm : exact_mean_dbh_trees one_tree "Mixed Wood" 1 = F2R 8.04%float).
  { unfold exact_mean_dbh_trees, real_mean. rewrite Hd. simpl. field. }
  assert (Hq : exact_quadratic_mean_dbh one_tree "Mixed Wood" 1 = F2R 8.04%float).
  { unfold exact_quadratic_mean_dbh, real_mean. rewrite Hd. simpl.
    replace ((F2R 8.04%float * F2R 8.04%float + 0) / 1)
      with (Rsqr (F2R 8.04%float)) by (unfold Rsqr; field).
    apply sqrt_Rsqr. rewrite Hx. lra. }
  assert (Hr : exact_rounded_quadratic_mean_dbh one_tree "Mixed Wood" 1 = 8).
  { unfold exact_rounded_quadratic_mean_dbh. rewrite Hq.
    unfold real_round1, real_round_half_even.
    assert (Hi : Int_part (F2R 8.04%float * 10) = 80%Z).
    { symmetry. apply Int_part_spec. rewrite Hx. lra. }
    rewrite Hi.
    destruct (Rlt_dec (F2R 8.04%float * 10 - IZR 80) (1 / 2)) as [_|Hn].
    - lra.
    - exfalso. apply Hn. rewrite Hx. lra. }
  repeat split; try assumption. rewrite Hr, Hm, Hx. lra.
Qed.

Local Close Scope R_scope.


(** ** The classes of [tree_statistics] *)

(** The large trees are trees, and no sapling is a tree. *)
Lemma largetree_is_tree (d : float) : is_largetree d = true -> is_tree d = true.
Proof.
  unfold is_largetree, is_tree. apply leb_ltb_trans. reflexivity.
Qed.

Lemma sapling_is_not_tree (d : float) : is_sapling d = true -> is_tree d = false.
Proof. unfold is_sapling, is_tree. apply leb_not_ltb. Qed.

(** C8.  In any stratum, the rows of DBH 5, 8 and 60 (heights 2, 10 and 25)
    with "oak" at proportion 1.0 are classified by the thresholds: the row
    of DBH 5 is the one sapling (DBH <= 7), the rows of DBH 8 and 60 are the
    two trees (DBH > 7), the row of DBH 60 is the one large tree (DBH > 50,
    and every large tree is a tree); and all of them are allocated to
    "oak". *)
Theorem round_trip_scenario pow planting_mix year :
  let stratum (d h : float) :=
    {| Type_ := planting_mix; Year := year; DBH := d; top_height := h |} in
  let df := [stratum 5 2; stratum 8 10; stratum 60 25]%float in
  exists ts,
    tree_statistics pow df [("oak", 1%float)] planting_mix year = Ok ts /\
    select df planting_mix year is_sapling = [stratum 5 2]%float /\
    select df planting_mix year is_tree = [stratum 8 10; stratum 60 25]%float /\
    select df planting_mix year is_largetree = [stratum 60 25]%float /\
    number_of_saplings ts = 1 /\
    number_of_trees ts = 2 /\
    number_of_largetrees ts = 1 /\
    species_distribution ts
    = [("oak", {| trees := 2; saplings := 1; largetrees := 1 |})] /\
    (forall d, is_largetree d = true -> is_tree d = true) /\
    (forall d, is_sapling d = true -> is_tree d = false).
Proof.
  intros stratum df.
  assert (Hsel : forall cls,
            select df planting_mix year cls = filter (fun r => cls (DBH r)) df).
  { intros cls. unfold select, df. simpl.
    rewrite String.eqb_refl, Z.eqb_refl. reflexivity. }
  assert (Hs : select df planting_mix year is_sapling = [stratum 5 2]%float)
    by (rewrite Hsel; reflexivity).
  assert (Ht : select df planting_mix year is_tree
               = [stratum 8 10; stratum 60 25]%float)
    by (rewrite Hsel; reflexivity).
  assert (Hl : select df planting_mix year is_largetree = [stratum 60 25]%float)
    by (rewrite Hsel; reflexivity).
  eexists. split.
  - unfold tree_statistics. rewrite Hs, Ht, Hl. vm_compute. reflexivity.
  - repeat split; try assumption; try reflexivity.
    + exact largetree_is_tree.
    + exact sapling_is_not_tree.
Qed.
(** * More properties of the code *)

(** ** NaN *)

Lemma SFcompare_refl (x : spec_float) : x <> S754_nan -> SFcompare x x = Some Eq.
Proof.
  destruct x as [s|s| |s m e]; simpl; intros H; try congruence.
  - destruct s; reflexivity.
  - change (Pos.compare_cont Eq m m) with (Pos.compare m m).
    rewrite Z.compare_refl, Pos.compare_refl. destruct s; reflexivity.
Qed.

(** There is one NaN. *)
Lemma is_nan_eq (x : float) : is_nan x = true -> x = nan.
Proof.
  unfold is_nan. rewrite FloatAxioms.eqb_spec. unfold SFeqb. intros H.
  apply Prim2SF_inj. change (Prim2SF nan) with S754_nan.
  destruct (Prim2SF x) as [s|s| |s m e] eqn:Hx; try reflexivity;
    rewrite SFcompare_refl in H by discriminate; discriminate.
Qed.

Lemma mul_nan_r (x : float) : (x * nan)%float = nan.
Proof.
  apply Prim2SF_inj. rewrite FloatAxioms.mul_spec.
  change (Prim2SF nan) with S754_nan. destruct (Prim2SF x); reflexivity.
Qed.

Lemma mul_nan_l (x : float) : (nan * x)%float = nan.
Proof.
  apply Prim2SF_inj. rewrite FloatAxioms.mul_spec.
  change (Prim2SF nan) with S754_nan. reflexivity.
Qed.

Lemma add_nan_r (x : float) : (x + nan)%float = nan.
Proof.
  apply Prim2SF_inj. rewrite FloatAxioms.add_spec.
  change (Prim2SF nan) with S754_nan. destruct (Prim2SF x); reflexivity.
Qed.

Lemma add_nan_l (x : float) : (nan + x)%float = nan.
Proof.
  apply Prim2SF_inj. rewrite FloatAxioms.add_spec.
  change (Prim2SF nan) with S754_nan. reflexivity.
Qed.

(** No float equals NaN, NaN included. *)
Lemma eqb_nan_r (x : float) : (x =? nan)%float = false.
Proof.
  rewrite FloatAxioms.eqb_spec. change (Prim2SF nan) with S754_nan.
  unfold SFeqb. destruct (Prim2SF x); reflexivity.
Qed.

(** NaN is below nothing and above nothing. *)
Lemma leb_nan_l (x : float) : (nan <=? x)%float = false.
Proof.
  rewrite FloatAxioms.leb_spec. change (Prim2SF nan) with S754_nan. reflexivity.
Qed.

Lemma leb_nan_r (x : float) : (x <=? nan)%float = false.
Proof.
  rewrite FloatAxioms.leb_spec. change (Prim2SF nan) with S754_nan.
  unfold SFleb. destruct (Prim2SF x); reflexivity.
Qed.

Lemma ltb_nan_r (x : float) : (x <? nan)%float = false.
Proof.
  rewrite FloatAxioms.ltb_spec. change (Prim2SF nan) with S754_nan.
  unfold SFltb. destruct (Prim2SF x); reflexivity.
Qed.

(** A float that is compared with another is not NaN. *)
Lemma leb_not_nan_l (x y : float) : (x <=? y)%float = true -> is_nan x = false.
Proof.
  intros H. destruct (is_nan x) eqn:Hn; [|reflexivity].
  rewrite (is_nan_eq x Hn), leb_nan_l in H. discriminate.
Qed.

Lemma ltb_not_nan_r (x y : float) : (x <? y)%float = true -> is_nan y = false.
Proof.
  intros H. destruct (is_nan y) eqn:Hn; [|reflexivity].
  rewrite (is_nan_eq y Hn), ltb_nan_r in H. discriminate.
Qed.

(** Two floats that are not NaN are comparable. *)
Lemma leb_total (x y : float) :
  is_nan x = false -> is_nan y = false ->
  (x <=? y)%float = true \/ (y <? x)%float = true.
Proof.
  unfold is_nan. rewrite !FloatAxioms.eqb_spec, FloatAxioms.leb_spec,
    FloatAxioms.ltb_spec. unfold SFeqb, SFleb, SFltb. intros Hx Hy.
  destruct (SFcompare (Prim2SF x) (Prim2SF y)) as [c|] eqn:Hc.
  - rewrite (SFcompare_antisym _ _ _ Hc). destruct c; simpl; auto.
  - destruct (Prim2SF x), (Prim2SF y); simpl in *; discriminate.
Qed.

(** ** More on [tree_statistics] *)

(** ** The classes and the means of [tree_statistics] *)

Local Opaque Z.of_nat.

(** The three counts of a result are the sizes of the three selections. *)
Lemma tree_statistics_counts pow df percentages planting_mix year ts :
  tree_statistics pow df percentages planting_mix year = Ok ts ->
  number_of_trees ts = class_count df planting_mix year is_tree /\
  number_of_saplings ts = class_count df planting_mix year is_sapling /\
  number_of_largetrees ts = class_count df planting_mix year is_largetree.
Proof.
  unfold tree_statistics.
  destruct (initial_allocation _ _ _ _ _) as [st|]; simpl; [|discriminate].
  destruct (distribute_remaining incr_trees _ _ _) as [d1|]; simpl; [|discriminate].
  destruct (distribute_remaining incr_saplings _ _ _) as [d2|]; simpl; [|discriminate].
  destruct (distribute_remaining incr_largetrees _ _ _) as [d3|]; simpl; [|discriminate].
  intros [= <-]. simpl. repeat split; reflexivity.
Qed.

(** A measured DBH is a tree's or a sapling's, never both; NaN is neither. *)
Lemma tree_or_sapling (d : float) :
  is_tree d = negb (is_sapling d) && is_measured d.
Proof.
  unfold is_tree, is_sapling, is_measured.
  destruct (is_nan d) eqn:Hn.
  - rewrite (is_nan_eq d Hn), ltb_nan_r, leb_nan_l. reflexivity.
  - destruct (leb_total d 7 Hn eq_refl) as [H|H].
    + rewrite H, (leb_not_ltb _ _ H). reflexivity.
    + rewrite H. destruct (d <=? 7)%float eqn:Hle; [|reflexivity].
      rewrite (leb_not_ltb _ _ Hle) in H. discriminate.
Qed.

Lemma sapling_is_measured (d : float) : is_sapling d = true -> is_measured d = true.
Proof.
  unfold is_sapling, is_measured. intros H.
  rewrite (leb_not_nan_l _ _ H). reflexivity.
Qed.

Lemma select_length_split df planting_mix year :
  class_count df planting_mix year is_tree
  + class_count df planting_mix year is_sapling
  = class_count df planting_mix year is_measured.
Proof.
  unfold class_count, select.
  induction df as [|r df IH]; simpl; [reflexivity|].
  destruct (String.eqb (Type_ r) planting_mix && (Year r =? year)); simpl;
    [|exact IH].
  rewrite tree_or_sapling.
  destruct (is_sapling (DBH r)) eqn:Hs; simpl.
  - rewrite (sapling_is_measured _ Hs). simpl. lia.
  - destruct (is_measured (DBH r)); simpl; lia.
Qed.

Lemma select_length_le df planting_mix year (cls cls' : float -> bool) :
  (forall d, cls d = true -> cls' d = true) ->
  class_count df planting_mix year cls <= class_count df planting_mix year cls'.
Proof.
  intros Hsub. unfold class_count, select.
  induction df as [|r df IH]; simpl; [lia|].
  destruct (String.eqb (Type_ r) planting_mix && (Year r =? year)); simpl;
    [|exact IH].
  destruct (cls (DBH r)) eqn:Hc; simpl.
  - rewrite (Hsub _ Hc). simpl. lia.
  - destruct (cls' (DBH r)); simpl; lia.
Qed.

Lemma select_length_stratum df planting_mix year (cls : float -> bool) :
  class_count df planting_mix year cls
  <= Z.of_nat (List.length (filter (in_stratum planting_mix year) df)).
Proof.
  unfold class_count, select, in_stratum.
  induction df as [|r df IH]; simpl; [lia|].
  destruct (String.eqb (Type_ r) planting_mix && (Year r =? year)); simpl;
    [|exact IH].
  destruct (cls (DBH r)); simpl; lia.
Qed.

(** X1. Whenever tree_statistics returns, the tree count and the sapling count
    add up to the number of rows of the stratum whose DBH is not NaN, which
    is at most the number of rows of the stratum, and the large-tree count
    lies between 0 and the tree count. *)
Theorem classes_split_the_stratum pow df percentages planting_mix year ts :
  tree_statistics pow df percentages planting_mix year = Ok ts ->
  number_of_trees ts + number_of_saplings ts
  = class_count df planting_mix year is_measured /\
  number_of_trees ts + number_of_saplings ts
  <= Z.of_nat (List.length (filter (in_stratum planting_mix year) df)) /\
  0 <= number_of_largetrees ts <= number_of_trees ts.
Proof.
  intros Hrun.
  destruct (tree_statistics_counts _ _ _ _ _ _ Hrun) as (-> & -> & ->).
  rewrite select_length_split. split; [reflexivity|]. split.
  - apply select_length_stratum.
  - split; [unfold class_count; lia|].
    apply select_length_le. exact largetree_is_tree.
Qed.

Lemma select_in_stratum df planting_mix year cls :
  select (filter (in_stratum planting_mix year) df) planting_mix year cls
  = select df planting_mix year cls.
Proof.
  unfold select, in_stratum. induction df as [|r df IH]; simpl; [reflexivity|].
  destruct (String.eqb (Type_ r) planting_mix && (Year r =? year)) eqn:Hs; simpl.
  - rewrite Hs. simpl. rewrite IH. reflexivity.
  - exact IH.
Qed.

(** X2. tree_statistics depends on the dataframe only through the rows of the
    selected planting mix and year, in their order: two dataframes with the
    same such rows give the same result or the same error. *)
Theorem other_strata_are_ignored pow df df' percentages planting_mix year :
  filter (in_stratum planting_mix year) df
  = filter (in_stratum planting_mix year) df' ->
  tree_statistics pow df percentages planting_mix year
  = tree_statistics pow df' percentages planting_mix year.
Proof.
  intros Hsame.
  assert (Hsel : forall cls,
            select df planting_mix year cls = select df' planting_mix year cls).
  { intros cls. rewrite <- (select_in_stratum df), <- (select_in_stratum df').
    rewrite Hsame. reflexivity. }
  unfold tree_statistics. rewrite !Hsel. reflexivity.
Qed.

(** X3. With an empty percentages mapping, tree_statistics raises
    ZeroDivisionError (index % len(species_list)) as soon as the stratum has
    a row with a DBH that is not NaN; on a stratum without such a row it
    returns an empty species distribution. *)
Theorem empty_mapping_divides_by_zero pow df planting_mix year :
  (0 < class_count df planting_mix year is_measured ->
   tree_statistics pow df [] planting_mix year
   = Raise (ZeroDivisionError "integer modulo by zero")) /\
  (class_count df planting_mix year is_measured = 0 ->
   exists ts,
     tree_statistics pow df [] planting_mix year = Ok ts /\
     species_distribution ts = []).
Proof.
  rewrite <- select_length_split.
  pose proof (select_length_le df planting_mix year is_largetree is_tree
                largetree_is_tree) as Hl.
  unfold class_count in *. unfold tree_statistics. simpl.
  unfold distribute_remaining.
  set (nt := List.length (select df planting_mix year is_tree)) in *.
  set (ns := List.length (select df planting_mix year is_sapling)) in *.
  set (nl := List.length (select df planting_mix year is_largetree)) in *.
  rewrite !Z.sub_0_r, !Nat2Z.id.
  split.
  - intros Hpos. destruct nt as [|nt]; simpl; [|reflexivity].
    destruct ns as [|ns]; simpl; [lia|reflexivity].
  - intros Hzero. destruct nt as [|nt]; [|lia]. destruct ns as [|ns]; [|lia].
    destruct nl as [|nl]; [|lia]. simpl. eexists. split; reflexivity.
Qed.

(** The product of a finite float and a NaN or an infinity is no number. *)
Lemma mul_not_finite (x p : float) :
  is_finite x = true -> is_finite p = false -> float_exact (x * p)%float = None.
Proof.
  intros Hx Hp. destruct (is_finite_exact x Hx) as (M & e & Hx').
  destruct (float_exact p) as [[Mp ep]|] eqn:Hp'.
  { rewrite (float_exact_is_finite _ _ _ Hp') in Hp. discriminate. }
  unfold float_exact in *. rewrite FloatAxioms.mul_spec. unfold SF64mul.
  destruct (Prim2SF x) as [sx|sx| |sx mx ex]; try discriminate;
    destruct (Prim2SF p) as [sp|sp| |sp mp ep]; try discriminate; reflexivity.
Qed.

(** No share comes out of a NaN or infinite proportion. *)
Lemma share_not_finite (count : Z) (p : float) :
  is_finite p = false -> ~ returns (share count p).
Proof.
  intros Hp [z Hz]. unfold share, int_mul_float in Hz.
  destruct (int_to_float count) as [f|] eqn:Hf; simpl in Hz; [|discriminate].
  unfold py_int, float_to_int in Hz.
  rewrite (mul_not_finite f p (int_to_float_finite _ _ Hf) Hp) in Hz.
  destruct (is_nan (f * p)%float); discriminate.
Qed.

Lemma initial_allocation_needs_shares items nt ns nl species p :
  In (species, p) items ->
  ~ returns (share nt p) ->
  forall st, ~ returns (initial_allocation items nt ns nl st).
Proof.
  intros Hin Hshare. induction items as [|[s0 p0] rest IH]; intros st [st' Hrun].
  - destruct Hin.
  - simpl in Hrun.
    destruct (share nt p0) as [a|] eqn:Ha; simpl in Hrun; [|discriminate].
    destruct (share ns p0) as [b|]; simpl in Hrun; [|discriminate].
    destruct (share nl p0) as [c|]; simpl in Hrun; [|discriminate].
    destruct Hin as [[= -> ->]|Hin].
    + apply Hshare. exists a. exact Ha.
    + eapply (IH Hin). exists st'. exact Hrun.
Qed.

(** X4. If any proportion of the mapping is NaN or infinite, tree_statistics
    does not return: int(count * proportion) raises in the first loop. *)
Theorem proportions_must_be_finite pow df percentages planting_mix year
    species p :
  In (species, p) percentages ->
  is_finite p = false ->
  ~ returns (tree_statistics pow df percentages planting_mix year).
Proof.
  intros Hin Hp [ts Hrun]. unfold tree_statistics in Hrun.
  destruct (initial_allocation _ _ _ _ _) as [st|] eqn:Hinit;
    simpl in Hrun; [|discriminate].
  eapply (initial_allocation_needs_shares _ _ _ _ _ _ Hin
            (share_not_finite _ p Hp)).
  exists st. exact Hinit.
Qed.

Lemma class_count_zero df planting_mix year cls :
  class_count df planting_mix year cls = 0 ->
  select df planting_mix year cls = [].
Proof.
  unfold class_count. intros H. apply length_zero_iff_nil. lia.
Qed.

(** The means of a result, as the source computes them from the selections. *)
Lemma tree_statistics_means pow df percentages planting_mix year ts :
  tree_statistics pow df percentages planting_mix year = Ok ts ->
  mean_tree_height ts
  = series_mean (map top_height (select df planting_mix year is_tree)) /\
  mean_dbh_trees ts
  = series_mean (map DBH (select df planting_mix year is_tree)) /\
  mean_sapling_height ts
  = series_mean (map top_height (select df planting_mix year is_sapling)) /\
  mean_dbh_saplings ts
  = series_mean (map DBH (select df planting_mix year is_sapling)) /\
  quadratic_mean_dbh ts
  = np_round1
      (PrimFloat.sqrt
         (series_mean
            (map (fun d => (d * d)%float)
               (map DBH (select df planting_mix year is_tree))))) /\
  mean_largetree_height ts
  = (if 0 <? number_of_largetrees ts
     then Some (series_mean
                  (map top_height (select df planting_mix year is_largetree)))
     else None) /\
  mean_dbh_largetrees ts
  = (if 0 <? number_of_largetrees ts
     then Some (series_mean (map DBH (select df planting_mix year is_largetree)))
     else None).
Proof.
  unfold tree_statistics.
  destruct (initial_allocation _ _ _ _ _) as [st|]; simpl; [|discriminate].
  destruct (distribute_remaining incr_trees _ _ _) as [d1|]; simpl; [|discriminate].
  destruct (distribute_remaining incr_saplings _ _ _) as [d2|]; simpl; [|discriminate].
  destruct (distribute_remaining incr_largetrees _ _ _) as [d3|]; simpl; [|discriminate].
  intros [= <-]. simpl. repeat split; reflexivity.
Qed.

(** The means of a class without rows. *)
Lemma means_of_nothing pow df percentages planting_mix year ts :
  tree_statistics pow df percentages planting_mix year = Ok ts ->
  (number_of_trees ts = 0 ->
   mean_tree_height ts = nan /\ mean_dbh_trees ts = nan) /\
  (number_of_saplings ts = 0 -> mean_sapling_height ts = nan).
Proof.
  intros Hrun.
  destruct (tree_statistics_counts _ _ _ _ _ _ Hrun) as (Ht & Hs & _).
  destruct (tree_statistics_means _ _ _ _ _ _ Hrun) as (-> & -> & -> & _).
  split; intros H0.
  - rewrite Ht in H0. rewrite (class_count_zero _ _ _ _ H0). split; reflexivity.
  - rewrite Hs in H0. rewrite (class_count_zero _ _ _ _ H0). reflexivity.
Qed.

(** X5. Whenever tree_statistics returns: with no tree, the mean tree height,
    the mean tree DBH and the quadratic mean DBH are NaN; with no sapling,
    the mean sapling height and DBH are NaN; the two large-tree means are
    None exactly when there is no large tree. *)
Theorem empty_classes_have_no_mean pow df percentages planting_mix year ts :
  tree_statistics pow df percentages planting_mix year = Ok ts ->
  (number_of_trees ts = 0 ->
   mean_tree_height ts = nan /\ mean_dbh_trees ts = nan /\
   quadratic_mean_dbh ts = nan) /\
  (number_of_saplings ts = 0 ->
   mean_sapling_height ts = nan /\ mean_dbh_saplings ts = nan) /\
  (number_of_largetrees ts = 0 <-> mean_largetree_height ts = None) /\
  (number_of_largetrees ts = 0 <-> mean_dbh_largetrees ts = None).
Proof.
  intros Hrun.
  destruct (tree_statistics_counts _ _ _ _ _ _ Hrun) as (Ht & Hs & Hl).
  destruct (tree_statistics_means _ _ _ _ _ _ Hrun)
    as (-> & -> & -> & -> & -> & -> & ->).
  assert (Hpos : 0 <= number_of_largetrees ts)
    by (rewrite Hl; unfold class_count; lia).
  split; [|split; [|split]].
  - intros H0. rewrite Ht in H0. rewrite (class_count_zero _ _ _ _ H0).
    repeat split; reflexivity.
  - intros H0. rewrite Hs in H0. rewrite (class_count_zero _ _ _ _ H0).
    split; reflexivity.
  - destruct (Z.ltb_spec 0 (number_of_largetrees ts)); split;
      try discriminate; try reflexivity; lia.
  - destruct (Z.ltb_spec 0 (number_of_largetrees ts)); split;
      try discriminate; try reflexivity; lia.
Qed.

(** ** Lookups after assignments *)

Section DictLookups.
Context {V : Type}.
Implicit Types (d : dict V) (k : string) (v : V).

Lemma dict_get_set_same d k v : dict_get (dict_set d k v) k = Some v.
Proof.
  induction d as [|[k' v'] d IH]; simpl.
  - rewrite String.eqb_refl. reflexivity.
  - destruct (String.eqb_spec k k') as [->|Hne]; simpl.
    + rewrite String.eqb_refl. reflexivity.
    + destruct (String.eqb_spec k k'); [contradiction|exact IH].
Qed.

Lemma dict_get_set_other d k k' v :
  k' <> k -> dict_get (dict_set d k v) k' = dict_get d k'.
Proof.
  intros Hne. induction d as [|[k0 v0] d IH]; simpl.
  - destruct (String.eqb_spec k' k); [contradiction|reflexivity].
  - destruct (String.eqb_spec k k0) as [->|Hk]; simpl.
    + destruct (String.eqb_spec k' k0); [contradiction|reflexivity].
    + destruct (String.eqb_spec k' k0); [reflexivity|exact IH].
Qed.

Lemma keys_dict_set d k v :
  keys (dict_set d k v) = if existsb (String.eqb k) (keys d) then keys d
                          else keys d ++ [k].
Proof.
  induction d as [|[k' v'] d IH]; simpl; [reflexivity|].
  destruct (String.eqb_spec k k') as [->|Hne]; simpl; [reflexivity|].
  rewrite IH. destruct (existsb (String.eqb k) (keys d)); reflexivity.
Qed.
End DictLookups.

(** ** The round robin of the distribution loops *)

Lemma count_of_dict_set f d k a :
  forall species,
    count_of f (dict_set d k a) species
    = if String.eqb species k then f a else count_of f d species.
Proof.
  intros species. unfold count_of.
  destruct (String.eqb_spec species k) as [->|Hne].
  - rewrite dict_get_set_same. reflexivity.
  - rewrite dict_get_set_other by exact Hne. reflexivity.
Qed.

Lemma NoDup_nth_error_eq (l : list string) i j s :
  NoDup l -> nth_error l i = Some s -> nth_error l j = Some s -> i = j.
Proof.
  intros Hnd Hi Hj.
  apply (proj1 (NoDup_nth_error l) Hnd).
  - apply nth_error_Some. rewrite Hi. discriminate.
  - congruence.
Qed.

(** A distribution loop adds to the count of the species at position [i] the
    number of its rounds that fall on [i], times what one round adds. *)
Lemma distribute_count (f : allocation -> Z) incr delta species_list :
  (forall a, f (incr a) = f a + delta) ->
  NoDup species_list ->
  forall rounds index d d',
    0 <= index ->
    distribute incr species_list rounds index d = Ok d' ->
    forall i species,
      nth_error species_list i = Some species ->
      count_of f d' species
      = count_of f d species
        + delta * hits (Z.of_nat (List.length species_list)) (Z.of_nat i) index rounds.
Proof.
  intros Hincr Hnd. induction rounds as [|rounds IH]; intros index d d' Hidx.
  - simpl. intros [= <-] i species _. lia.
  - cbn [distribute hits]. unfold py_mod.
    destruct (Z.eqb_spec (Z.of_nat (List.length species_list)) 0) as [|Hm];
      simpl; [discriminate|].
    unfold list_item.
    destruct (nth_error species_list _) as [hit|] eqn:Hhit; simpl; [|discriminate].
    unfold dict_item. destruct (dict_get d hit) as [a|] eqn:Ha; simpl; [|discriminate].
    intros Hrun i species Hi.
    assert (Hidx' : 0 <= index + 1) by lia.
    rewrite (IH (index + 1) _ _ Hidx' Hrun i species Hi).
    rewrite count_of_dict_set.
    assert (Hb : 0 <= index mod Z.of_nat (List.length species_list)
                 < Z.of_nat (List.length species_list))
      by (apply Z.mod_pos_bound; lia).
    destruct (String.eqb_spec species hit) as [->|Hne].
    + assert (Z.to_nat (index mod Z.of_nat (List.length species_list)) = i)
        by (eapply NoDup_nth_error_eq; eauto).
      destruct (Z.eqb_spec (index mod Z.of_nat (List.length species_list))
                  (Z.of_nat i)); [|lia].
      rewrite Hincr. unfold count_of. rewrite Ha. lia.
    + destruct (Z.eqb_spec (index mod Z.of_nat (List.length species_list))
                  (Z.of_nat i)) as [He|]; [|lia].
      exfalso. apply Hne. rewrite He, Nat2Z.id in Hhit. congruence.
Qed.

Lemma hits_snoc m i index rounds :
  hits m i index (S rounds)
  = hits m i index rounds
    + (if (index + Z.of_nat rounds) mod m =? i then 1 else 0).
Proof.
  revert index. induction rounds as [|rounds IH]; intros index.
  - cbn [hits]. replace (index + Z.of_nat 0) with index by lia.
    destruct (index mod m =? i); lia.
  - change (hits m i index (S (S rounds)))
      with ((if index mod m =? i then 1 else 0) + hits m i (index + 1) (S rounds)).
    rewrite IH. cbn [hits].
    replace (index + 1 + Z.of_nat rounds) with (index + Z.of_nat (S rounds)) by lia.
    destruct (index mod m =? i), ((index + Z.of_nat (S rounds)) mod m =? i); lia.
Qed.

(** From round 0 on, the species at position [i] is hit once per full turn,
    and once more when the last, partial turn reaches it. *)
Lemma hits_from_zero m i rounds :
  0 <= i < m ->
  hits m i 0 rounds = extra_units (Z.of_nat rounds) m i.
Proof.
  intros Hi. unfold extra_units. induction rounds as [|rounds IH].
  - cbn [hits]. change (Z.of_nat 0) with 0. rewrite Zdiv_0_l, Zmod_0_l.
    destruct (Z.ltb_spec i 0); lia.
  - rewrite hits_snoc, IH. rewrite Z.add_0_l.
    set (r := Z.of_nat rounds). assert (Hr : 0 <= r) by (unfold r; lia).
    replace (Z.of_nat (S rounds)) with (r + 1) by (unfold r; lia).
    pose proof (Z.div_mod r m ltac:(lia)) as Hdm.
    pose proof (Z.mod_pos_bound r m ltac:(lia)) as Hb.
    set (q := r / m) in *. set (k := r mod m) in *.
    destruct (Z.eq_dec k (m - 1)) as [Hlast|Hmid].
    + assert (Hq : (r + 1) / m = q + 1)
        by (symmetry; apply (Z.div_unique (r + 1) m (q + 1) 0); lia).
      assert (Hk : (r + 1) mod m = 0)
        by (symmetry; apply (Z.mod_unique (r + 1) m (q + 1) 0); lia).
      rewrite Hq, Hk.
      destruct (Z.ltb_spec i k), (Z.eqb_spec k i), (Z.ltb_spec i 0); lia.
    + assert (Hq : (r + 1) / m = q)
        by (symmetry; apply (Z.div_unique (r + 1) m q (k + 1)); lia).
      assert (Hk : (r + 1) mod m = k + 1)
        by (symmetry; apply (Z.mod_unique (r + 1) m q (k + 1)); lia).
      rewrite Hq, Hk.
      destruct (Z.ltb_spec i k), (Z.eqb_spec k i), (Z.ltb_spec i (k + 1)); lia.
Qed.

(** The first loop leaves alone the species it does not come across. *)
Lemma initial_allocation_keeps items nt ns nl :
  forall st st',
    initial_allocation items nt ns nl st = Ok st' ->
    forall k, ~ In k (keys items) ->
              dict_get (distribution st') k = dict_get (distribution st) k.
Proof.
  induction items as [|[species percentage] rest IH]; intros st st'.
  - simpl. intros [= <-] k _. reflexivity.
  - simpl.
    destruct (share nt percentage) as [a|]; simpl; [|discriminate].
    destruct (share ns percentage) as [b|]; simpl; [|discriminate].
    destruct (share nl percentage) as [c|]; simpl; [|discriminate].
    intros Hrun k Hk. rewrite (IH _ _ Hrun k) by tauto. simpl.
    apply dict_get_set_other. intros ->. tauto.
Qed.

(** After the first loop every species of the mapping holds its three
    truncated shares. *)
Lemma initial_allocation_lookup items nt ns nl :
  forall st st',
    NoDup (keys items) ->
    initial_allocation items nt ns nl st = Ok st' ->
    forall species p,
      In (species, p) items ->
      exists a b c,
        share nt p = Ok a /\ share ns p = Ok b /\ share nl p = Ok c /\
        dict_get (distribution st') species
        = Some {| trees := a; saplings := b; largetrees := c |}.
Proof.
  induction items as [|[s0 p0] rest IH]; intros st st' Hnd.
  - intros _ species p [].
  - simpl. inversion Hnd as [|? ? Hfresh Hrest]; subst.
    destruct (share nt p0) as [a|] eqn:Ha; simpl; [|discriminate].
    destruct (share ns p0) as [b|] eqn:Hb; simpl; [|discriminate].
    destruct (share nl p0) as [c|] eqn:Hc; simpl; [|discriminate].
    intros Hrun species p [[= <- <-]|Hin].
    + exists a, b, c. repeat split; try assumption.
      rewrite (initial_allocation_keeps _ _ _ _ _ _ Hrun s0 Hfresh). simpl.
      apply dict_get_set_same.
    + exact (IH _ _ Hrest Hrun species p Hin).
Qed.

Lemma of_nat_to_nat_max (z : Z) : Z.of_nat (Z.to_nat z) = Z.max 0 z.
Proof. lia. Qed.

Lemma allocation_eta (a : allocation) :
  a = {| trees := trees a; saplings := saplings a; largetrees := largetrees a |}.
Proof. destruct a; reflexivity. Qed.

(** The entry of a species in the returned distribution. *)
Lemma tree_statistics_lookup pow df percentages planting_mix year ts
    i species p :
  well_formed percentages ->
  tree_statistics pow df percentages planting_mix year = Ok ts ->
  nth_error percentages i = Some (species, p) ->
  exists a b c,
    share (number_of_trees ts) p = Ok a /\
    share (number_of_saplings ts) p = Ok b /\
    share (number_of_largetrees ts) p = Ok c /\
    dict_get (species_distribution ts) species
    = Some {| trees :=
                a + extra_units (remainder_of (number_of_trees ts) percentages)
                      (Z.of_nat (List.length percentages)) (Z.of_nat i);
              saplings :=
                b + extra_units (remainder_of (number_of_saplings ts) percentages)
                      (Z.of_nat (List.length percentages)) (Z.of_nat i);
              largetrees :=
                c + extra_units (remainder_of (number_of_largetrees ts) percentages)
                      (Z.of_nat (List.length percentages)) (Z.of_nat i) |}.
Proof.
  intros Hwf Hrun Hnth. revert Hrun. unfold tree_statistics.
  set (nt := Z.of_nat (List.length (select df planting_mix year is_tree))).
  set (ns := Z.of_nat (List.length (select df planting_mix year is_sapling))).
  set (nl := Z.of_nat (List.length (select df planting_mix year is_largetree))).
  destruct (initial_allocation percentages nt ns nl empty_allocated)
    as [st|] eqn:Hinit; simpl; [|discriminate].
  unfold distribute_remaining.
  destruct (distribute incr_trees _ _ 0 (distribution st)) as [d1|] eqn:H1;
    simpl; [|discriminate].
  destruct (distribute incr_saplings _ _ 0 d1) as [d2|] eqn:H2;
    simpl; [|discriminate].
  destruct (distribute incr_largetrees _ _ 0 d2) as [d3|] eqn:H3;
    simpl; [|discriminate].
  intros [= <-]. simpl.
  destruct (initial_allocation_lookup _ _ _ _ _ _ Hwf Hinit species p
              (nth_error_In _ _ Hnth)) as (a & b & c & Ha & Hb & Hc & Hget).
  exists a, b, c. repeat split; try assumption.
  destruct (initial_allocation_spec _ _ _ _ _ _ Hwf (empty_allocated_fresh _) Hinit)
    as (Hk0 & _). simpl in Hk0.
  destruct (initial_allocation_totals _ _ _ _ _ _ Hinit) as (Tt & Ts & Tl).
  simpl in Tt, Ts, Tl.
  assert (Tt' : total_trees_allocated st = shares_total nt percentages) by lia.
  assert (Ts' : total_saplings_allocated st = shares_total ns percentages) by lia.
  assert (Tl' : total_large_trees_allocated st = shares_total nl percentages)
    by lia.
  clear Tt Ts Tl. rewrite Tt' in H1. rewrite Ts' in H2. rewrite Tl' in H3.
  assert (Hkey : nth_error (keys percentages) i = Some species).
  { unfold keys. rewrite nth_error_map, Hnth. reflexivity. }
  assert (Hlen : List.length (keys percentages) = List.length percentages)
    by (unfold keys; apply length_map).
  assert (Hi : 0 <= Z.of_nat i < Z.of_nat (List.length percentages)).
  { assert (i < List.length percentages)%nat
      by (apply nth_error_Some; rewrite Hnth; discriminate). lia. }
  pose proof (fun f delta Hf =>
                distribute_count f incr_trees delta _ Hf Hwf _ _ _ _
                  (Z.le_refl 0) H1 i species Hkey) as C1.
  pose proof (fun f delta Hf =>
                distribute_count f incr_saplings delta _ Hf Hwf _ _ _ _
                  (Z.le_refl 0) H2 i species Hkey) as C2.
  pose proof (fun f delta Hf =>
                distribute_count f incr_largetrees delta _ Hf Hwf _ _ _ _
                  (Z.le_refl 0) H3 i species Hkey) as C3.
  rewrite Hlen in C1, C2, C3.
  pose proof (C1 trees 1 (fun a => proj1 (incr_trees_counts a))) as A1.
  pose proof (C1 saplings 0 (fun a => proj1 (proj2 (incr_trees_counts a)))) as B1.
  pose proof (C1 largetrees 0 (fun a => proj2 (proj2 (incr_trees_counts a)))) as L1.
  pose proof (C2 trees 0 (fun a => proj1 (incr_saplings_counts a))) as A2.
  pose proof (C2 saplings 1 (fun a => proj1 (proj2 (incr_saplings_counts a)))) as B2.
  pose proof (C2 largetrees 0 (fun a => proj2 (proj2 (incr_saplings_counts a)))) as L2.
  pose proof (C3 trees 0 (fun a => proj1 (incr_largetrees_counts a))) as A3.
  pose proof (C3 saplings 0 (fun a => proj1 (proj2 (incr_largetrees_counts a)))) as B3.
  pose proof (C3 largetrees 1 (fun a => proj2 (proj2 (incr_largetrees_counts a)))) as L3.
  rewrite !hits_from_zero in * by exact Hi.
  rewrite !of_nat_to_nat_max in *.
  pose proof (distribute_spec trees _ 1 _
                (fun a => proj1 (incr_trees_counts a)) _ _ _ _ H1) as [K1 _].
  pose proof (distribute_spec trees _ 0 _
                (fun a => proj1 (incr_saplings_counts a)) _ _ _ _ H2) as [K2 _].
  pose proof (distribute_spec trees _ 0 _
                (fun a => proj1 (incr_largetrees_counts a)) _ _ _ _ H3) as [K3 _].
  assert (Hin3 : In species (keys d3)).
  { rewrite K3, K2, K1, Hk0. exact (nth_error_In _ _ Hkey). }
  destruct (dict_get_of_key _ _ Hin3) as [a3 Hget3].
  rewrite Hget3, (allocation_eta a3). unfold count_of in *.
  rewrite Hget in A1, B1, L1. rewrite Hget3 in A3, B3, L3.
  cbn [trees saplings largetrees] in A1, B1, L1.
  unfold remainder_of.
  f_equal. f_equal; lia.
Qed.

(** X6. Whenever tree_statistics returns on a mapping with distinct keys, the
    species at position i of the mapping has, in each class, its truncated
    share int(count * proportion) plus remaining // m units, plus one more
    when i < remaining % m, where m is the number of species and remaining
    the positive part of the class count less the sum of the truncated
    shares. *)
Theorem remainder_goes_round_robin pow df percentages planting_mix year ts
    i species p :
  well_formed percentages ->
  tree_statistics pow df percentages planting_mix year = Ok ts ->
  nth_error percentages i = Some (species, p) ->
  exists a b c,
    share (number_of_trees ts) p = Ok a /\
    share (number_of_saplings ts) p = Ok b /\
    share (number_of_largetrees ts) p = Ok c /\
    dict_get (species_distribution ts) species
    = Some {| trees :=
                a + extra_units (remainder_of (number_of_trees ts) percentages)
                      (Z.of_nat (List.length percentages)) (Z.of_nat i);
              saplings :=
                b + extra_units (remainder_of (number_of_saplings ts) percentages)
                      (Z.of_nat (List.length percentages)) (Z.of_nat i);
              largetrees :=
                c + extra_units (remainder_of (number_of_largetrees ts) percentages)
                      (Z.of_nat (List.length percentages)) (Z.of_nat i) |}.
Proof. apply tree_statistics_lookup. Qed.

(** The extra units of two positions [i <= j]: none negative, the earlier
    position at least the later one, and at most one more. *)
Lemma extra_units_fair (remaining m i j : Z) :
  0 <= remaining -> 0 <= i <= j -> j < m ->
  0 <= extra_units remaining m j <= extra_units remaining m i /\
  extra_units remaining m i <= extra_units remaining m j + 1.
Proof.
  intros Hr Hij Hm. unfold extra_units.
  assert (0 <= remaining / m) by (apply Z.div_pos; lia).
  pose proof (Z.mod_pos_bound remaining m ltac:(lia)).
  destruct (Z.ltb_spec i (remaining mod m)), (Z.ltb_spec j (remaining mod m)); lia.
Qed.

Lemma remainder_of_nonneg count percentages : 0 <= remainder_of count percentages.
Proof. unfold remainder_of. lia. Qed.

(** X7. Of two species of the mapping, the earlier one receives from the
    remainder of each class at least as many units as the later one and at
    most one more, and no species receives a negative number of units. *)
Theorem remainder_is_spread_evenly pow df percentages planting_mix year ts
    i j species1 p1 species2 p2 a1 a2 :
  well_formed percentages ->
  tree_statistics pow df percentages planting_mix year = Ok ts ->
  nth_error percentages i = Some (species1, p1) ->
  nth_error percentages j = Some (species2, p2) ->
  (i <= j)%nat ->
  dict_get (species_distribution ts) species1 = Some a1 ->
  dict_get (species_distribution ts) species2 = Some a2 ->
  exists t1 t2 s1 s2 l1 l2,
    share (number_of_trees ts) p1 = Ok t1 /\
    share (number_of_trees ts) p2 = Ok t2 /\
    share (number_of_saplings ts) p1 = Ok s1 /\
    share (number_of_saplings ts) p2 = Ok s2 /\
    share (number_of_largetrees ts) p1 = Ok l1 /\
    share (number_of_largetrees ts) p2 = Ok l2 /\
    (0 <= trees a2 - t2 <= trees a1 - t1 /\ trees a1 - t1 <= trees a2 - t2 + 1) /\
    (0 <= saplings a2 - s2 <= saplings a1 - s1 /\
     saplings a1 - s1 <= saplings a2 - s2 + 1) /\
    (0 <= largetrees a2 - l2 <= largetrees a1 - l1 /\
     largetrees a1 - l1 <= largetrees a2 - l2 + 1).
Proof.
  intros Hwf Hrun Hi Hj Hij Hget1 Hget2.
  destruct (tree_statistics_lookup _ _ _ _ _ _ _ _ _ Hwf Hrun Hi)
    as (t1 & s1 & l1 & Ht1 & Hs1 & Hl1 & Hlook1).
  destruct (tree_statistics_lookup _ _ _ _ _ _ _ _ _ Hwf Hrun Hj)
    as (t2 & s2 & l2 & Ht2 & Hs2 & Hl2 & Hlook2).
  rewrite Hget1 in Hlook1. rewrite Hget2 in Hlook2.
  injection Hlook1 as ->. injection Hlook2 as ->.
  exists t1, t2, s1, s2, l1, l2. cbn [trees saplings largetrees].
  assert (Hjm : (j < List.length percentages)%nat)
    by (apply nth_error_Some; rewrite Hj; discriminate).
  pose proof (fun count =>
                extra_units_fair (remainder_of count percentages)
                  (Z.of_nat (List.length percentages)) (Z.of_nat i) (Z.of_nat j)
                  (remainder_of_nonneg count percentages)
                  ltac:(lia) ltac:(lia)) as Hfair.
  pose proof (Hfair (number_of_trees ts)) as Ft.
  pose proof (Hfair (number_of_saplings ts)) as Fs.
  pose proof (Hfair (number_of_largetrees ts)) as Fl.
  repeat split; try assumption; lia.
Qed.

(** ** The sign of a share *)

(** Rounding keeps the sign. *)
Lemma binary_round_aux_sign (s : bool) (m e : Z) (l : location) :
  match binary_round_aux prec emax s m e l with
  | S754_zero s' | S754_infinity s' | S754_finite s' _ _ => s' = s
  | S754_nan => True
  end.
Proof.
  unfold binary_round_aux.
  destruct (shr_fexp prec emax m e l) as [mrs' e'].
  destruct (shr_fexp prec emax _ e' loc_Exact) as [mrs'' e''].
  destruct (shr_m mrs''); try exact I; try reflexivity.
  destruct (_ <=? _)%Z; reflexivity.
Qed.

(** The float of a count: a positive zero or a positive number. *)
Lemma Z2F_count (n : Z) :
  0 <= n < 2 ^ 53 ->
  Prim2SF (Z2F n) = S754_zero false \/
  exists m e, Prim2SF (Z2F n) = S754_finite false m e.
Proof.
  intros Hn. unfold Z2F, binary_normalize. destruct n as [|p|p]; [left; reflexivity| |lia].
  right. destruct (binary_round_small false p) as (m & e & Hr & Hv); [lia|].
  rewrite Hr, (Prim2SF_SF2Prim _ Hv). eauto.
Qed.

(** A float that is at least zero: a zero, a positive number or the positive
    infinity. *)
Lemma leb_zero_sign (p : float) :
  (0 <=? p)%float = true ->
  match Prim2SF p with
  | S754_zero _ => True
  | S754_finite s _ _ | S754_infinity s => s = false
  | S754_nan => False
  end.
Proof.
  rewrite FloatAxioms.leb_spec. change (Prim2SF 0) with (S754_zero false).
  unfold SFleb. destruct (Prim2SF p) as [[]|[]| |[] m e]; simpl; intros H;
    try exact I; try reflexivity; discriminate.
Qed.

Lemma exact_trunc_nonneg (M e : Z) : 0 <= M -> 0 <= exact_trunc M e.
Proof.
  intros HM. unfold exact_trunc. destruct (0 <=? e) eqn:He.
  - apply Z.mul_nonneg_nonneg; [exact HM|]. apply Z.pow_nonneg. lia.
  - apply Z.quot_pos; [exact HM|]. apply Z.pow_pos_nonneg; lia.
Qed.

(** The share of a count at a proportion that is not negative. *)
Lemma share_nonneg (count : Z) (p : float) (z : Z) :
  0 <= count < 2 ^ 53 -> (0 <=? p)%float = true ->
  share count p = Ok z -> 0 <= z.
Proof.
  intros Hn Hp. unfold share, int_mul_float.
  rewrite int_to_float_small by lia. cbn [bind].
  unfold py_int, float_to_int.
  destruct (float_exact (Z2F count * p)) as [[M e]|] eqn:Hex;
    [|destruct (is_nan _); discriminate].
  intros [= <-]. apply exact_trunc_nonneg.
  unfold float_exact in Hex. rewrite FloatAxioms.mul_spec in Hex.
  apply leb_zero_sign in Hp.
  destruct (Z2F_count count Hn) as [Hz|(m & e0 & Hf)].
  - rewrite Hz in Hex. destruct (Prim2SF p) as [s|s| |s m' e']; simpl in Hex;
      try discriminate; injection Hex as <- _; lia.
  - rewrite Hf in Hex. destruct (Prim2SF p) as [s|s| |s m' e']; simpl in Hex;
      try discriminate; try (injection Hex as <- _; lia).
    subst s. unfold SF64mul, SFmul in Hex. simpl xorb in Hex.
    pose proof (binary_round_aux_sign false (Zpos (m * m')) (e0 + e') loc_Exact) as Hs.
    change (IntDef.Z.add e0 e') with (e0 + e') in Hex.
    destruct (binary_round_aux prec emax false (Zpos (m * m')) (e0 + e') loc_Exact)
      as [s|s| |s m2 e2]; try discriminate.
    + injection Hex as <- _. lia.
    + subst s. injection Hex as <- _. simpl. lia.
Qed.

(** X8. When no proportion of the mapping is negative (or NaN) and the tree and
    sapling counts are below 2^53, every per-species count of trees,
    saplings and large trees returned by tree_statistics is at least 0. *)
Theorem counts_are_not_negative pow df percentages planting_mix year ts :
  well_formed percentages ->
  (forall species p, In (species, p) percentages -> (0 <=? p)%float = true) ->
  tree_statistics pow df percentages planting_mix year = Ok ts ->
  number_of_trees ts < 2 ^ 53 -> number_of_saplings ts < 2 ^ 53 ->
  forall species a,
    dict_get (species_distribution ts) species = Some a ->
    0 <= trees a /\ 0 <= saplings a /\ 0 <= largetrees a.
Proof.
  intros Hwf Hpos Hrun Ht Hs species a Hget.
  destruct (tree_statistics_counts _ _ _ _ _ _ Hrun) as (Ct & Cs & Cl).
  assert (Hlt : number_of_largetrees ts <= number_of_trees ts).
  { rewrite Ct, Cl. apply select_length_le. exact largetree_is_tree. }
  assert (H0 : 0 <= number_of_trees ts /\ 0 <= number_of_saplings ts /\
               0 <= number_of_largetrees ts)
    by (rewrite Ct, Cs, Cl; unfold class_count; lia).
  destruct (tree_statistics_allocation _ _ _ _ _ _ Hwf Hrun) as (Hkeys & _).
  pose proof (dict_get_in_keys _ _ _ Hget) as Hin. rewrite Hkeys in Hin.
  unfold keys in Hin. apply in_map_iff in Hin.
  destruct Hin as ([species' p] & Heq & Hin). simpl in Heq. subst species'.
  destruct (In_nth_error _ _ Hin) as [i Hi].
  destruct (tree_statistics_lookup _ _ _ _ _ _ _ _ _ Hwf Hrun Hi)
    as (x & y & z & Hx & Hy & Hz & Hlook).
  rewrite Hget in Hlook. injection Hlook as ->. cbn [trees saplings largetrees].
  pose proof (Hpos _ _ Hin) as Hp.
  assert (0 <= x) by (apply (share_nonneg _ _ _) with (3 := Hx); [lia|exact Hp]).
  assert (0 <= y) by (apply (share_nonneg _ _ _) with (3 := Hy); [lia|exact Hp]).
  assert (0 <= z) by (apply (share_nonneg _ _ _) with (3 := Hz); [lia|exact Hp]).
  assert (Hi' : (i < List.length percentages)%nat)
    by (apply nth_error_Some; rewrite Hi; discriminate).
  pose proof (fun count =>
                extra_units_fair (remainder_of count percentages)
                  (Z.of_nat (List.length percentages)) (Z.of_nat i) (Z.of_nat i)
                  (remainder_of_nonneg count percentages)
                  ltac:(lia) ltac:(lia)) as Hfair.
  pose proof (Hfair (number_of_trees ts)).
  pose proof (Hfair (number_of_saplings ts)).
  pose proof (Hfair (number_of_largetrees ts)).
  lia.
Qed.

Local Transparent Z.of_nat.

(** ** More on [calculate_tariff_numbers_and_volume] *)

(** With a NaN mean height or mean DBH, the regression value of a species
    with a tariff is NaN. *)
Lemma single_tree_tariff_nan species (h d : float) :
  has_tariff species -> h = nan \/ d = nan ->
  single_tree_tariff species h d = Ok nan.
Proof.
  intros Htab Hnan. unfold single_tree_tariff, has_tariff in *.
  destruct (dict_get conifer_constants species) as [[[a1 a2] a3]|].
  - destruct Hnan as [-> | ->];
      rewrite ?mul_nan_r, ?add_nan_r, ?add_nan_l; reflexivity.
  - destruct (dict_get broadleaf_constants species) as [[[[a1 a2] a3] a4]|].
    + destruct Hnan as [-> | ->];
        rewrite ?mul_nan_r, ?mul_nan_l, ?add_nan_r, ?add_nan_l; reflexivity.
    + destruct Htab as [H|H]; exfalso; apply H; reflexivity.
Qed.

Lemma calculate_tariff_nan ts species :
  has_tariff species ->
  mean_tree_height ts = nan \/ mean_dbh_trees ts = nan ->
  calculate_tariff_numbers_and_volume ts species = Raise (ValueError msg_nan).
Proof.
  intros Htab Hnan. unfold calculate_tariff_numbers_and_volume.
  rewrite (single_tree_tariff_nan _ _ _ Htab Hnan). reflexivity.
Qed.

Lemma has_tariff_dec species : has_tariff species \/
  (dict_get conifer_constants species = None /\
   dict_get broadleaf_constants species = None).
Proof.
  unfold has_tariff.
  destruct (dict_get conifer_constants species); [left; left; discriminate|].
  destruct (dict_get broadleaf_constants species); [left; right; discriminate|].
  right. split; reflexivity.
Qed.

(** X9. On the statistics of a stratum without trees,
    calculate_tariff_numbers_and_volume never returns: for a species with a
    tariff, math.floor raises ValueError on the NaN tariff number. *)
Theorem no_volume_without_trees pow df percentages planting_mix year ts species :
  tree_statistics pow df percentages planting_mix year = Ok ts ->
  number_of_trees ts = 0 ->
  (has_tariff species ->
   calculate_tariff_numbers_and_volume ts species = Raise (ValueError msg_nan)) /\
  ~ returns (calculate_tariff_numbers_and_volume ts species).
Proof.
  intros Hrun H0.
  destruct (proj1 (means_of_nothing _ _ _ _ _ _ Hrun) H0) as (Hh & _).
  assert (Hnan : has_tariff species ->
            calculate_tariff_numbers_and_volume ts species
            = Raise (ValueError msg_nan))
    by (intros Htab; apply calculate_tariff_nan; auto).
  split; [exact Hnan|].
  intros [r Hr]. destruct (has_tariff_dec species) as [Htab|[Hc Hb]].
  - rewrite (Hnan Htab) in Hr. discriminate.
  - rewrite (calculate_tariff_unknown_species _ _ Hc Hb) in Hr. discriminate.
Qed.

(** X10. For a species with a tariff, calculate_tariff_numbers_and_volume raises
    ValueError when the regression value is NaN, OverflowError when it is
    infinite, and KeyError when the value is finite (floor below 2^53) but
    the species has no entry in species_distribution. *)
Theorem volume_errors_in_order ts species t :
  single_tree_tariff species (mean_tree_height ts) (mean_dbh_trees ts) = Ok t ->
  (is_nan t = true ->
   calculate_tariff_numbers_and_volume ts species = Raise (ValueError msg_nan)) /\
  (is_nan t = false -> is_finite t = false ->
   calculate_tariff_numbers_and_volume ts species = Raise (OverflowError msg_inf)) /\
  (forall z,
     math_floor t = Ok z -> Z.abs z < 2 ^ 53 ->
     dict_get (species_distribution ts) species = None ->
     calculate_tariff_numbers_and_volume ts species = Raise (KeyError species)).
Proof.
  intros Hreg. unfold calculate_tariff_numbers_and_volume. rewrite Hreg. simpl.
  split; [|split].
  - intros Hn. rewrite (is_nan_eq t Hn). reflexivity.
  - intros Hn Hf. unfold math_floor, float_to_int.
    destruct (float_exact t) as [[M e]|] eqn:He.
    + rewrite (float_exact_is_finite _ _ _ He) in Hf. discriminate.
    + rewrite Hn. reflexivity.
  - intros z Hz Hsmall Hget. rewrite Hz. simpl.
    rewrite (int_to_float_small z Hsmall). simpl.
    unfold dict_item. rewrite Hget. reflexivity.
Qed.

Lemma step_chain_all P bands default d :
  chain_all P bands default = true -> P (step_chain bands default d) = true.
Proof.
  unfold chain_all. intros H. apply andb_prop in H. destruct H as [Hb Hd].
  induction bands as [|[bound factor] rest IH]; simpl in *; [exact Hd|].
  apply andb_prop in Hb. destruct Hb as [Hf Hrest].
  destruct (bound <=? d)%float; auto.
Qed.

Lemma multiplication_factor_finite (d : float) :
  is_finite (multiplication_factor d) = true.
Proof.
  rewrite multiplication_factor_as_chain.
  exact (step_chain_all is_finite dbh_bands 1.30%float d eq_refl).
Qed.

(** X11. The correction factor chosen from the mean DBH is always a finite
    number between 1.00 and 1.30, and it is 1.30 when the mean DBH is NaN. *)
Theorem multiplication_factor_range (d : float) :
  (1.00 <=? multiplication_factor d)%float = true /\
  (multiplication_factor d <=? 1.30)%float = true /\
  is_finite (multiplication_factor d) = true /\
  (is_nan d = true -> multiplication_factor d = 1.30%float).
Proof.
  rewrite multiplication_factor_as_chain.
  pose proof (step_chain_all between_1_and_1_30 dbh_bands 1.30%float d eq_refl) as H.
  unfold between_1_and_1_30 in H. apply andb_prop in H. destruct H as [H1 H2].
  repeat split; try assumption.
  - exact (step_chain_all is_finite dbh_bands 1.30%float d eq_refl).
  - intros Hn. rewrite (is_nan_eq d Hn). reflexivity.
Qed.

(** A finite float times zero is a zero. *)
Lemma finite_mul_zero (x z : float) :
  is_finite x = true -> (z =? 0)%float = true -> (x * z =? 0)%float = true.
Proof.
  intros Hx Hz. apply eqb_zero_exact in Hz. destruct Hz as [sz Hz].
  apply eqb_zero_exact. rewrite FloatAxioms.mul_spec, Hz. unfold SF64mul.
  apply is_finite_exact in Hx. destruct Hx as (M & e & Hx).
  unfold float_exact in Hx.
  destruct (Prim2SF x); simpl; try discriminate; eauto.
Qed.

(** X12. When calculate_tariff_numbers_and_volume returns for a species whose
    allocated tree count is 0 and the mean tree volume is finite, the total
    stem volume is zero. *)
Theorem no_trees_no_volume ts species r a :
  calculate_tariff_numbers_and_volume ts species = Ok r ->
  dict_get (species_distribution ts) species = Some a ->
  trees a = 0 ->
  is_finite (mean_tree_volume r) = true ->
  (total_stem_volume r =? 0)%float = true.
Proof.
  intros Hrun Ha H0 Hfin.
  destruct (calculate_tariff_inversion _ _ _ Hrun)
    as (t & tf & a' & nt & _ & _ & _ & Ha' & Hnt & _ & ->).
  rewrite Ha in Ha'. injection Ha' as <-. rewrite H0 in Hnt.
  vm_compute in Hnt. injection Hnt as <-.
  apply zero_mul_finite.
  - apply finite_mul_zero; [exact Hfin|reflexivity].
  - apply multiplication_factor_finite.
Qed.

(** ** More on [calculate_biomass] *)

(** The species with a tariff, one by one. *)
Lemma has_tariff_cases species :
  has_tariff species ->
  In species
    (keys conifer_constants ++ keys broadleaf_constants).
Proof.
  unfold has_tariff. intros [H|H].
  - apply in_or_app. left.
    destruct (dict_get conifer_constants species) as [c|] eqn:Hc; [|congruence].
    exact (dict_get_in_keys _ _ _ Hc).
  - apply in_or_app. right.
    destruct (dict_get broadleaf_constants species) as [c|] eqn:Hc; [|congruence].
    exact (dict_get_in_keys _ _ _ Hc).
Qed.

(** What a returned [biomass_stats] was made of. *)
Lemma calculate_biomass_parts pow ts species vs r :
  calculate_biomass pow ts species vs = Ok r ->
  exists a count,
    dict_get (species_distribution ts) species = Some a /\
    int_to_float (trees a) = Ok count /\
    total_stem_biomass r
    = (total_stem_volume vs
       * dict_get_default nominal_specific_gravity species 0)%float /\
    total_crown_biomass r
    = match crown_biomass pow species (mean_dbh_trees ts) with
      | Some c => (c * count)%float
      | None => 0%float
      end /\
    total_root_biomass r
    = (root_biomass pow species (mean_dbh_trees ts) * count)%float /\
    total_AGB r = (total_stem_biomass r + total_crown_biomass r)%float /\
    total_biomass r = (total_AGB r + total_root_biomass r)%float.
Proof.
  unfold calculate_biomass, dict_item, float_mul_int.
  destruct (dict_get _ species) as [a|] eqn:Ha; simpl; [|discriminate].
  destruct (int_to_float (trees a)) as [count|] eqn:Hc; simpl.
  - destruct (crown_biomass pow species (mean_dbh_trees ts)) as [c|]; simpl;
      intros [= <-]; simpl; exists a, count; repeat split; try reflexivity; exact Hc.
  - destruct (crown_biomass pow species (mean_dbh_trees ts)) as [c|]; simpl;
      discriminate.
Qed.

(** X13. Among the species of the two tariff tables, exactly Sitka spruce,
    Norway spruce, Japanese larch, western hemlock, western red cedar, grand
    fir, noble fir, beech, sycamore, ash, birch, elm and poplar are missing
    from both crown tables; for each of them calculate_biomass returns a
    total crown biomass of zero at every finite mean DBH of 7 cm or more. *)
Theorem species_without_crown_biomass species :
  has_tariff species ->
  (In species species_without_crown <->
   dict_get crown_biomass_coefficients_7_to_50 species = None) /\
  (In species species_without_crown <->
   dict_get crown_biomass_coefficients_above_50 species = None) /\
  (In species species_without_crown ->
   forall pow ts vs r,
     is_finite (mean_dbh_trees ts) = true ->
     (7 <=? mean_dbh_trees ts)%float = true ->
     calculate_biomass pow ts species vs = Ok r ->
     (total_crown_biomass r =? 0)%float = true).
Proof.
  intros Htab.
  assert (Hlist : (In species species_without_crown <->
                   dict_get crown_biomass_coefficients_7_to_50 species = None) /\
                  (In species species_without_crown <->
                   dict_get crown_biomass_coefficients_above_50 species = None)).
  { apply has_tariff_cases in Htab. simpl in Htab.
    repeat (destruct Htab as [<-|Htab];
            [split; split; intros H; try reflexivity; try discriminate;
             simpl; try tauto;
             simpl in H; repeat (destruct H as [H|H]; try discriminate H);
             try contradiction|]).
    destruct Htab. }
  destruct Hlist as [H1 H2]. split; [exact H1|]. split; [exact H2|].
  intros Hin pow ts vs r Hfin H7 Hrun.
  destruct (calculate_biomass_parts _ _ _ _ _ Hrun)
    as (a & count & _ & Hcount & _ & Hcrown & _).
  destruct (crown_biomass_default pow species _ (proj1 H1 Hin) (proj1 H2 Hin)
              Hfin H7) as (c & Hc & Hzero).
  rewrite Hc in Hcrown. rewrite Hcrown.
  apply zero_mul_finite; [exact Hzero|].
  exact (int_to_float_finite _ _ Hcount).
Qed.

Lemma ltb_leb (x y : float) : (x <? y)%float = true -> (x <=? y)%float = true.
Proof.
  rewrite FloatAxioms.ltb_spec, FloatAxioms.leb_spec. unfold SFltb, SFleb.
  destruct (SFcompare (Prim2SF x) (Prim2SF y)) as [[]|]; congruence.
Qed.

(** X14. When the mean DBH is below 7 cm or NaN, calculate_biomass returns a
    total crown biomass of exactly 0 for every species, and the above-ground
    biomass is the stem biomass plus 0. *)
Theorem no_crown_below_7 pow ts species vs r :
  (7 <=? mean_dbh_trees ts)%float = false ->
  calculate_biomass pow ts species vs = Ok r ->
  total_crown_biomass r = 0%float /\
  total_AGB r = (total_stem_biomass r + 0)%float.
Proof.
  intros H7 Hrun.
  destruct (calculate_biomass_parts _ _ _ _ _ Hrun)
    as (a & count & _ & _ & _ & Hcrown & _ & Hagb & _).
  assert (Hnone : crown_biomass pow species (mean_dbh_trees ts) = None).
  { unfold crown_biomass. rewrite H7. simpl.
    destruct (50 <? mean_dbh_trees ts)%float eqn:H50; [|reflexivity].
    rewrite (ltb_leb _ _ (leb_ltb_trans 7 50 _ eq_refl H50)) in H7.
    discriminate. }
  rewrite Hnone in Hcrown. rewrite Hagb, Hcrown. split; reflexivity.
Qed.

(** With the default coefficients, the root biomass of one tree is a zero
    above 30 cm, and up to 30 cm wherever the power is finite. *)
Lemma root_biomass_default pow species (d : float) :
  dict_get root_biomass_coefficients_8 species = None ->
  dict_get root_biomass_coefficients_9 species = None ->
  is_finite d = true ->
  ((d <=? 30)%float = true -> is_finite (float_pow pow d 2.5) = true) ->
  (root_biomass pow species d =? 0)%float = true.
Proof.
  intros H8 H9 Hfin Hpow. unfold root_biomass, dict_get_default.
  rewrite H8, H9. destruct (d <=? 30)%float.
  - apply zero_mul_finite; [reflexivity|auto].
  - apply zero_add_zero; [reflexivity|].
    apply zero_mul_finite; [reflexivity|exact Hfin].
Qed.

(** X15. Among the species of the two tariff tables, exactly Japanese larch,
    oak, beech, sycamore, ash, birch, elm and poplar are missing from both
    root tables; for each of them calculate_biomass returns a total root
    biomass of zero at every finite mean DBH (up to 30 cm provided the power
    mean_dbh ** 2.5 is finite). *)
Theorem species_without_root_biomass species :
  has_tariff species ->
  (In species species_without_root <->
   dict_get root_biomass_coefficients_8 species = None) /\
  (In species species_without_root <->
   dict_get root_biomass_coefficients_9 species = None) /\
  (In species species_without_root ->
   forall pow ts vs r,
     is_finite (mean_dbh_trees ts) = true ->
     ((mean_dbh_trees ts <=? 30)%float = true ->
      is_finite (float_pow pow (mean_dbh_trees ts) 2.5) = true) ->
     calculate_biomass pow ts species vs = Ok r ->
     (total_root_biomass r =? 0)%float = true).
Proof.
  intros Htab.
  assert (Hlist : (In species species_without_root <->
                   dict_get root_biomass_coefficients_8 species = None) /\
                  (In species species_without_root <->
                   dict_get root_biomass_coefficients_9 species = None)).
  { apply has_tariff_cases in Htab. simpl in Htab.
    repeat (destruct Htab as [<-|Htab];
            [split; split; intros H; try reflexivity; try discriminate;
             simpl; try tauto;
             simpl in H; repeat (destruct H as [H|H]; try discriminate H);
             try contradiction|]).
    destruct Htab. }
  destruct Hlist as [H1 H2]. split; [exact H1|]. split; [exact H2|].
  intros Hin pow ts vs r Hfin Hpow Hrun.
  destruct (calculate_biomass_parts _ _ _ _ _ Hrun)
    as (a & count & _ & Hcount & _ & _ & Hroot & _).
  rewrite Hroot.
  apply zero_mul_finite.
  - apply root_biomass_default;
      [exact (proj1 H1 Hin)|exact (proj1 H2 Hin)|exact Hfin|exact Hpow].
  - exact (int_to_float_finite _ _ Hcount).
Qed.

(** X16. Every species of the two tariff tables has a nominal specific gravity,
    between 0.29 and 0.57; for a species without one, calculate_biomass
    returns a total stem biomass of zero whenever the total stem volume is
    finite. *)
Theorem stem_biomass_needs_a_density species :
  (has_tariff species ->
   exists g, dict_get nominal_specific_gravity species = Some g /\
             (0.29 <=? g)%float = true /\ (g <=? 0.57)%float = true) /\
  (dict_get nominal_specific_gravity species = None ->
   forall pow ts vs r,
     is_finite (total_stem_volume vs) = true ->
     calculate_biomass pow ts species vs = Ok r ->
     (total_stem_biomass r =? 0)%float = true).
Proof.
  split.
  - intros Htab. apply has_tariff_cases in Htab. simpl in Htab.
    repeat (destruct Htab as [<-|Htab];
            [eexists; split; [reflexivity|split; reflexivity]|]).
    destruct Htab.
  - intros Hnone pow ts vs r Hfin Hrun.
    destruct (calculate_biomass_parts _ _ _ _ _ Hrun)
      as (a & count & _ & _ & Hstem & _).
    rewrite Hstem. unfold dict_get_default. rewrite Hnone.
    apply finite_mul_zero; [exact Hfin|reflexivity].
Qed.

(** ** More on [calculate_carbon_and_co2_for_trees_and_saplings] *)

(** Equal floats are below each other. *)
Lemma eqb_leb (x y : float) :
  (x =? y)%float = true -> (x <=? y)%float = true /\ (y <=? x)%float = true.
Proof.
  rewrite FloatAxioms.eqb_spec, !FloatAxioms.leb_spec. unfold SFeqb, SFleb.
  destruct (SFcompare (Prim2SF x) (Prim2SF y)) as [c|] eqn:Hc; [|discriminate].
  rewrite (SFcompare_antisym _ _ _ Hc). destruct c; simpl; try discriminate.
  split; reflexivity.
Qed.

(** A float that is not finite is NaN or an infinity. *)
Lemma not_finite_cases (x : float) :
  is_finite x = false -> x = nan \/ x = infinity \/ x = neg_infinity.
Proof.
  intros H.
  destruct (Prim2SF x) as [s|s| |s m e] eqn:Hx.
  - assert (Hf : float_exact x = Some (0, 0)) by (unfold float_exact; rewrite Hx; reflexivity).
    rewrite (float_exact_is_finite _ _ _ Hf) in H. discriminate.
  - right. destruct s; [right|left]; apply Prim2SF_inj; rewrite Hx; reflexivity.
  - left. apply Prim2SF_inj. rewrite Hx. reflexivity.
  - assert (Hf : float_exact x = Some (cond_Zopp s (Zpos m), e))
      by (unfold float_exact; rewrite Hx; reflexivity).
    rewrite (float_exact_is_finite _ _ _ Hf) in H. discriminate.
Qed.

(** Adding a zero changes nothing. *)
Lemma add_zero_r (x z : float) :
  (z =? 0)%float = true -> is_nan x = false -> (x + z =? x)%float = true.
Proof.
  intros Hz Hx. apply eqb_zero_exact in Hz. destruct Hz as [s Hz].
  unfold is_nan in Hx. rewrite FloatAxioms.eqb_spec in *.
  rewrite FloatAxioms.add_spec, Hz. unfold SFeqb in *.
  destruct (Prim2SF x) as [sx|sx| |sx mx ex] eqn:Hpx.
  - destruct sx, s; reflexivity.
  - destruct sx; reflexivity.
  - discriminate.
  - unfold SF64add, SFadd.
    rewrite (SFcompare_refl (S754_finite sx mx ex)) by discriminate. reflexivity.
Qed.

(** A hit of a sapling table is at a key within the bounds of its keys. *)
Lemma table_get_in_range lo hi table key v :
  keys_between lo hi table = true ->
  table_get table key = Some v ->
  ((lo <=? key) && (key <=? hi))%float = true.
Proof.
  unfold keys_between. induction table as [|[k c] rest IH]; simpl; [discriminate|].
  intros Hb. apply andb_prop in Hb. destruct Hb as [Hk Hrest].
  destruct (k =? key)%float eqn:He.
  - intros _. apply andb_prop in Hk. destruct Hk as [Hlo Hhi].
    destruct (eqb_leb _ _ He) as [H1 H2].
    rewrite (leb_trans _ _ _ Hlo H1), (leb_trans _ _ _ H2 Hhi). reflexivity.
  - apply IH. exact Hrest.
Qed.

(** A hit of a sapling table is one of its values. *)
Lemma table_get_finite table key v :
  values_finite table = true -> table_get table key = Some v ->
  is_finite v = true.
Proof.
  unfold values_finite. induction table as [|[k c] rest IH]; simpl; [discriminate|].
  intros Hb. apply andb_prop in Hb. destruct Hb as [Hk Hrest].
  destruct (k =? key)%float.
  - intros [= <-]. exact Hk.
  - apply IH. exact Hrest.
Qed.

(** The result for a species of a known category whose sapling carbon
    content is the default. *)
Lemma calculate_carbon_default b species n kind h broadleaf :
  is_broadleaf species = Ok broadleaf ->
  sapling_carbon_content broadleaf kind h = Ok None ->
  exists r,
    calculate_carbon_and_co2_for_trees_and_saplings b species n kind h = Ok r /\
    total_carbon_saplings r = 0%float /\
    total_co2_saplings r = 0%float /\
    total_carbon r = (total_carbon_trees r + 0)%float.
Proof.
  intros Hcat Hcontent.
  unfold calculate_carbon_and_co2_for_trees_and_saplings.
  rewrite Hcat. cbn [bind]. rewrite Hcontent. cbn [bind].
  eexists. split; [reflexivity|]. cbn [total_carbon_saplings total_co2_saplings
    total_carbon total_carbon_trees]. repeat split; reflexivity.
Qed.

(** X17. For a broadleaf species, when the mean sapling height rounded to one
    decimal is not between 0.6 and 10 (NaN included),
    calculate_carbon_and_co2_for_trees_and_saplings returns with sapling
    carbon and sapling CO2 equal to 0, whatever the number of saplings. *)
Theorem broadleaf_height_outside_table b species n kind h :
  is_broadleaf species = Ok true ->
  ((0.6 <=? round1 kind h) && (round1 kind h <=? 10))%float = false ->
  exists r,
    calculate_carbon_and_co2_for_trees_and_saplings b species n kind h = Ok r /\
    total_carbon_saplings r = 0%float /\
    total_co2_saplings r = 0%float /\
    total_carbon r = (total_carbon_trees r + 0)%float.
Proof.
  intros Hcat Hout. apply (calculate_carbon_default _ _ _ _ _ true Hcat).
  unfold sapling_carbon_content.
  destruct (table_get broadleaf_carbon_content_per_stem (round1 kind h))
    as [c|] eqn:Hget; [|reflexivity].
  rewrite (table_get_in_range 0.6 10 broadleaf_carbon_content_per_stem _ _ eq_refl Hget) in Hout. discriminate.
Qed.

(** The conifer branch converts the height to an int first. *)
Lemma conifer_content_not_finite kind h :
  is_finite h = false ->
  sapling_carbon_content false kind h
  = Raise (if is_nan h then ValueError msg_nan else OverflowError msg_inf).
Proof.
  intros H. unfold sapling_carbon_content, py_round, float_to_int.
  destruct (float_exact h) as [[M e]|] eqn:Hex.
  - rewrite (float_exact_is_finite _ _ _ Hex) in H. discriminate.
  - destruct (is_nan h); reflexivity.
Qed.

(** X18. With a mean sapling height that is NaN or infinite,
    calculate_carbon_and_co2_for_trees_and_saplings returns zero sapling
    carbon for a broadleaf species and raises for a conifer: round(height)
    raises ValueError on NaN and OverflowError on an infinity. *)
Theorem sapling_height_not_finite b species n kind h :
  is_finite h = false ->
  (is_broadleaf species = Ok true ->
   exists r,
     calculate_carbon_and_co2_for_trees_and_saplings b species n kind h = Ok r /\
     total_carbon_saplings r = 0%float /\ total_co2_saplings r = 0%float) /\
  (is_broadleaf species = Ok false ->
   calculate_carbon_and_co2_for_trees_and_saplings b species n kind h
   = Raise (if is_nan h then ValueError msg_nan else OverflowError msg_inf)).
Proof.
  intros Hfin. split; intros Hcat.
  - assert (Hcontent : sapling_carbon_content true kind h = Ok None).
    { destruct (not_finite_cases h Hfin) as [-> | [-> | ->]];
        destruct kind; vm_compute; reflexivity. }
    destruct (calculate_carbon_default b species n kind h true Hcat Hcontent)
      as (r & Hrun & Hc & Hco2 & _).
    exists r. repeat split; assumption.
  - unfold calculate_carbon_and_co2_for_trees_and_saplings.
    rewrite Hcat. cbn [bind]. rewrite (conifer_content_not_finite kind h Hfin).
    reflexivity.
Qed.

(** X19. When calculate_carbon_and_co2_for_trees_and_saplings returns for 0
    saplings, the sapling carbon and the sapling CO2 are zero, and the total
    carbon and total CO2 equal those of the trees (when these are not NaN). *)
Theorem no_saplings_no_sapling_carbon b species kind h r :
  calculate_carbon_and_co2_for_trees_and_saplings b species 0 kind h = Ok r ->
  (total_carbon_saplings r =? 0)%float = true /\
  (total_co2_saplings r =? 0)%float = true /\
  (is_nan (total_carbon_trees r) = false ->
   (total_carbon r =? total_carbon_trees r)%float = true) /\
  (is_nan (total_co2_trees r) = false ->
   (total_co2 r =? total_co2_trees r)%float = true).
Proof.
  intros Hrun.
  destruct (calculate_carbon_inversion _ _ _ _ _ _ Hrun)
    as (broadleaf & content & _ & Hcontent & Hmul & Htrees & Hco2t & Hco2 & Hsum & Hsum2).
  assert (Hzero : (total_carbon_saplings r =? 0)%float = true).
  { destruct content as [c|].
    - unfold float_mul_int in Hmul. change (int_to_float 0) with (Ok 0%float) in Hmul.
      cbn [bind] in Hmul. injection Hmul as <-.
      apply finite_mul_zero; [|reflexivity].
      unfold sapling_carbon_content in Hcontent. destruct broadleaf.
      + injection Hcontent as Hget.
        exact (table_get_finite broadleaf_carbon_content_per_stem _ _ eq_refl Hget).
      + destruct (py_round h) as [k|]; cbn [bind] in Hcontent; [|discriminate].
        injection Hcontent as Hget.
        exact (table_get_finite conifer_carbon_content_per_stem _ _ eq_refl Hget).
    - injection Hmul as <-. reflexivity. }
  split; [exact Hzero|]. split.
  - rewrite Hco2. apply zero_mul_finite; [exact Hzero|reflexivity].
  - split; intros Hnan.
    + rewrite Hsum. apply add_zero_r; assumption.
    + rewrite Hsum2. apply add_zero_r; [|exact Hnan].
      rewrite Hco2. apply zero_mul_finite; [exact Hzero|reflexivity].
Qed.

(** ** The float of a small int *)

Lemma digits2_upper_bound (p : positive) : Zpos p < 2 ^ Zpos (digits2_pos p).
Proof.
  induction p as [p IH|p IH|]; simpl digits2_pos.
  - rewrite Pos2Z.inj_succ, Z.pow_succ_r by lia. lia.
  - rewrite Pos2Z.inj_succ, Z.pow_succ_r by lia. lia.
  - reflexivity.
Qed.

Lemma iter_xO_value (p k : positive) :
  Zpos (Pos.iter xO p k) = Zpos p * 2 ^ Zpos k.
Proof.
  induction k as [|k IH] using Pos.peano_ind.
  - simpl. lia.
  - rewrite Pos.iter_succ, Pos2Z.inj_succ, Z.pow_succ_r by lia.
    rewrite Pos2Z.inj_xO, IH. lia.
Qed.

(** A positive int below [2^53] becomes the float with that value: its
    mantissa is the int shifted to 53 bits. *)
Lemma Z2F_small_value (s : bool) (p : positive) :
  Zpos p < 2 ^ 53 ->
  exists m e,
    Prim2SF (Z2F (cond_Zopp s (Zpos p))) = S754_finite s m e /\
    e = Zpos (digits2_pos p) - 53 /\ e <= 0 /\
    Zpos m = Zpos p * 2 ^ (- e).
Proof.
  intros Hp. pose proof (digits2_small p Hp) as Hd.
  assert (Hround : exists m e,
            binary_round prec emax s p 0 = S754_finite s m e /\
            valid_binary (S754_finite s m e) = true /\
            e = Zpos (digits2_pos p) - 53 /\ Zpos m = Zpos p * 2 ^ (- e)).
  { unfold binary_round. corelib_Z.
    set (d := digits2_pos p) in *.
    assert (Hf : fexp prec emax (Zpos d + 0) = Zpos d - 53).
    { unfold fexp, SpecFloat.emin, prec, emax. corelib_Z. lia. }
    rewrite Hf. unfold shl_align. corelib_Z.
    destruct (Zpos d - 53 - 0) as [|k|k] eqn:Hk.
    - exists p, 0.
      destruct (binary_round_aux_full_mantissa s p 0) as [H1 H2]; [fold d; lia|lia|].
      repeat split; try assumption; try lia.
    - lia.
    - exists (Pos.iter xO p k), (Zpos d - 53).
      destruct (binary_round_aux_full_mantissa s (Pos.iter xO p k) (Zpos d - 53))
        as [H1 H2]; [rewrite digits2_iter_xO; fold d; lia|lia|].
      repeat split; try assumption.
      rewrite iter_xO_value. f_equal. f_equal. lia. }
  destruct Hround as (m & e & Hr & Hv & He & Hm).
  exists m, e.
  destruct s; simpl cond_Zopp; unfold Z2F, binary_normalize;
    rewrite Hr, (Prim2SF_SF2Prim _ Hv); repeat split; try assumption; lia.
Qed.

(** The order of two positive numbers, read on exponent and mantissa. *)
Lemma SFleb_finite_pos (m1 : positive) (e1 : Z) (m2 : positive) (e2 : Z) :
  SFleb (S754_finite false m1 e1) (S754_finite false m2 e2) = true ->
  e1 < e2 \/ (e1 = e2 /\ Zpos m1 <= Zpos m2).
Proof.
  unfold SFleb. cbn [SFcompare]. change IntDef.Z.compare with Z.compare.
  destruct (Z.compare_spec e1 e2) as [Heq|Hlt|Hgt].
  - intros H. right. split; [exact Heq|].
    apply Pos2Z.pos_le_pos. unfold Pos.le, Pos.compare. intros Hc.
    change PosDef.Pos.compare_cont with Pos.compare_cont in H.
    rewrite Hc in H. discriminate.
  - intros _. left. exact Hlt.
  - discriminate.
Qed.

(** An int whose float lies between 0.6 and 10 is one of 1, ..., 10. *)
Lemma Z2F_in_table_range (k : Z) :
  Z.abs k < 2 ^ 53 ->
  ((0.6 <=? Z2F k) && (Z2F k <=? 10))%float = true -> 1 <= k <= 10.
Proof.
  intros Hk H. apply andb_prop in H. destruct H as [Hlo Hhi].
  destruct k as [|p|p].
  - exfalso. revert Hlo. vm_compute. discriminate.
  - destruct (Z2F_small_value false p) as (m & e & Hsf & He & He0 & Hm);
      [exact Hk|].
    simpl cond_Zopp in Hsf.
    rewrite FloatAxioms.leb_spec, Hsf in Hhi. clear Hlo Hsf.
    change (Prim2SF 10) with (S754_finite false 5629499534213120 (-49)) in Hhi.
    apply SFleb_finite_pos in Hhi.
    pose proof (digits2_upper_bound p) as Hup.
    split; [clear; lia|].
    destruct Hhi as [Hlt|[Heq Hle]].
    + assert (Hd : Zpos (digits2_pos p) <= 3) by lia.
      assert (Hpow : 2 ^ Zpos (digits2_pos p) <= 2 ^ 3)
        by (apply Z.pow_le_mono_r; lia).
      change (2 ^ 3) with 8 in Hpow. lia.
    + replace (- e) with 49 in Hm by lia.
      change (2 ^ 49) with 562949953421312 in Hm. lia.
  - destruct (Z2F_small_value true p) as (m & e & Hsf & _); [exact Hk|].
    simpl cond_Zopp in Hsf.
    rewrite FloatAxioms.leb_spec, Hsf in Hlo. exfalso. revert Hlo.
    change (Prim2SF 0.6) with (S754_finite false 5404319552844595 (-53)).
    unfold SFleb. cbn [SFcompare]. discriminate.
Qed.

(** The conifer table at an int key. *)
Lemma conifer_table_at_int (k : Z) :
  Z.abs k < 2 ^ 53 ->
  table_get conifer_carbon_content_per_stem (Z2F k)
  = if (1 <=? k) && (k <=? 10)
    then nth_error conifer_whole_metres (Z.to_nat (k - 1))
    else None.
Proof.
  intros Hk.
  destruct ((1 <=? k) && (k <=? 10)) eqn:Hin.
  - apply andb_prop in Hin. destruct Hin as [H1 H10].
    apply Z.leb_le in H1, H10.
    assert (Hcases : k = 1 \/ k = 2 \/ k = 3 \/ k = 4 \/ k = 5 \/ k = 6 \/
                     k = 7 \/ k = 8 \/ k = 9 \/ k = 10) by lia.
    repeat (destruct Hcases as [->|Hcases]; [vm_compute; reflexivity|]).
    subst k. vm_compute. reflexivity.
  - destruct (table_get conifer_carbon_content_per_stem (Z2F k)) as [c|] eqn:Hget;
      [|reflexivity].
    pose proof (table_get_in_range 0.6 10 conifer_carbon_content_per_stem _ _
                  eq_refl Hget) as Hr.
    apply (Z2F_in_table_range k Hk) in Hr.
    apply andb_false_iff in Hin. destruct Hin as [Hin|Hin];
      apply Z.leb_gt in Hin; lia.
Qed.

(** X20. For a conifer the sapling table is read at round(height), an int: for a
    rounded height k (below 2^53 in magnitude) from 1 to 10 the carbon per
    stem is the table row at k.0 metres, and for any other k the function
    returns with sapling carbon and sapling CO2 equal to 0; the rows at the
    other heights are never read. *)
Theorem conifer_heights_read_at_whole_metres b species n kind h k :
  is_broadleaf species = Ok false ->
  py_round h = Ok k -> Z.abs k < 2 ^ 53 ->
  sapling_carbon_content false kind h
  = Ok (if (1 <=? k) && (k <=? 10)
        then nth_error conifer_whole_metres (Z.to_nat (k - 1))
        else None) /\
  (k < 1 \/ 10 < k ->
   exists r,
     calculate_carbon_and_co2_for_trees_and_saplings b species n kind h = Ok r /\
     total_carbon_saplings r = 0%float /\
     total_co2_saplings r = 0%float).
Proof.
  intros Hcat Hround Hk.
  assert (Hcontent : sapling_carbon_content false kind h
                     = Ok (if (1 <=? k) && (k <=? 10)
                           then nth_error conifer_whole_metres (Z.to_nat (k - 1))
                           else None)).
  { unfold sapling_carbon_content. rewrite Hround. cbn [bind].
    rewrite (conifer_table_at_int k Hk). reflexivity. }
  split; [exact Hcontent|].
  intros Hout.
  assert (Hno : (1 <=? k) && (k <=? 10) = false).
  { apply andb_false_iff. destruct Hout; [left|right]; apply Z.leb_gt; lia. }
  rewrite Hno in Hcontent.
  destruct (calculate_carbon_default b species n kind h false Hcat Hcontent)
    as (r & Hrun & Hc & Hco2 & _).
  exists r. repeat split; assumption.
Qed.

(** ** More on [calculate_and_print_species_biomass_and_carbon] *)

(** What a round of the loop needs does not depend on the totals so far. *)
Lemma species_step_inversion pow ts acc species acc' :
  species_step pow ts acc species = Ok acc' ->
  exists a vs bs cs,
    dict_get (species_distribution ts) species = Some a /\
    calculate_tariff_numbers_and_volume ts species = Ok vs /\
    calculate_biomass pow ts species vs = Ok bs /\
    calculate_carbon_and_co2_for_trees_and_saplings bs species (saplings a)
      numpy_float64 (mean_sapling_height ts) = Ok cs.
Proof.
  unfold species_step, dict_item.
  destruct (dict_get (species_distribution ts) species) as [a|] eqn:Ha;
    cbn [bind]; [|discriminate].
  destruct (calculate_tariff_numbers_and_volume ts species) as [vs|] eqn:Hv;
    cbn [bind]; [|discriminate].
  destruct (calculate_biomass pow ts species vs) as [bs|] eqn:Hb;
    cbn [bind]; [|discriminate].
  destruct (calculate_carbon_and_co2_for_trees_and_saplings bs species
              (saplings a) numpy_float64 (mean_sapling_height ts)) as [cs|] eqn:Hc;
    cbn [bind]; [|discriminate].
  intros _. exists a, vs, bs, cs. auto.
Qed.

Lemma species_step_any_totals pow ts acc acc' species :
  (returns (species_step pow ts acc species) ->
   returns (species_step pow ts acc' species)) /\
  (forall e, species_step pow ts acc species = Raise e ->
             species_step pow ts acc' species = Raise e).
Proof.
  unfold species_step, dict_item.
  destruct (dict_get (species_distribution ts) species) as [a|];
    cbn [bind]; [|split; [intros [r [=]]|auto]].
  destruct (calculate_tariff_numbers_and_volume ts species) as [vs|];
    cbn [bind]; [|split; [intros [r [=]]|auto]].
  destruct (calculate_biomass pow ts species vs) as [bs|];
    cbn [bind]; [|split; [intros [r [=]]|auto]].
  destruct (calculate_carbon_and_co2_for_trees_and_saplings bs species
              (saplings a) numpy_float64 (mean_sapling_height ts)) as [cs|];
    cbn [bind]; [|split; [intros [r [=]]|auto]].
  split; [intros _; eexists; reflexivity|discriminate].
Qed.

Lemma species_loop_returns pow ts species_list :
  forall acc,
    returns (species_loop pow ts species_list acc) <->
    (forall species, In species species_list ->
                     returns (species_step pow ts zero_totals species)).
Proof.
  induction species_list as [|s rest IH]; intros acc; simpl.
  - split; [intros _ species []|intros _; eexists; reflexivity].
  - destruct (species_step pow ts acc s) as [acc'|e] eqn:Hs; cbn [bind].
    + rewrite IH. split.
      * intros H species [<-|Hin]; [|auto].
        apply (proj1 (species_step_any_totals pow ts acc zero_totals s)).
        eexists; exact Hs.
      * intros H species Hin. apply H. right. exact Hin.
    + split; [intros [r [=]]|].
      intros H. exfalso.
      destruct (H s (or_introl eq_refl)) as [r Hr].
      rewrite (proj2 (species_step_any_totals pow ts acc zero_totals s) e Hs) in Hr.
      discriminate.
Qed.

Lemma species_loop_first_error pow ts species_list e :
  forall acc,
    species_loop pow ts species_list acc = Raise e <->
    (exists before species after,
       species_list = before ++ species :: after /\
       (forall s, In s before -> returns (species_step pow ts zero_totals s)) /\
       species_step pow ts zero_totals species = Raise e).
Proof.
  induction species_list as [|s rest IH]; intros acc; simpl.
  - split; [discriminate|].
    intros (before & species & after & Heq & _). destruct before; discriminate.
  - destruct (species_step pow ts acc s) as [acc'|e'] eqn:Hs; cbn [bind].
    + rewrite IH. split.
      * intros (before & species & after & -> & Hbefore & Hraise).
        exists (s :: before), species, after. split; [reflexivity|].
        split; [|exact Hraise].
        intros s' [<-|Hin]; [|auto].
        apply (proj1 (species_step_any_totals pow ts acc zero_totals s)).
        eexists; exact Hs.
      * intros (before & species & after & Heq & Hbefore & Hraise).
        destruct before as [|s' before]; simpl in Heq; injection Heq as <- ->.
        -- apply (proj2 (species_step_any_totals pow ts zero_totals acc s)) in Hraise.
           rewrite Hraise in Hs. discriminate.
        -- exists before, species, after. split; [reflexivity|].
           split; [|exact Hraise]. intros s0 Hin. apply Hbefore. right. exact Hin.
    + pose proof (proj2 (species_step_any_totals pow ts acc zero_totals s) e' Hs)
        as Hs0.
      split.
      * intros [= <-]. exists [], s, rest. split; [reflexivity|].
        split; [intros s' []|exact Hs0].
      * intros (before & species & after & Heq & Hbefore & Hraise).
        destruct before as [|s' before]; simpl in Heq; injection Heq as <- ->.
        -- rewrite Hs0 in Hraise. exact Hraise.
        -- destruct (Hbefore s (or_introl eq_refl)) as [r Hr].
           rewrite Hs0 in Hr. discriminate.
Qed.

(** X21. calculate_and_print_species_biomass_and_carbon returns exactly when the
    round of every species of the mapping returns, whatever totals have been
    accumulated; when it raises, the error is that of the first species, in
    mapping order, whose round raises. *)
Theorem pipeline_stops_at_first_error pow ts species_percentages :
  (returns (calculate_and_print_species_biomass_and_carbon pow ts
              species_percentages) <->
   (forall species,
      In species (keys species_percentages) ->
      returns (species_step pow ts zero_totals species))) /\
  (forall e,
     calculate_and_print_species_biomass_and_carbon pow ts species_percentages
     = Raise e <->
     (exists before species after,
        keys species_percentages = before ++ species :: after /\
        (forall s, In s before -> returns (species_step pow ts zero_totals s)) /\
        species_step pow ts zero_totals species = Raise e)).
Proof.
  unfold calculate_and_print_species_biomass_and_carbon. split.
  - apply species_loop_returns.
  - intros e. apply species_loop_first_error.
Qed.

(** The species in a tariff table and in a category. *)
Lemma supported_species_spec species :
  In species supported_species <->
  has_tariff species /\ returns (is_broadleaf species).
Proof.
  split.
  - intros H. simpl in H.
    repeat (destruct H as [<-|H];
            [split; [first [left; discriminate|right; discriminate]
                    |eexists; reflexivity]|]).
    destruct H.
  - intros [Htab [b Hcat]]. apply has_tariff_cases in Htab. simpl in Htab.
    repeat (destruct Htab as [<-|Htab];
            [first [discriminate Hcat|simpl; tauto]|]).
    destruct Htab.
Qed.

(** X22. A species is in a tariff table and in a category exactly when it is one
    of the twelve conifers of the tariff table, oak or beech; when
    calculate_and_print_species_biomass_and_carbon returns, every species of
    the mapping is one of these fourteen. *)
Theorem pipeline_species_are_supported pow ts species_percentages :
  (forall species,
     In species supported_species <->
     has_tariff species /\ returns (is_broadleaf species)) /\
  (returns (calculate_and_print_species_biomass_and_carbon pow ts
              species_percentages) ->
   forall species,
     In species (keys species_percentages) -> In species supported_species).
Proof.
  split; [exact supported_species_spec|].
  unfold calculate_and_print_species_biomass_and_carbon.
  intros Hrun species Hin.
  destruct (proj1 (species_loop_returns pow ts _ zero_totals) Hrun species Hin)
    as [acc Hstep].
  destruct (species_step_inversion _ _ _ _ _ Hstep)
    as (a & vs & bs & cs & _ & Hv & _ & Hc).
  apply supported_species_spec. split.
  - destruct (has_tariff_dec species) as [Htab|[H1 H2]]; [exact Htab|].
    rewrite (calculate_tariff_unknown_species _ _ H1 H2) in Hv. discriminate.
  - destruct (is_broadleaf species) as [b|e] eqn:Hcat; [eexists; reflexivity|].
    rewrite (calculate_carbon_unknown_species _ _ _ _ _ _ Hcat) in Hc.
    discriminate.
Qed.

(** X23. On the statistics tree_statistics returns for a stratum without trees,
    calculate_and_print_species_biomass_and_carbon does not return for any
    non-empty mapping; on those of a stratum without saplings it does not
    return for a mapping that names a conifer. *)
Theorem empty_classes_stop_the_pipeline pow df percentages planting_mix year ts :
  tree_statistics pow df percentages planting_mix year = Ok ts ->
  (number_of_trees ts = 0 -> percentages <> [] ->
   ~ returns (calculate_and_print_species_biomass_and_carbon pow ts percentages)) /\
  (number_of_saplings ts = 0 ->
   forall species,
     In species (keys percentages) -> is_broadleaf species = Ok false ->
     ~ returns (calculate_and_print_species_biomass_and_carbon pow ts percentages)).
Proof.
  intros Hstats. unfold calculate_and_print_species_biomass_and_carbon.
  destruct (means_of_nothing _ _ _ _ _ _ Hstats) as [Htrees Hsaplings].
  split.
  - intros H0 Hne Hrun. destruct (Htrees H0) as [Hh _].
    destruct percentages as [|[species p] rest]; [congruence|].
    destruct (proj1 (species_loop_returns pow ts _ zero_totals) Hrun species
                (or_introl eq_refl)) as [acc Hstep].
    destruct (species_step_inversion _ _ _ _ _ Hstep)
      as (a & vs & bs & cs & _ & Hv & _).
    destruct (has_tariff_dec species) as [Htab|[H1 H2]].
    + rewrite (calculate_tariff_nan ts species Htab (or_introl Hh)) in Hv.
      discriminate.
    + rewrite (calculate_tariff_unknown_species _ _ H1 H2) in Hv. discriminate.
  - intros H0 species Hin Hcat Hrun.
    destruct (proj1 (species_loop_returns pow ts _ zero_totals) Hrun species Hin)
      as [acc Hstep].
    destruct (species_step_inversion _ _ _ _ _ Hstep)
      as (a & vs & bs & cs & _ & _ & _ & Hc).
    rewrite (Hsaplings H0) in Hc.
    unfold calculate_carbon_and_co2_for_trees_and_saplings in Hc.
    rewrite Hcat in Hc. cbn [bind] in Hc.
    rewrite (conifer_content_not_finite numpy_float64 nan eq_refl) in Hc.
    discriminate.
Qed.

(** ** The further properties at work *)

Lemma only_oak_well_formed : well_formed only_oak.
Proof. unfold well_formed, only_oak; simpl. repeat constructor; simpl; tauto. Qed.

Lemma oak_and_no_beech_well_formed : well_formed oak_and_no_beech.
Proof.
  unfold well_formed, oak_and_no_beech; simpl.
  repeat constructor; simpl; intuition discriminate.
Qed.

Ltac run_statistics := eexists; split; [vm_compute; reflexivity|].

(** [classes_split_the_stratum] on three trees and a sapling. *)
Lemma classes_split_witness :
  exists ts,
    tree_statistics pow_of_examples four_rows three_species "Mixed Wood" 1 = Ok ts /\
    (number_of_trees ts + number_of_saplings ts
     = class_count four_rows "Mixed Wood" 1 is_measured /\
     number_of_trees ts + number_of_saplings ts
     <= Z.of_nat (List.length (filter (in_stratum "Mixed Wood" 1) four_rows)) /\
     0 <= number_of_largetrees ts <= number_of_trees ts).
Proof.
  run_statistics.
  match goal with
  | |- number_of_trees ?t + _ = _ /\ _ =>
      exact (classes_split_the_stratum pow_of_examples four_rows three_species
               "Mixed Wood" 1 t ltac:(vm_compute; reflexivity))
  end.
Defined.

(** [other_strata_are_ignored]: a row of another stratum changes nothing. *)
Lemma other_strata_witness :
  tree_statistics pow_of_examples (other_row :: four_rows) three_species
    "Mixed Wood" 1
  = tree_statistics pow_of_examples four_rows three_species "Mixed Wood" 1.
Proof. apply other_strata_are_ignored. reflexivity. Defined.

(** [proportions_must_be_finite] on a proportion that is NaN. *)
Lemma proportions_witness :
  ~ returns (tree_statistics pow_of_examples four_rows oak_at_nan "Mixed Wood" 1).
Proof.
  apply (proportions_must_be_finite pow_of_examples four_rows oak_at_nan
           "Mixed Wood" 1 "oak" nan); [left; reflexivity|reflexivity].
Defined.

(** [empty_classes_have_no_mean] on a stratum of one tree: no sapling and no
    large tree. *)
Lemma empty_classes_witness :
  exists ts,
    tree_statistics pow_of_examples one_tree only_oak "Mixed Wood" 1 = Ok ts /\
    mean_sapling_height ts = nan /\ mean_largetree_height ts = None.
Proof.
  run_statistics.
  match goal with
  | |- mean_sapling_height ?t = _ /\ _ =>
      destruct (empty_classes_have_no_mean pow_of_examples one_tree only_oak
                  "Mixed Wood" 1 t ltac:(vm_compute; reflexivity))
        as (_ & Hs & Hl & _)
  end.
  split; [exact (proj1 (Hs eq_refl))|exact (proj1 Hl eq_refl)].
Defined.

(** [remainder_goes_round_robin]: three trees and one sapling at 30% each
    leave everything to the remainder; beech, second of three, gets a tree
    and no sapling. *)
Lemma round_robin_witness :
  exists ts,
    tree_statistics pow_of_examples four_rows three_species "Mixed Wood" 1 = Ok ts /\
    dict_get (species_distribution ts) "beech"
    = Some {| trees := 1; saplings := 0; largetrees := 0 |}.
Proof.
  run_statistics.
  match goal with
  | |- dict_get (species_distribution ?t) _ = _ =>
      destruct (remainder_goes_round_robin pow_of_examples four_rows
                  three_species "Mixed Wood" 1 t 1%nat "beech" 0.3%float
                  three_species_well_formed ltac:(vm_compute; reflexivity)
                  eq_refl)
        as (a & b & c & Ha & Hb & Hc & Hget)
  end.
  rewrite Hget. vm_compute in Ha, Hb, Hc.
  injection Ha as <-. injection Hb as <-. injection Hc as <-.
  vm_compute. reflexivity.
Defined.

(** [remainder_is_spread_evenly] between oak, first, and Scots pine, third:
    oak has the one sapling. *)
Lemma spread_evenly_witness :
  exists ts a1 a2,
    tree_statistics pow_of_examples four_rows three_species "Mixed Wood" 1 = Ok ts /\
    dict_get (species_distribution ts) "oak" = Some a1 /\
    dict_get (species_distribution ts) "Scots pine" = Some a2 /\
    exists t1 t2 s1 s2 l1 l2,
      share (number_of_trees ts) 0.3 = Ok t1 /\
      share (number_of_trees ts) 0.3 = Ok t2 /\
      share (number_of_saplings ts) 0.3 = Ok s1 /\
      share (number_of_saplings ts) 0.3 = Ok s2 /\
      share (number_of_largetrees ts) 0.3 = Ok l1 /\
      share (number_of_largetrees ts) 0.3 = Ok l2 /\
      (0 <= trees a2 - t2 <= trees a1 - t1 /\ trees a1 - t1 <= trees a2 - t2 + 1) /\
      (0 <= saplings a2 - s2 <= saplings a1 - s1 /\
       saplings a1 - s1 <= saplings a2 - s2 + 1) /\
      (0 <= largetrees a2 - l2 <= largetrees a1 - l1 /\
       largetrees a1 - l1 <= largetrees a2 - l2 + 1).
Proof.
  eexists. do 2 eexists. split; [vm_compute; reflexivity|].
  split; [vm_compute; reflexivity|]. split; [vm_compute; reflexivity|].
  match goal with
  | |- exists t1 t2 s1 s2 l1 l2, share (number_of_trees ?t) _ = _ /\ _ =>
      exact (remainder_is_spread_evenly pow_of_examples four_rows three_species
               "Mixed Wood" 1 t 0%nat 2%nat "oak" 0.3%float "Scots pine"
               0.3%float _ _ three_species_well_formed
               ltac:(vm_compute; reflexivity) eq_refl eq_refl
               ltac:(repeat constructor) ltac:(vm_compute; reflexivity)
               ltac:(vm_compute; reflexivity))
  end.
Defined.

(** [counts_are_not_negative] on three species at 30% each. *)
Lemma counts_witness :
  exists ts,
    tree_statistics pow_of_examples four_rows three_species "Mixed Wood" 1 = Ok ts /\
    forall species a,
      dict_get (species_distribution ts) species = Some a ->
      0 <= trees a /\ 0 <= saplings a /\ 0 <= largetrees a.
Proof.
  run_statistics.
  match goal with
  | |- forall species a, dict_get (species_distribution ?t) _ = _ -> _ =>
      apply (counts_are_not_negative pow_of_examples four_rows three_species
               "Mixed Wood" 1 t three_species_well_formed)
  end.
  - intros species p [H|[H|[H|[]]]]; injection H as <- <-; reflexivity.
  - vm_compute. reflexivity.
  - vm_compute. reflexivity.
  - vm_compute. reflexivity.
Defined.

(** [no_volume_without_trees] on a stratum of one sapling. *)
Lemma no_volume_witness :
  exists ts,
    tree_statistics pow_of_examples one_sapling only_oak "Mixed Wood" 1 = Ok ts /\
    calculate_tariff_numbers_and_volume ts "oak" = Raise (ValueError msg_nan).
Proof.
  run_statistics.
  match goal with
  | |- calculate_tariff_numbers_and_volume ?t _ = _ =>
      apply (proj1 (no_volume_without_trees pow_of_examples one_sapling only_oak
                      "Mixed Wood" 1 t "oak" ltac:(vm_compute; reflexivity)
                      eq_refl))
  end.
  right. vm_compute. discriminate.
Defined.

(** [volume_errors_in_order]: ash has a tariff and a finite regression value
    on these statistics, and no entry in a distribution over three other
    species. *)
Lemma volume_errors_witness :
  exists ts,
    tree_statistics pow_of_examples four_rows three_species "Mixed Wood" 1 = Ok ts /\
    calculate_tariff_numbers_and_volume ts "ash" = Raise (KeyError "ash").
Proof.
  run_statistics.
  match goal with
  | |- calculate_tariff_numbers_and_volume ?t _ = _ =>
      destruct (volume_errors_in_order t "ash" _ eq_refl) as (_ & _ & Hkey)
  end.
  eapply Hkey; [reflexivity|vm_compute; reflexivity|reflexivity].
Defined.

(** [no_trees_no_volume]: beech, listed at 0%, has no tree and no volume. *)
Lemma no_trees_witness :
  exists ts r,
    tree_statistics pow_of_examples four_rows oak_and_no_beech "Mixed Wood" 1
    = Ok ts /\
    calculate_tariff_numbers_and_volume ts "beech" = Ok r /\
    (total_stem_volume r =? 0)%float = true.
Proof.
  do 2 eexists. split; [vm_compute; reflexivity|].
  match goal with
  | |- calculate_tariff_numbers_and_volume ?ts _ = _ /\ _ => pose (stats := ts)
  end.
  split; [vm_compute; reflexivity|].
  match goal with
  | |- (total_stem_volume ?r =? 0)%float = true =>
      apply (no_trees_no_volume stats "beech" r
               {| trees := 0; saplings := 0; largetrees := 0 |})
  end; vm_compute; reflexivity.
Defined.

(** [species_without_crown_biomass] on ash, with a mean DBH of about 9 cm. *)
Lemma without_crown_witness :
  exists ts vs r,
    tree_statistics pow_of_examples four_rows only_ash "Mixed Wood" 1 = Ok ts /\
    calculate_tariff_numbers_and_volume ts "ash" = Ok vs /\
    calculate_biomass pow_of_examples ts "ash" vs = Ok r /\
    (total_crown_biomass r =? 0)%float = true.
Proof.
  do 3 eexists. split; [vm_compute; reflexivity|].
  match goal with
  | |- calculate_tariff_numbers_and_volume ?ts _ = _ /\ _ => pose (stats := ts)
  end.
  split; [vm_compute; reflexivity|].
  match goal with
  | |- calculate_biomass _ _ _ ?vs = _ /\ _ => pose (volume := vs)
  end.
  split; [vm_compute; reflexivity|].
  match goal with
  | |- (total_crown_biomass ?r =? 0)%float = true =>
      apply (proj2 (proj2 (species_without_crown_biomass "ash"
                             ltac:(right; vm_compute; discriminate)))
               ltac:(simpl; tauto) pow_of_examples stats volume r)
  end; vm_compute; reflexivity.
Defined.

(** [no_crown_below_7] on a stratum without trees: the mean DBH is NaN. *)
Lemma no_crown_witness :
  exists ts r,
    tree_statistics pow_of_examples one_sapling only_oak "Mixed Wood" 1 = Ok ts /\
    calculate_biomass pow_of_examples ts "oak"
      {| tariff_number := 9; mean_tree_volume := 0; total_stem_volume := 0 |}
    = Ok r /\
    total_crown_biomass r = 0%float.
Proof.
  do 2 eexists. split; [vm_compute; reflexivity|].
  match goal with
  | |- calculate_biomass _ ?ts _ _ = _ /\ _ => pose (stats := ts)
  end.
  split; [vm_compute; reflexivity|].
  match goal with
  | |- total_crown_biomass ?r = _ =>
      apply (no_crown_below_7 pow_of_examples stats "oak"
               {| tariff_number := 9; mean_tree_volume := 0;
                  total_stem_volume := 0 |} r)
  end; vm_compute; reflexivity.
Defined.

(** [species_without_root_biomass] on oak, with a mean DBH of about 9 cm. *)
Lemma without_root_witness :
  exists ts vs r,
    tree_statistics pow_of_examples four_rows only_oak "Mixed Wood" 1 = Ok ts /\
    calculate_tariff_numbers_and_volume ts "oak" = Ok vs /\
    calculate_biomass pow_of_examples ts "oak" vs = Ok r /\
    (total_root_biomass r =? 0)%float = true.
Proof.
  do 3 eexists. split; [vm_compute; reflexivity|].
  match goal with
  | |- calculate_tariff_numbers_and_volume ?ts _ = _ /\ _ => pose (stats := ts)
  end.
  split; [vm_compute; reflexivity|].
  match goal with
  | |- calculate_biomass _ _ _ ?vs = _ /\ _ => pose (volume := vs)
  end.
  split; [vm_compute; reflexivity|].
  match goal with
  | |- (total_root_biomass ?r =? 0)%float = true =>
      apply (proj2 (proj2 (species_without_root_biomass "oak"
                             ltac:(right; vm_compute; discriminate)))
               ltac:(simpl; tauto) pow_of_examples stats volume r)
  end; try (intros _); vm_compute; reflexivity.
Defined.

(** [broadleaf_height_outside_table]: an oak sapling of half a metre. *)
Lemma outside_table_witness :
  exists r,
    calculate_carbon_and_co2_for_trees_and_saplings ten_tonnes "oak" 3
      numpy_float64 0.5 = Ok r /\
    total_carbon_saplings r = 0%float /\
    total_co2_saplings r = 0%float /\
    total_carbon r = (total_carbon_trees r + 0)%float.
Proof.
  apply broadleaf_height_outside_table; vm_compute; reflexivity.
Defined.

(** [sapling_height_not_finite]: the NaN height of a stratum without
    saplings, for an oak and for a Scots pine. *)
Lemma not_finite_witness :
  (exists r,
     calculate_carbon_and_co2_for_trees_and_saplings ten_tonnes "oak" 0
       numpy_float64 nan = Ok r /\
     total_carbon_saplings r = 0%float /\ total_co2_saplings r = 0%float) /\
  calculate_carbon_and_co2_for_trees_and_saplings ten_tonnes "Scots pine" 0
    numpy_float64 nan
  = Raise (ValueError msg_nan).
Proof.
  split.
  - apply (proj1 (sapling_height_not_finite ten_tonnes "oak" 0 numpy_float64
                    nan eq_refl)). reflexivity.
  - apply (proj2 (sapling_height_not_finite ten_tonnes "Scots pine" 0
                    numpy_float64 nan eq_refl)). reflexivity.
Defined.

(** [no_saplings_no_sapling_carbon] on an oak without saplings. *)
Lemma no_saplings_witness :
  exists r,
    calculate_carbon_and_co2_for_trees_and_saplings ten_tonnes "oak" 0
      numpy_float64 3.45 = Ok r /\
    (total_carbon_saplings r =? 0)%float = true /\
    (total_co2_saplings r =? 0)%float = true.
Proof.
  eexists. split; [vm_compute; reflexivity|].
  match goal with
  | |- (total_carbon_saplings ?r =? 0)%float = true /\ _ =>
      destruct (no_saplings_no_sapling_carbon ten_tonnes "oak" numpy_float64
                  3.45 r ltac:(vm_compute; reflexivity)) as (H1 & H2 & _)
  end.
  split; assumption.
Defined.

(** [conifer_heights_read_at_whole_metres]: a Scots pine sapling of 2.5 m is
    read at 2 m, one of 10.6 m at 11 m, where the table has no row. *)
Lemma whole_metres_witness :
  sapling_carbon_content false numpy_float64 2.5 = Ok (Some 0.0002626%float) /\
  exists r,
    calculate_carbon_and_co2_for_trees_and_saplings ten_tonnes "Scots pine" 3
      numpy_float64 10.6 = Ok r /\
    total_carbon_saplings r = 0%float /\
    total_co2_saplings r = 0%float.
Proof.
  split.
  - exact (proj1 (conifer_heights_read_at_whole_metres ten_tonnes "Scots pine"
                    3 numpy_float64 2.5 2 eq_refl eq_refl eq_refl)).
  - apply (proj2 (conifer_heights_read_at_whole_metres ten_tonnes "Scots pine"
                    3 numpy_float64 10.6 11 eq_refl eq_refl eq_refl)).
    right. reflexivity.
Defined.

(** [empty_classes_stop_the_pipeline] on a stratum of one sapling. *)
Lemma empty_classes_pipeline_witness :
  exists ts,
    tree_statistics pow_of_examples one_sapling only_oak "Mixed Wood" 1 = Ok ts /\
    ~ returns (calculate_and_print_species_biomass_and_carbon pow_of_examples
                 ts only_oak).
Proof.
  run_statistics.
  match goal with
  | |- ~ returns (calculate_and_print_species_biomass_and_carbon _ ?t _) =>
      apply (proj1 (empty_classes_stop_the_pipeline pow_of_examples one_sapling
                      only_oak "Mixed Wood" 1 t ltac:(vm_compute; reflexivity)))
  end; [reflexivity|discriminate].
Defined.

